(** * Mastery, streak and recommendation engine of the quiz backend

    A shallow embedding of [backend/routes/progress.js] (the
    [POST /api/progress/submit-answer] handler) and of
    [backend/routes/recommendations.js] (the [GET /api/recommendations]
    handler), together with the Mongoose documents they read and write.

    A second part embeds the routes around them: the other routes of the
    two files (my-progress, topic, reset, weak-areas, ready-for-review),
    the quiz routes that issue the question ids ([routes/quiz.js]), the
    invite links ([models/InviteLink.js], [routes/invite.js]: create,
    validate, join, quick-login, deactivate), the two admin routes that
    change an account ([routes/admin.js]: toggle-status, delete) and the
    statistics of a user ([routes/users.js]).

    Conventions of the embedding.
    - A JavaScript Number holding a mastery, a score or a ratio is an exact
      rational ([Q]); counters and millisecond timestamps are integers ([Z]).
      The rounding of IEEE doubles is modelled for the mastery update alone
      ([newMasteryDouble]), to tell what of its algebra survives rounding.
    - A string is the sequence of the bytes of its UTF-8 encoding. White
      space is the full set of ECMAScript, in its encoded form; case
      conversion is modelled on the ASCII letters only, and what is stated
      of the comparison of answers is stated for ASCII strings.
    - [undefined], [null] and [NaN] are [None] of the option type at hand;
      a field of a request body that may hold any value is a [JsValue], a
      parameter of the query string a [QueryValue].
    - A store is a record of the three collections; a handler threads it
      explicitly, and a rejected storage call keeps the writes made before it,
      as the database does. A handler run this way is served on its own, from
      its first storage call to its answer; the submission is also given step
      by step ([step]), each [await] a point where other requests may run. *)

From Stdlib Require Import ZArith QArith Qround Qminmax Lia Lqa Ascii String List Sorted.
From Stdlib Require Import DecimalString DecimalNat.
From Stdlib Require Floats.SpecFloat.
From stdpp Require Import base option list gmap strings.

Local Open Scope Z_scope.

(** ** JavaScript primitives used by the two handlers *)

Module JS.

(** [String.prototype.toUpperCase], restricted to ASCII letters. *)
Definition upperChar (c : ascii) : ascii :=
  let n := N_of_ascii c in
  if ((97 <=? n) && (n <=? 122))%N then ascii_of_N (n - 32) else c.

Fixpoint toUpperCase (s : string) : string :=
  match s with
  | EmptyString => EmptyString
  | String c s' => String (upperChar c) (toUpperCase s')
  end.

(** [s.split(sep)] for a non-empty separator: [cur] is the piece being
    read, [skip] the number of separator characters still to drop. *)
Fixpoint split_go (sep : string) (skip : nat) (cur s : string) : list string :=
  match s with
  | EmptyString => [cur]
  | String c s' =>
      match skip with
      | S k => split_go sep k cur s'
      | O =>
          if String.prefix sep s
          then cur :: split_go sep (String.length sep - 1) EmptyString s'
          else split_go sep 0 (cur +:+ String c EmptyString) s'
      end
  end.

Definition split (sep s : string) : list string := split_go sep 0 EmptyString s.

(** The white space and line terminators of ECMAScript ([WhiteSpace] and
    [LineTerminator]), which [parseInt] skips and [trim] strips. In ASCII:
    TAB, LF, VT, FF, CR and SP. *)
Definition isWhiteSpace (c : ascii) : bool :=
  let n := N_of_ascii c in
  ((9 <=? n) && (n <=? 13) || (n =? 32))%N.

(** Encoded on two bytes: U+00A0 (C2 A0). *)
Definition isWhiteSpace2 (c1 c2 : ascii) : bool :=
  ((N_of_ascii c1 =? 194) && (N_of_ascii c2 =? 160))%N.

(** Encoded on three bytes: U+1680 (E1 9A 80); U+2000 to U+200A, U+2028,
    U+2029 and U+202F (E2 80 80 to E2 80 8A, E2 80 A8, E2 80 A9, E2 80 AF);
    U+205F (E2 81 9F); U+3000 (E3 80 80); U+FEFF (EF BB BF). *)
Definition isWhiteSpace3 (c1 c2 c3 : ascii) : bool :=
  let n1 := N_of_ascii c1 in
  let n2 := N_of_ascii c2 in
  let n3 := N_of_ascii c3 in
  ((n1 =? 225) && (n2 =? 154) && (n3 =? 128)
   || (n1 =? 226) && (n2 =? 128)
      && ((128 <=? n3) && (n3 <=? 138) || (n3 =? 168) || (n3 =? 169) || (n3 =? 175))
   || (n1 =? 226) && (n2 =? 129) && (n3 =? 159)
   || (n1 =? 227) && (n2 =? 128) && (n3 =? 128)
   || (n1 =? 239) && (n2 =? 187) && (n3 =? 191))%N.

(** [s.trimStart()]: the string without its leading white space. *)
Fixpoint trimStart (s : string) : string :=
  match s with
  | EmptyString => EmptyString
  | String c1 s1 =>
      if isWhiteSpace c1 then trimStart s1
      else
        match s1 with
        | EmptyString => s
        | String c2 s2 =>
            if isWhiteSpace2 c1 c2 then trimStart s2
            else
              match s2 with
              | EmptyString => s
              | String c3 s3 => if isWhiteSpace3 c1 c2 c3 then trimStart s3 else s
              end
        end
  end.

(** Value of a character as a digit of the given radix (10 or 16). *)
Definition digitValue (radix : Z) (c : ascii) : option Z :=
  let n := Z.of_N (N_of_ascii c) in
  let v :=
    if (48 <=? n) && (n <=? 57) then Some (n - 48)
    else if (97 <=? n) && (n <=? 102) then Some (n - 87)
    else if (65 <=? n) && (n <=? 70) then Some (n - 55)
    else None in
  match v with
  | Some d => if d <? radix then Some d else None
  | None => None
  end.

(** Longest prefix of digits, read left to right; [acc] is [None] until a
    first digit has been seen. *)
Fixpoint digits (radix : Z) (acc : option Z) (s : string) : option Z :=
  match s with
  | EmptyString => acc
  | String c s' =>
      match digitValue radix c with
      | Some d => digits radix (Some (radix * default 0 acc + d)) s'
      | None => acc
      end
  end.

(** [parseInt(s)] with no radix argument; [None] is [NaN]. The value is
    exact whatever the number of digits. *)
Definition parseInt (s : string) : option Z :=
  let s1 := trimStart s in
  let '(sign, s2) :=
    match s1 with
    | String "-" r => (-1, r)
    | String "+" r => (1, r)
    | _ => (1, s1)
    end in
  let '(radix, s3) :=
    match s2 with
    | String "0" (String "x" r) => (16, r)
    | String "0" (String "X" r) => (16, r)
    | _ => (10, s2)
    end in
  (fun v => sign * v) <$> digits radix None s3.

(** [parseInt(x)] where [x] may be [undefined]: the argument is first
    converted to the string ["undefined"], which has no digit. *)
Definition parseIntOpt (x : option string) : option Z :=
  match x with
  | Some s => parseInt s
  | None => None
  end.

(** [arr[i]] for a numeric [i]: [undefined] unless [i] is an index. *)
Definition index {A} (arr : list A) (i : option Z) : option A :=
  match i with
  | Some k => if k <? 0 then None else arr !! Z.to_nat k
  | None => None
  end.

(** [arr.slice(0, end)]: a [NaN] end counts as 0, a negative end counts
    from the end of the array. *)
Definition slice0 {A} (arr : list A) (end_ : option Z) : list A :=
  let len := Z.of_nat (length arr) in
  match end_ with
  | None => []
  | Some e =>
      let k := if e <? 0 then Z.max (len + e) 0 else Z.min e len in
      take (Z.to_nat k) arr
  end.

(** [Math.round]: nearest integer, halves towards plus infinity. *)
Definition round (x : Q) : Z := Qfloor (x + 0.5)%Q.

(** [x < y] on numbers. *)
Definition Qltb (x y : Q) : bool := negb (Qle_bool y x).

(** A stable sort: [after x y] tells that [x] has to come after [y]; an
    element moves only past the elements it has to come after. *)
Section Sort.
Context {A : Type} (after : A -> A -> bool).

Fixpoint insert (x : A) (l : list A) : list A :=
  match l with
  | [] => [x]
  | y :: l' => if after x y then y :: insert x l' else x :: l
  end.

Definition sortBy (l : list A) : list A := foldr insert [] l.
End Sort.

(** [arr.sort(cmp)]: stable, [a] comes after [b] when [cmp(a, b) > 0]. *)
Definition sort {A} (cmp : A -> A -> Q) (arr : list A) : list A :=
  sortBy (fun a b => Qltb 0 (cmp a b)) arr.

End JS.

(** ** IEEE 754 doubles

    The Numbers of the engine are binary64 floating-point numbers: the
    operations of the specification of IEEE 754 in the standard library, at
    precision 53, rounding to nearest with ties to even. *)

Module Double.
Definition t : Set := SpecFloat.spec_float.

Definition prec : Z := 53.
Definition emax : Z := 1024.

Definition add : t -> t -> t := SpecFloat.SFadd prec emax.



End Double.

(** ** The question bank ([data/subjects.json]) *)

Module Bank.
Record Question := { q : string; options : list string; answer : string }.
Record Topic := { topic_id : string; title : string; questions : list Question }.
Record Subject := { subject_name : string; slug : string; topics : list Topic }.
Record Data := { subjects : list Subject }.
End Bank.

(** ** The Mongoose documents *)

(** An [ObjectId]. *)
Definition UserId := N.

Module Attempt.
Record t := {
  userId : UserId;
  topicId : string;
  questionId : string;
  userAnswer : string;
  correctAnswer : string;
  isCorrect : bool;
  timeTaken : option Q;
  timestamp : Z
}.
End Attempt.

Module Progress.
(** The fields of the schema that the two handlers read or write; the
    owner and the topic are the key of the collection. *)
Record t := {
  subjectName : string;
  topicTitle : string;
  mastery : Q;
  attempts : Z;
  corrects : Z;
  lastReview : option Z;
  emaAlpha : Q
}.

(** [Progress.create({..., mastery: 0.2, attempts: 0, corrects: 0})]: the
    remaining fields take the defaults of the schema. *)
Definition fresh (subjectName topicTitle : string) : t :=
  {| subjectName := subjectName; topicTitle := topicTitle;
     mastery := 0.2; attempts := 0; corrects := 0;
     lastReview := None; emaAlpha := 0.3 |}.
End Progress.

Module User.
(** [user.stats] *)
Record Stats := {
  totalAttempts : Z;
  totalCorrect : Z;
  currentStreak : Z;
  longestStreak : Z;
  lastStudyDate : option Z
}.

(** The defaults of the schema, for a newly registered user. *)
Definition newStats : Stats :=
  {| totalAttempts := 0; totalCorrect := 0; currentStreak := 0;
     longestStreak := 0; lastStudyDate := None |}.
End User.

(** The payload of the [progress-updated] Socket.IO event. *)
Record ProgressUpdated := {
  ev_user : UserId;
  ev_topicId : string;
  ev_mastery : Q;
  ev_attempts : Z;
  ev_corrects : Z
}.

(** The persistent store. The Progress collection has a unique index on
    (userId, topicId) and is kept as a map from the owner to the map of the
    owner's records by topic; the attempt ledger is in insertion order. *)
Record Store := {
  attemptColl : list Attempt.t;
  progressColl : gmap UserId (gmap string Progress.t);
  userColl : gmap UserId User.Stats;
  socketLog : list ProgressUpdated
}.

Definition emptyStore : Store :=
  {| attemptColl := []; progressColl := ∅; userColl := ∅; socketLog := [] |}.

(** ** What a request sees of its environment *)

(** The storage calls of the two handlers. *)
Inductive Op :=
  | AttemptCreate | ProgressFindOne | ProgressCreate | ProgressSave
  | UserFindById | UserSave | ProgressFind | AttemptFind.

#[global] Instance Op_eq_dec : EqDecision Op.
Proof. solve_decision. Defined.

(** [localMidnight t] is [new Date(t).setHours(0, 0, 0, 0)] in the time zone
    of the server; [rejects op] tells whether the storage call [op] of this
    request rejects (connection lost, validation refused); the four [now*]
    are the readings of the clock by the four [new Date()] of the handler, in
    program order. *)
Record Env := {
  localMidnight : Z -> Z;
  rejects : Op -> bool;
  nowAttempt : Z;
  nowReview : Z;
  nowToday : Z;
  nowStudy : Z
}.

Definition msPerDay : Z := 1000 * 60 * 60 * 24.

(** Midnight in a zone with a fixed offset (in ms) from UTC. *)
Definition fixedOffsetMidnight (offset t : Z) : Z :=
  t - (t + offset) mod msPerDay.

(** ** Handlers: a state monad whose failures keep the state *)

Definition Handler (A : Type) : Type := Store -> Store * (string + A).

Definition ret {A} (a : A) : Handler A := fun st => (st, inr a).
Definition throw {A} (message : string) : Handler A := fun st => (st, inl message).
Definition bind {A B} (m : Handler A) (k : A -> Handler B) : Handler B :=
  fun st =>
    match m st with
    | (st', inr a) => k a st'
    | (st', inl e) => (st', inl e)
    end.

Notation "'do' x <- m ; k" := (bind m (fun x => k))
  (at level 10, x name, m at level 100, k at level 200).
Notation "'do_' m ; k" := (bind m (fun _ => k))
  (at level 10, m at level 100, k at level 200).

(** A storage call: it rejects when the environment says so, before any
    effect, and otherwise runs [f] on the store. *)
Definition storage {A} (env : Env) (op : Op) (f : Store -> Store * A) : Handler A :=
  fun st =>
    if rejects env op then (st, inl "storage error"%string)
    else let '(st', a) := f st in (st', inr a).

(** What the route sends back. *)
Inductive Response (D : Type) :=
  | Success (data : D)
  | Failure (status : Z) (message : string).
Arguments Success {D} data.
Arguments Failure {D} status message.

Definition status {D} (r : Response D) : Z :=
  match r with
  | Success _ => 200
  | Failure code _ => code
  end.

(** The [try { ... } catch (error) { res.status(500)... }] around a handler. *)
Definition route {D} (h : Handler (Response D)) (st : Store) : Store * Response D :=
  match h st with
  | (st', inr r) => (st', r)
  | (st', inl message) => (st', Failure 500 message)
  end.

(** ** What a request carries *)

(** A field of the parsed body, as far as the handlers tell the values
    apart: absent ([undefined]), [null], a string, or anything else (a
    number, a boolean, an array, an object). *)
Inductive JsValue :=
  | JsUndefined
  | JsNull
  | JsString (s : string)
  | JsOther.

(** [v.method(...)] where [v] is no string: the message of the [TypeError].
    No value of a parsed body other than a string has a function under the
    names used ([split], [toUpperCase]). *)
Definition notAString (name method : string) (v : JsValue) : string :=
  match v with
  | JsUndefined => "Cannot read properties of undefined (reading '" +:+ method +:+ "')"
  | JsNull => "Cannot read properties of null (reading '" +:+ method +:+ "')"
  | _ => name +:+ "." +:+ method +:+ " is not a function"
  end.

(** A parameter of the query string, as the query parser hands it over:
    absent, a string, or an array or object (a parameter that is repeated
    or written with brackets). [printed] is the string [String(v)] of such a
    value, [None] when the conversion throws. *)
Inductive QueryValue :=
  | QAbsent
  | QString (s : string)
  | QStructured (printed : option string).

(** ** [POST /api/progress/submit-answer] *)

(** The body of a submission whose fields are strings, as the Attempt
    schema declares them. *)
Record SubmitBody := {
  topicId : string;
  questionId : string;
  userAnswer : string;
  timeTaken : option Q
}.

Record SubmitData := {
  r_isCorrect : bool;
  r_correctAnswer : string;
  r_mastery : Q;
  r_attempts : Z;
  r_corrects : Z;
  r_userStats : User.Stats
}.

(** [subject.topics.find(t => t.topic_id === topicId)] *)
Definition findTopic (topicId : string) (subject : Bank.Subject) : option Bank.Topic :=
  List.find (fun t => String.eqb (Bank.topic_id t) topicId) (Bank.topics subject).

(** [parseInt(questionId.split('_Q')[1]) - 1]; [None] is [NaN]. *)
Definition qIndex (questionId : string) : option Z :=
  (fun k => k - 1) <$> JS.parseIntOpt (JS.split "_Q" questionId !! 1%nat).

(** [topic.questions[qIndex]?.answer] *)
Definition answerAt (topic : Bank.Topic) (questionId : string) : option string :=
  Bank.answer <$> JS.index (Bank.questions topic) (qIndex questionId).

(** The three locals set by the loop over [data.subjects]. *)
Record Lookup := {
  correctAnswer : option string;
  topicTitle : option string;
  subjectName : option string
}.

Definition notFound : Lookup :=
  {| correctAnswer := None; topicTitle := None; subjectName := None |}.

(** The loop: the first subject that has the topic decides, then [break]. *)
Fixpoint lookup (subjects : list Bank.Subject) (topicId questionId : string) : Lookup :=
  match subjects with
  | [] => notFound
  | subject :: rest =>
      match findTopic topicId subject with
      | Some topic =>
          {| subjectName := Some (Bank.subject_name subject);
             topicTitle := Some (Bank.title topic);
             correctAnswer := answerAt topic questionId |}
      | None => lookup rest topicId questionId
      end
  end.

(** The topic the loop stops at, with its subject: the first match of the
    first subject that has one. *)
Fixpoint matchedTopic (subjects : list Bank.Subject) (topicId : string)
  : option (Bank.Subject * Bank.Topic) :=
  match subjects with
  | [] => None
  | subject :: rest =>
      match findTopic topicId subject with
      | Some topic => Some (subject, topic)
      | None => matchedTopic rest topicId
      end
  end.

(** Truthiness of a nullable string: [null], [undefined] and [""] are falsy. *)
Definition truthyString (s : option string) : bool :=
  match s with
  | Some EmptyString | None => false
  | Some _ => true
  end.

(** [userAnswer.toUpperCase() === correctAnswer.toUpperCase()] *)
Definition isCorrect (userAnswer correctAnswer : string) : bool :=
  String.eqb (JS.toUpperCase userAnswer) (JS.toUpperCase correctAnswer).

(** A string of ASCII characters: every byte is a character of its own. *)
Fixpoint isAscii (s : string) : bool :=
  match s with
  | EmptyString => true
  | String c s' => (N_of_ascii c <? 128)%N && isAscii s'
  end.

(** The same character, or the same letter of the English alphabet in the
    two cases. *)
Definition sameLetter (a b : ascii) : bool :=
  let x := N_of_ascii a in
  let y := N_of_ascii b in
  ((x =? y)
   || (65 <=? x) && (x <=? 90) && (y =? x + 32)
   || (65 <=? y) && (y <=? 90) && (x =? y + 32))%N.

(** Two strings of the same length that differ in the case of letters
    only. *)
Fixpoint sameLetters (s t : string) : bool :=
  match s, t with
  | EmptyString, EmptyString => true
  | String a s', String b t' => sameLetter a b && sameLetters s' t'
  | _, _ => false
  end.

(** [alpha * (isCorrect ? 1 : 0) + (1 - alpha) * progress.mastery] *)
Definition newMastery (alpha : Q) (isCorrect : bool) (mastery : Q) : Q :=
  (alpha * (if isCorrect then 1 else 0) + (1 - alpha) * mastery)%Q.


(** The four assignments to [progress] before [progress.save()]. *)
Definition updateProgress (env : Env) (isCorrect : bool) (progress : Progress.t) : Progress.t :=
  {| Progress.subjectName := Progress.subjectName progress;
     Progress.topicTitle := Progress.topicTitle progress;
     Progress.mastery := newMastery (Progress.emaAlpha progress) isCorrect (Progress.mastery progress);
     Progress.attempts := Progress.attempts progress + 1;
     Progress.corrects := Progress.corrects progress + (if isCorrect then 1 else 0);
     Progress.lastReview := Some (nowReview env);
     Progress.emaAlpha := Progress.emaAlpha progress |}.

(** Truthiness of a nullable timestamp: [null] and [0] are falsy. *)
Definition truthyNumber (t : option Z) : bool :=
  match t with
  | Some v => negb (v =? 0)
  | None => false
  end.

(** [user.stats.lastStudyDate ? new Date(...).setHours(0, 0, 0, 0) : null];
    a Date object is truthy. *)
Definition lastStudyOf (env : Env) (stats : User.Stats) : option Z :=
  localMidnight env <$> User.lastStudyDate stats.

(** [(today - lastStudy) / (1000 * 60 * 60 * 24)] *)
Definition daysDiff (today lastStudy : Z) : Q :=
  (inject_Z (today - lastStudy) / inject_Z msPerDay)%Q.

(** The streak after the [if (lastStudy) ... else ...]. *)
Definition nextStreak (env : Env) (stats : User.Stats) : Z :=
  let today := localMidnight env (nowToday env) in
  let lastStudy := lastStudyOf env stats in
  if truthyNumber lastStudy then
    let d := daysDiff today (default 0 lastStudy) in
    if Qeq_bool d 1 then User.currentStreak stats + 1
    else if JS.Qltb 1 d then 1
    else User.currentStreak stats
  else 1.

(** The assignments to [user.stats] before [user.save()]. *)
Definition updateStats (env : Env) (isCorrect : bool) (stats : User.Stats) : User.Stats :=
  let streak := nextStreak env stats in
  {| User.totalAttempts := User.totalAttempts stats + 1;
     User.totalCorrect := User.totalCorrect stats + (if isCorrect then 1 else 0);
     User.currentStreak := streak;
     User.longestStreak := Z.max (User.longestStreak stats) streak;
     User.lastStudyDate := Some (nowStudy env) |}.

(** *** Storage calls *)

Definition findProgress (userId : UserId) (topicId : string) (st : Store) : option Progress.t :=
  progressColl st !! userId ≫= (fun byTopic => byTopic !! topicId).

Definition putAttempt (a : Attempt.t) (st : Store) : Store :=
  {| attemptColl := attemptColl st ++ [a]; progressColl := progressColl st;
     userColl := userColl st; socketLog := socketLog st |}.

Definition putProgress (userId : UserId) (topicId : string) (p : Progress.t) (st : Store) : Store :=
  {| attemptColl := attemptColl st;
     progressColl :=
       <[userId := <[topicId := p]> (default ∅ (progressColl st !! userId))]> (progressColl st);
     userColl := userColl st; socketLog := socketLog st |}.

Definition putStats (userId : UserId) (stats : User.Stats) (st : Store) : Store :=
  {| attemptColl := attemptColl st; progressColl := progressColl st;
     userColl := <[userId := stats]> (userColl st); socketLog := socketLog st |}.

Definition putEvent (e : ProgressUpdated) (st : Store) : Store :=
  {| attemptColl := attemptColl st; progressColl := progressColl st;
     userColl := userColl st; socketLog := socketLog st ++ [e] |}.

Definition Attempt_create (env : Env) (a : Attempt.t) : Handler unit :=
  storage env AttemptCreate (fun st => (putAttempt a st, tt)).

Definition Progress_findOne (env : Env) (userId : UserId) (topicId : string)
  : Handler (option Progress.t) :=
  storage env ProgressFindOne (fun st => (st, findProgress userId topicId st)).

Definition Progress_create (env : Env) (userId : UserId) (topicId : string)
    (p : Progress.t) : Handler Progress.t :=
  storage env ProgressCreate (fun st => (putProgress userId topicId p st, p)).

Definition Progress_save (env : Env) (userId : UserId) (topicId : string)
    (p : Progress.t) : Handler unit :=
  storage env ProgressSave (fun st => (putProgress userId topicId p st, tt)).

Definition User_findById (env : Env) (userId : UserId) : Handler (option User.Stats) :=
  storage env UserFindById (fun st => (st, userColl st !! userId)).

Definition User_save (env : Env) (userId : UserId) (stats : User.Stats) : Handler unit :=
  storage env UserSave (fun st => (putStats userId stats st, tt)).

(** [io.to(`user-${userId}`).emit('progress-updated', ...)] *)
Definition emit (e : ProgressUpdated) : Handler unit :=
  fun st => (putEvent e st, inr tt).

(** *** The handler *)

(** The body of the [try] block. The title and the subject name are
    non-null wherever [correctAnswer] is. *)
Definition submitAnswer (env : Env) (data : Bank.Data) (userId : UserId)
    (body : SubmitBody) : Handler (Response SubmitData) :=
  let found := lookup (Bank.subjects data) (topicId body) (questionId body) in
  if negb (truthyString (correctAnswer found)) then
    ret (Failure 404 "Question not found")
  else
    let answer := default EmptyString (correctAnswer found) in
    let right := isCorrect (userAnswer body) answer in
    do_ Attempt_create env
          {| Attempt.userId := userId;
             Attempt.topicId := topicId body;
             Attempt.questionId := questionId body;
             Attempt.userAnswer := userAnswer body;
             Attempt.correctAnswer := answer;
             Attempt.isCorrect := right;
             Attempt.timeTaken := timeTaken body;
             Attempt.timestamp := nowAttempt env |};
    do existing <- Progress_findOne env userId (topicId body);
    do progress0 <-
      match existing with
      | Some p => ret p
      | None =>
          Progress_create env userId (topicId body)
            (Progress.fresh (default EmptyString (subjectName found))
                            (default EmptyString (topicTitle found)))
      end;
    let progress := updateProgress env right progress0 in
    do_ Progress_save env userId (topicId body) progress;
    do user <- User_findById env userId;
    match user with
    | None => throw "Cannot read properties of null (reading 'stats')"
    | Some stats0 =>
        let stats := updateStats env right stats0 in
        do_ User_save env userId stats;
        do_ emit {| ev_user := userId; ev_topicId := topicId body;
                    ev_mastery := Progress.mastery progress;
                    ev_attempts := Progress.attempts progress;
                    ev_corrects := Progress.corrects progress |};
        ret (Success {| r_isCorrect := right;
                        r_correctAnswer := answer;
                        r_mastery := Progress.mastery progress;
                        r_attempts := Progress.attempts progress;
                        r_corrects := Progress.corrects progress;
                        r_userStats := stats |})
    end.

(** The route: the handler inside its [try]/[catch]. *)
Definition submitAnswerRoute (env : Env) (data : Bank.Data) (userId : UserId)
    (body : SubmitBody) (st : Store) : Store * Response SubmitData :=
  route (submitAnswer env data userId body) st.

(** *** The request as it arrives

    [req.body] is whatever the body parser made of the request: any of its
    fields may be missing or hold a value that is no string. [raw_timeTaken]
    is the number stored for [timeTaken], when there is one. *)
Record RawBody := {
  raw_topicId : JsValue;
  raw_questionId : JsValue;
  raw_userAnswer : JsValue;
  raw_timeTaken : option Q
}.

(** The body of strings as a parsed body. *)
Definition rawOf (body : SubmitBody) : RawBody :=
  {| raw_topicId := JsString (topicId body);
     raw_questionId := JsString (questionId body);
     raw_userAnswer := JsString (userAnswer body);
     raw_timeTaken := timeTaken body |}.

(** The three strings of a parsed body, when its three fields are strings. *)
Definition asStrings (fields : RawBody) : option SubmitBody :=
  match raw_topicId fields, raw_questionId fields, raw_userAnswer fields with
  | JsString tid, JsString qid, JsString answer =>
      Some {| topicId := tid; questionId := qid; userAnswer := answer;
              timeTaken := raw_timeTaken fields |}
  | _, _, _ => None
  end.

(** The index a [questionId] encodes; a value that is no string encodes
    none. *)
Definition encodedIndex (v : JsValue) : option Z :=
  match v with
  | JsString qid => qIndex qid
  | _ => None
  end.

(** The body of the [try] block on a parsed body. The ids of the bank are
    strings, so [t.topic_id === topicId] holds for a string only and no
    other [topicId] finds a topic. For a topic that is found,
    [questionId.split('_Q')] (line 46) throws unless [questionId] is a
    string; past the 404 test, [userAnswer.toUpperCase()] (line 59) throws
    unless [userAnswer] is a string. With the three strings at hand the
    handler is [submitAnswer]. *)
Definition submitRaw (env : Env) (data : Bank.Data) (userId : UserId)
    (body : RawBody) : Handler (Response SubmitData) :=
  match raw_topicId body with
  | JsString tid =>
      match matchedTopic (Bank.subjects data) tid with
      | Some (_, topic) =>
          match raw_questionId body with
          | JsString qid =>
              if negb (truthyString (answerAt topic qid)) then
                ret (Failure 404 "Question not found")
              else
                match raw_userAnswer body with
                | JsString answer =>
                    submitAnswer env data userId
                      {| topicId := tid; questionId := qid; userAnswer := answer;
                         timeTaken := raw_timeTaken body |}
                | v => throw (notAString "userAnswer" "toUpperCase" v)
                end
          | v => throw (notAString "questionId" "split" v)
          end
      | None => ret (Failure 404 "Question not found")
      end
  | _ => ret (Failure 404 "Question not found")
  end.

(** The route on the request: [req.body] is [undefined] when no parser took
    the body, and the destructuring of line 31 throws. *)
Definition submitRequest (env : Env) (data : Bank.Data) (userId : UserId)
    (body : option RawBody) (st : Store) : Store * Response SubmitData :=
  route (match body with
         | Some fields => submitRaw env data userId fields
         | None =>
             throw "Cannot destructure property 'topicId' of 'req.body' as it is undefined."
         end) st.

(** ** [GET /api/recommendations] *)

Record TopicRef := {
  ref_topicId : string;
  ref_title : string;
  ref_subjectName : string
}.

(** [getAllTopicIds]: every topic of every subject, in file order. *)
Definition getAllTopicIds (data : Bank.Data) : list TopicRef :=
  flat_map
    (fun subject =>
       map (fun topic =>
              {| ref_topicId := Bank.topic_id topic;
                 ref_title := Bank.title topic;
                 ref_subjectName := Bank.subject_name subject |})
           (Bank.topics subject))
    (Bank.subjects data).

Module Score.
Record t := {
  topicId : string;
  title : string;
  subjectName : string;
  mastery : Q;
  score : Q;
  daysSinceLastReview : Z;
  recentPerformance : option Q
}.
End Score.

(** [lastReview ? (now - new Date(lastReview)) / (1000*60*60*24) : 999] *)
Definition daysSince (now : Z) (lastReview : option Z) : Q :=
  match lastReview with
  | Some t => (inject_Z (now - t) / inject_Z msPerDay)%Q
  | None => 999%Q
  end.

(** [1 + 0.5 * Math.min(daysSince / 30, 2)] *)
Definition recencyFactor (daysSince : Q) : Q :=
  (1 + 0.5 * Qmin (daysSince / 30) 2)%Q.

(** [recentAttempts.filter(a => a.topicId === topic.topicId)] *)
Definition topicAttempts (recentAttempts : list Attempt.t) (topicId : string) : list Attempt.t :=
  List.filter (fun a => String.eqb (Attempt.topicId a) topicId) recentAttempts.

(** [topicAttempts.slice(0, 5).filter(a => a.isCorrect).length] *)
Definition recentCorrect (topicAttempts : list Attempt.t) : Z :=
  Z.of_nat (length (List.filter Attempt.isCorrect (take 5 topicAttempts))).

(** [Math.min(topicAttempts.length, 5)] *)
Definition recentTotal (topicAttempts : list Attempt.t) : Z :=
  Z.min (Z.of_nat (length topicAttempts)) 5.

(** [recentCorrect / recentTotal] *)
Definition recentRate (topicAttempts : list Attempt.t) : Q :=
  (inject_Z (recentCorrect topicAttempts) / inject_Z (recentTotal topicAttempts))%Q.

(** [recentTotal > 0 && recentCorrect / recentTotal < 0.4 ? 0.3 : 0] *)
Definition strugglingBonus (topicAttempts : list Attempt.t) : Q :=
  if (0 <? recentTotal topicAttempts) && JS.Qltb (recentRate topicAttempts) 0.4
  then 0.3%Q else 0%Q.

(** One turn of the loop over [allTopics]: the entry pushed to [scores]. *)
Definition scoreTopic (now : Z) (progressMap : gmap string Progress.t)
    (recentAttempts : list Attempt.t) (topic : TopicRef) : Score.t :=
  let progress := progressMap !! ref_topicId topic in
  let mastery := from_option Progress.mastery 0.2%Q progress in
  let lastReview := progress ≫= Progress.lastReview in
  let daysSince := daysSince now lastReview in
  let baseScore := ((1 - mastery) * recencyFactor daysSince)%Q in
  let attempts := topicAttempts recentAttempts (ref_topicId topic) in
  let finalScore := (baseScore + strugglingBonus attempts)%Q in
  {| Score.topicId := ref_topicId topic;
     Score.title := ref_title topic;
     Score.subjectName := ref_subjectName topic;
     Score.mastery := mastery;
     Score.score := finalScore;
     Score.daysSinceLastReview := JS.round daysSince;
     Score.recentPerformance :=
       if 0 <? recentTotal attempts then Some (recentRate attempts * 100)%Q else None |}.

(** The comparator [(a, b) => b.score - a.score]. *)
Definition byScoreDesc (a b : Score.t) : Q := (Score.score b - Score.score a)%Q.

(** [const { n = 3 } = req.query; ... parseInt(n)]: [parseInt] reads the
    string its argument converts to, ["3"] for the default; [inl] is the
    [TypeError] of a value that converts to no string. *)
Definition parsedN (n : QueryValue) : string + option Z :=
  match n with
  | QAbsent => inr (Some 3)
  | QString s => inr (JS.parseInt s)
  | QStructured (Some s) => inr (JS.parseInt s)
  | QStructured None => inl "Cannot convert object to primitive value"%string
  end.

(** The scores of all topics, in the order of [allTopics]. *)
Definition allScores (now : Z) (allTopics : list TopicRef)
    (progressMap : gmap string Progress.t) (recentAttempts : list Attempt.t) : list Score.t :=
  map (scoreTopic now progressMap recentAttempts) allTopics.

(** [scores] after [scores.sort(...)]. *)
Definition ranking (now : Z) (allTopics : list TopicRef)
    (progressMap : gmap string Progress.t) (recentAttempts : list Attempt.t) : list Score.t :=
  JS.sort byScoreDesc (allScores now allTopics progressMap recentAttempts).

(** [Progress.find({ userId })], then [new Map(... [p.topicId, p])]: the
    records of the user by topic. *)
Definition Progress_find (env : Env) (userId : UserId) : Handler (gmap string Progress.t) :=
  storage env ProgressFind (fun st => (st, default ∅ (progressColl st !! userId))).

(** [Attempt.find({ userId }).sort({ timestamp: -1 }).limit(100)]: the
    newest first; attempts of equal timestamp stay in insertion order. *)
Definition recentOf (userId : UserId) (ledger : list Attempt.t) : list Attempt.t :=
  take 100
    (JS.sortBy (fun a b => Attempt.timestamp a <? Attempt.timestamp b)
       (List.filter (fun a => N.eqb (Attempt.userId a) userId) ledger)).

Definition Attempt_findRecent (env : Env) (userId : UserId) : Handler (list Attempt.t) :=
  storage env AttemptFind (fun st => (st, recentOf userId (attemptColl st))).

(** The body of the [try] block; [scores.slice(0, parseInt(n))] comes after
    the two queries and the sort. *)
Definition getRecommendations (env : Env) (now : Z) (data : Bank.Data)
    (userId : UserId) (n : QueryValue) : Handler (Response (list Score.t)) :=
  let allTopics := getAllTopicIds data in
  do progressMap <- Progress_find env userId;
  do recentAttempts <- Attempt_findRecent env userId;
  let scores := ranking now allTopics progressMap recentAttempts in
  match parsedN n with
  | inr end_ => ret (Success (JS.slice0 scores end_))
  | inl message => throw message
  end.

Definition recommendationsRoute (env : Env) (now : Z) (data : Bank.Data)
    (userId : UserId) (n : QueryValue) (st : Store) : Store * Response (list Score.t) :=
  route (getRecommendations env now data userId n) st.

(** The ranking a request of the user computes from the store. *)
Definition rankingOf (now : Z) (data : Bank.Data) (userId : UserId) (st : Store)
  : list Score.t :=
  ranking now (getAllTopicIds data) (default ∅ (progressColl st !! userId))
    (recentOf userId (attemptColl st)).

(** ** The stores a submission goes through

    The handler writes three times, in this order: the attempt, the Progress
    record (created first when absent), the user's stats. The definitions
    below name the record written and the store reached at each point. *)

Section Stages.
Context (env : Env) (userId : UserId) (body : SubmitBody).
Context (found : Lookup) (st : Store).

Definition answerOf : string := default EmptyString (correctAnswer found).

Definition verdict : bool := isCorrect (userAnswer body) answerOf.

Definition attemptRecord : Attempt.t :=
  {| Attempt.userId := userId;
     Attempt.topicId := topicId body;
     Attempt.questionId := questionId body;
     Attempt.userAnswer := userAnswer body;
     Attempt.correctAnswer := answerOf;
     Attempt.isCorrect := verdict;
     Attempt.timeTaken := timeTaken body;
     Attempt.timestamp := nowAttempt env |}.

Definition freshRecord : Progress.t :=
  Progress.fresh (default EmptyString (subjectName found))
                 (default EmptyString (topicTitle found)).

(** The record the update starts from: the stored one, or the fresh one. *)
Definition progressBefore : Progress.t :=
  default freshRecord (findProgress userId (topicId body) st).

Definition progressAfter : Progress.t := updateProgress env verdict progressBefore.

Definition afterAttempt : Store := putAttempt attemptRecord st.

Definition afterCreate : Store :=
  match findProgress userId (topicId body) st with
  | Some _ => afterAttempt
  | None => putProgress userId (topicId body) freshRecord afterAttempt
  end.

Definition afterProgress : Store :=
  putProgress userId (topicId body) progressAfter afterCreate.

Definition afterStats (stats0 : User.Stats) : Store :=
  putEvent {| ev_user := userId; ev_topicId := topicId body;
              ev_mastery := Progress.mastery progressAfter;
              ev_attempts := Progress.attempts progressAfter;
              ev_corrects := Progress.corrects progressAfter |}
    (putStats userId (updateStats env verdict stats0) afterProgress).

Definition successData (stats0 : User.Stats) : SubmitData :=
  {| r_isCorrect := verdict;
     r_correctAnswer := answerOf;
     r_mastery := Progress.mastery progressAfter;
     r_attempts := Progress.attempts progressAfter;
     r_corrects := Progress.corrects progressAfter;
     r_userStats := updateStats env verdict stats0 |}.

(** The outcome of the route, one case per point where the handler can
    stop. *)
Definition outcome : Store * Response SubmitData :=
  if negb (truthyString (correctAnswer found)) then
    (st, Failure 404 "Question not found")
  else if rejects env AttemptCreate then (st, Failure 500 "storage error")
  else if rejects env ProgressFindOne then (afterAttempt, Failure 500 "storage error")
  else if bool_decide (findProgress userId (topicId body) st = None)
          && rejects env ProgressCreate
  then (afterAttempt, Failure 500 "storage error")
  else if rejects env ProgressSave then (afterCreate, Failure 500 "storage error")
  else if rejects env UserFindById then (afterProgress, Failure 500 "storage error")
  else
    match userColl st !! userId with
    | None =>
        (afterProgress, Failure 500 "Cannot read properties of null (reading 'stats')")
    | Some stats0 =>
        if rejects env UserSave then (afterProgress, Failure 500 "storage error")
        else (afterStats stats0, Success (successData stats0))
    end.
End Stages.

(** ** The submission between its awaits

    The handler gives way at every [await]: between two of its storage
    calls other requests may read and write the store. A step is what the
    handler does from one [await] to the next; the point says where the
    handler stands and what it holds in its local variables. (The first
    [await], on the question bank, touches no collection and is part of the
    first step.) *)

Inductive Point :=
  | Start
  | Created
  | Missing
  | Loaded (read : Progress.t)
  | Saved (progress : Progress.t)
  | Found (progress : Progress.t) (stats0 : User.Stats)
  | Answered (r : Response SubmitData).

(** [doc.save()] sends an update that sets the paths modified since the
    document was read, and only those; assigning to a path the value it
    holds does not modify it. [read] is the document as read, [new] the
    document in hand, [stored] the document in the collection. The handler
    assigns [mastery], [attempts], [corrects] and [lastReview]. *)
Definition saveProgress (read new stored : Progress.t) : Progress.t :=
  {| Progress.subjectName := Progress.subjectName stored;
     Progress.topicTitle := Progress.topicTitle stored;
     Progress.mastery :=
       if Qeq_bool (Progress.mastery read) (Progress.mastery new)
       then Progress.mastery stored else Progress.mastery new;
     Progress.attempts :=
       if Progress.attempts read =? Progress.attempts new
       then Progress.attempts stored else Progress.attempts new;
     Progress.corrects :=
       if Progress.corrects read =? Progress.corrects new
       then Progress.corrects stored else Progress.corrects new;
     Progress.lastReview :=
       if bool_decide (Progress.lastReview read = Progress.lastReview new)
       then Progress.lastReview stored else Progress.lastReview new;
     Progress.emaAlpha := Progress.emaAlpha stored |}.

(** The same for [user.save()] and the five paths of [user.stats]. *)
Definition saveStats (read new stored : User.Stats) : User.Stats :=
  {| User.totalAttempts :=
       if User.totalAttempts read =? User.totalAttempts new
       then User.totalAttempts stored else User.totalAttempts new;
     User.totalCorrect :=
       if User.totalCorrect read =? User.totalCorrect new
       then User.totalCorrect stored else User.totalCorrect new;
     User.currentStreak :=
       if User.currentStreak read =? User.currentStreak new
       then User.currentStreak stored else User.currentStreak new;
     User.longestStreak :=
       if User.longestStreak read =? User.longestStreak new
       then User.longestStreak stored else User.longestStreak new;
     User.lastStudyDate :=
       if bool_decide (User.lastStudyDate read = User.lastStudyDate new)
       then User.lastStudyDate stored else User.lastStudyDate new |}.

Definition rejected : Point := Answered (Failure 500 "storage error").

(** One step of a submission. A storage call rejected by the environment
    ends the request with 500, as does [Progress.create] when the unique
    index finds the record meanwhile created by another request, and a
    [save()] whose document has meanwhile been deleted. (Documents are
    known by their key here: a record deleted and created again meanwhile
    is taken for the document read, where the database, going by [_id],
    rejects the save.) *)
Definition step (env : Env) (data : Bank.Data) (userId : UserId) (body : SubmitBody)
    (point : Point) (st : Store) : Store * Point :=
  let found := lookup (Bank.subjects data) (topicId body) (questionId body) in
  let right := verdict body found in
  match point with
  | Start =>
      if negb (truthyString (correctAnswer found)) then
        (st, Answered (Failure 404 "Question not found"))
      else if rejects env AttemptCreate then (st, rejected)
      else (putAttempt (attemptRecord env userId body found) st, Created)
  | Created =>
      if rejects env ProgressFindOne then (st, rejected)
      else
        match findProgress userId (topicId body) st with
        | Some progress => (st, Loaded progress)
        | None => (st, Missing)
        end
  | Missing =>
      if rejects env ProgressCreate then (st, rejected)
      else
        match findProgress userId (topicId body) st with
        | Some _ => (st, Answered (Failure 500 "E11000 duplicate key error"))
        | None =>
            (putProgress userId (topicId body) (freshRecord found) st,
             Loaded (freshRecord found))
        end
  | Loaded read =>
      let progress := updateProgress env right read in
      if rejects env ProgressSave then (st, rejected)
      else
        match findProgress userId (topicId body) st with
        | Some stored =>
            (putProgress userId (topicId body) (saveProgress read progress stored) st,
             Saved progress)
        | None => (st, Answered (Failure 500 "No document found for query"))
        end
  | Saved progress =>
      if rejects env UserFindById then (st, rejected)
      else
        match userColl st !! userId with
        | Some stats0 => (st, Found progress stats0)
        | None =>
            (st, Answered (Failure 500 "Cannot read properties of null (reading 'stats')"))
        end
  | Found progress stats0 =>
      let stats := updateStats env right stats0 in
      if rejects env UserSave then (st, rejected)
      else
        match userColl st !! userId with
        | Some stored =>
            (putEvent {| ev_user := userId; ev_topicId := topicId body;
                         ev_mastery := Progress.mastery progress;
                         ev_attempts := Progress.attempts progress;
                         ev_corrects := Progress.corrects progress |}
               (putStats userId (saveStats stats0 stats stored) st),
             Answered (Success {| r_isCorrect := right;
                                  r_correctAnswer := answerOf found;
                                  r_mastery := Progress.mastery progress;
                                  r_attempts := Progress.attempts progress;
                                  r_corrects := Progress.corrects progress;
                                  r_userStats := stats |}))
        | None => (st, Answered (Failure 500 "No document found for query"))
        end
  | Answered r => (st, Answered r)
  end.

(** [fuel] steps in a row. *)
Fixpoint steps (fuel : nat) (env : Env) (data : Bank.Data) (userId : UserId)
    (body : SubmitBody) (point : Point) (st : Store) : Store * Point :=
  match fuel with
  | O => (st, point)
  | S fuel' =>
      let '(st', point') := step env data userId body point st in
      steps fuel' env data userId body point' st'
  end.

(** A submission served with no other request between its steps: it is
    answered within six steps. *)
Definition servedAlone (env : Env) (data : Bank.Data) (userId : UserId)
    (body : SubmitBody) (st : Store) : Store * Point :=
  steps 6 env data userId body Start st.

(** The store after the save of a submission served alone: the record read
    is the record stored when it saves. *)
Definition savedAlone (env : Env) (userId : UserId) (body : SubmitBody)
    (found : Lookup) (st : Store) : Store :=
  putProgress userId (topicId body)
    (saveProgress (progressBefore userId body found st)
       (progressAfter env userId body found st)
       (progressBefore userId body found st))
    (afterCreate env userId body found st).

(** The two counters of a record. *)
Definition counters (p : Progress.t) : Z * Z := (Progress.attempts p, Progress.corrects p).

(** A submission served among other requests: [others] lists, for each
    step of the submission, what the other requests have done to the store
    since its previous step. *)
Fixpoint stepsAmong (others : list (Store -> Store)) (env : Env) (data : Bank.Data)
    (userId : UserId) (body : SubmitBody) (point : Point) (st : Store) : Store * Point :=
  match others with
  | [] => (st, point)
  | other :: rest =>
      let '(st', point') := step env data userId body point (other st) in
      stepsAmong rest env data userId body point' st'
  end.

Definition servedAmong (others : list (Store -> Store)) (env : Env) (data : Bank.Data)
    (userId : UserId) (body : SubmitBody) (st : Store) : Store * Point :=
  stepsAmong others env data userId body Start st.

(** Writes that leave the Progress record of a user for a topic, and the
    stats of the user, as they are. *)
Definition leaves (userId : UserId) (topicId : string) (other : Store -> Store) : Prop :=
  forall st,
    findProgress userId topicId (other st) = findProgress userId topicId st /\
    userColl (other st) !! userId = userColl st !! userId.

(** ** Sample data for the concrete runs *)

Module Sample.
Definition question (text answer : string) : Bank.Question :=
  {| Bank.q := text; Bank.options := ["a"; "b"; "c"; "d"]; Bank.answer := answer |}.

Definition algebra : Bank.Topic :=
  {| Bank.topic_id := "ALG"; Bank.title := "Algebra";
     Bank.questions := [question "1 + 1" "a "; question "2 + 2" "b"; question "void" ""] |}.

Definition geometry : Bank.Topic :=
  {| Bank.topic_id := "GEO"; Bank.title := "Geometry";
     Bank.questions := [question "angles" "c"] |}.

Definition grammar : Bank.Topic :=
  {| Bank.topic_id := "GRA"; Bank.title := "Grammar";
     Bank.questions := [question "verbs" "d"] |}.

Definition bank : Bank.Data :=
  {| Bank.subjects :=
       [ {| Bank.subject_name := "Mathematics"; Bank.slug := "math";
            Bank.topics := [algebra; geometry] |};
         {| Bank.subject_name := "English"; Bank.slug := "english";
            Bank.topics := [grammar] |} ] |}.

Definition alice : UserId := 7%N.

(** A registered user who has not studied yet. *)
Definition store0 : Store := putStats alice User.newStats emptyStore.

Definition hour : Z := 1000 * 60 * 60.

(** A server on UTC answering at [now], no storage call rejecting. *)
Definition utcAt (now : Z) : Env :=
  {| localMidnight := fixedOffsetMidnight 0; rejects := fun _ => false;
     nowAttempt := now; nowReview := now; nowToday := now; nowStudy := now |}.

(** The same, with the storage call [op] rejecting. *)
Definition utcFailing (op : Op) (now : Z) : Env :=
  {| localMidnight := fixedOffsetMidnight 0;
     rejects := fun o => bool_decide (o = op);
     nowAttempt := now; nowReview := now; nowToday := now; nowStudy := now |}.

Definition submission (topicId questionId userAnswer : string) : SubmitBody :=
  {| topicId := topicId; questionId := questionId; userAnswer := userAnswer;
     timeTaken := Some 12%Q |}.

(** Noon of 2026-03-10 UTC, in ms. *)
Definition noon : Z := 20522 * msPerDay + 12 * hour.

Definition env : Env := utcAt noon.

(** Answers to the first two questions of Algebra. *)
Definition firstUpper : SubmitBody := submission "ALG" "ALG_Q1" "A".
Definition secondUpper : SubmitBody := submission "ALG" "ALG_Q2" "B".

(** The third question has no stored answer; the topic "XYZ" is unknown. *)
Definition emptyAnswer : SubmitBody := submission "ALG" "ALG_Q3" "a".
Definition unknownTopic : SubmitBody := submission "XYZ" "XYZ_Q1" "a".

(** A submission during which [Progress.findOne] rejects. *)
Definition failedRun : Store * Response SubmitData :=
  submitAnswerRoute (utcFailing ProgressFindOne noon) bank alice secondUpper store0.

(** Geometry was reviewed one day before [noon], Algebra and Grammar never. *)
Definition reviewedYesterday : Progress.t :=
  {| Progress.subjectName := "Mathematics"; Progress.topicTitle := "Geometry";
     Progress.mastery := 0.2; Progress.attempts := 1; Progress.corrects := 0;
     Progress.lastReview := Some (noon - msPerDay); Progress.emaAlpha := 0.3 |}.

Definition store1 : Store := putProgress alice "GEO" reviewedYesterday store0.

(** The same record with a last review written 30 days ahead of [noon], as
    by a server whose clock runs ahead. *)
Definition reviewedAhead : Progress.t :=
  {| Progress.subjectName := "Mathematics"; Progress.topicTitle := "Geometry";
     Progress.mastery := 0.2; Progress.attempts := 1; Progress.corrects := 0;
     Progress.lastReview := Some (noon + 30 * msPerDay); Progress.emaAlpha := 0.3 |}.

Definition store2 : Store := putProgress alice "GEO" reviewedAhead store0.

Definition algebraRef : TopicRef :=
  {| ref_topicId := "ALG"; ref_title := "Algebra"; ref_subjectName := "Mathematics" |}.
Definition geometryRef : TopicRef :=
  {| ref_topicId := "GEO"; ref_title := "Geometry"; ref_subjectName := "Mathematics" |}.

(** A topic whose stored answers are "a" and "a " (a trailing space). *)
Definition letters : Bank.Topic :=
  {| Bank.topic_id := "LET"; Bank.title := "Letters";
     Bank.questions := [question "first letter" "a"; question "first letter, spaced" "a "] |}.

Definition letterBank : Bank.Data :=
  {| Bank.subjects :=
       [ {| Bank.subject_name := "Alphabet"; Bank.slug := "abc";
            Bank.topics := [letters] |} ] |}.

(** The parsed body of a submission of three strings. *)
Definition posted (topicId questionId userAnswer : string) : RawBody :=
  rawOf (submission topicId questionId userAnswer).

(** A body without [questionId], and one whose [userAnswer] is the number 1. *)
Definition noQuestionId : RawBody :=
  {| raw_topicId := JsString "ALG"; raw_questionId := JsUndefined;
     raw_userAnswer := JsString "a"; raw_timeTaken := None |}.
Definition numericAnswer : RawBody :=
  {| raw_topicId := JsString "ALG"; raw_questionId := JsString "ALG_Q2";
     raw_userAnswer := JsOther; raw_timeTaken := None |}.

(** Algebra answered five times, always correctly, an hour before [noon]. *)
Definition fiveOfFive : Progress.t :=
  {| Progress.subjectName := "Mathematics"; Progress.topicTitle := "Algebra";
     Progress.mastery := 0.8; Progress.attempts := 5; Progress.corrects := 5;
     Progress.lastReview := Some (noon - hour); Progress.emaAlpha := 0.3 |}.

Definition store3 : Store := putProgress alice "ALG" fiveOfFive store0.

(** A wrong answer of Alice on Algebra, whose clock reads [noon] when it
    records the attempt and three seconds later when it saves. *)
Definition wrongSecond : SubmitBody := submission "ALG" "ALG_Q2" "C".

Definition slowEnv : Env :=
  {| localMidnight := fixedOffsetMidnight 0; rejects := fun _ => false;
     nowAttempt := noon; nowReview := noon + 3000; nowToday := noon + 3000;
     nowStudy := noon + 3000 |}.

(** Two correct answers of hers on Algebra, served one after the other, one
    and two seconds after [noon]. *)
Definition firstCorrect (st : Store) : Store * Point :=
  servedAlone (utcAt (noon + 1000)) bank alice secondUpper st.
Definition secondCorrect (st : Store) : Store * Point :=
  servedAlone (utcAt (noon + 2000)) bank alice secondUpper (fst (firstCorrect st)).
Definition twoCorrect (st : Store) : Store := fst (secondCorrect st).

(** The two correct answers are served while the wrong one is: after it has
    recorded its attempt and read the Progress record, before it saves. *)
Definition overlapped : list (Store -> Store) := [id; id; twoCorrect; id; id].


(** The store after a first submission on Algebra whose [progress.save()]
    rejects: the record is created and not updated. *)
Definition unsaved : Store :=
  fst (submitAnswerRoute (utcFailing ProgressSave noon) bank alice secondUpper store0).

(** A streak of 5 whose last study was one hour after the Unix epoch. *)
Definition epochStats : User.Stats :=
  {| User.totalAttempts := 9; User.totalCorrect := 5; User.currentStreak := 5;
     User.longestStreak := 5; User.lastStudyDate := Some hour |}.

(** A UTC server whose clock is two hours after the epoch, and the same one
    day later. *)
Definition epochEnv : Env := utcAt (2 * hour).
Definition epochNextDayEnv : Env := utcAt (26 * hour).

(** A new user submitting on the days 0, 0, 1 and 3 counted from the epoch. *)
Definition epochDays : list User.Stats :=
  let s1 := updateStats (utcAt hour) true User.newStats in
  let s2 := updateStats epochEnv true s1 in
  let s3 := updateStats epochNextDayEnv true s2 in
  let s4 := updateStats (utcAt (74 * hour)) true s3 in
  [s1; s2; s3; s4].

(** Local midnight in a zone that is 4 hours behind UTC until [switch]
    (2026-11-01 06:00 UTC) and 5 hours behind from then on: the local day
    that holds the switch lasts 25 hours. *)
Definition switch : Z := 20758 * msPerDay + 6 * hour.

Definition easternMidnight (t : Z) : Z :=
  if t <? switch then fixedOffsetMidnight (-4 * hour) t
  else
    let m := fixedOffsetMidnight (-5 * hour) t in
    if m <? switch then m - hour else m.

(** A server in that zone, its clock at local noon of 2026-11-02. *)
Definition easternEnv : Env :=
  {| localMidnight := easternMidnight; rejects := fun _ => false;
     nowAttempt := 20759 * msPerDay + 17 * hour;
     nowReview := 20759 * msPerDay + 17 * hour;
     nowToday := 20759 * msPerDay + 17 * hour;
     nowStudy := 20759 * msPerDay + 17 * hour |}.

(** A streak of 3 whose last study was at local noon of 2026-11-01. *)
Definition easternStats : User.Stats :=
  {| User.totalAttempts := 6; User.totalCorrect := 4; User.currentStreak := 3;
     User.longestStreak := 3; User.lastStudyDate := Some (20758 * msPerDay + 16 * hour) |}.
End Sample.

(** ** The ranking by score *)

(** [a] may come before [b]: its score is not lower. *)
Definition outranks (a b : Score.t) : Prop := (Score.score b <= Score.score a)%Q.

(** ** Records that no update has reached

    [Progress.create] is the only writer of a record without [lastReview],
    with the mastery 0.2, and every [progress.save()] sets [lastReview]: in
    the stores the routes build, a record without a last review holds the
    initial mastery. *)
Definition unreviewedAreFresh (st : Store) : Prop :=
  forall userId topicId p,
    findProgress userId topicId st = Some p ->
    Progress.lastReview p = None -> Progress.mastery p = 0.2%Q.

(** ** More JavaScript primitives *)

Module JSExtra.

(** [String(n)] for a non-negative integer, as a template literal prints it. *)
Definition numberToString (n : nat) : string :=
  NilEmpty.string_of_uint (Nat.to_uint n).

(** [arr.includes(x)] on strings. *)
Definition includes (arr : list string) (x : string) : bool :=
  existsb (String.eqb x) arr.

(** [s.includes(sep)]: [sep] occurs somewhere in [s]. *)
Fixpoint contains (sep s : string) : bool :=
  String.prefix sep s ||
  match s with
  | EmptyString => false
  | String _ s' => contains sep s'
  end.

(** [s.trimEnd()]: the string without its trailing white space, that is,
    cut where only white space follows. *)
Fixpoint trimEnd (s : string) : string :=
  match s with
  | EmptyString => EmptyString
  | String c s' =>
      match JS.trimStart s with
      | EmptyString => EmptyString
      | String _ _ => String c (trimEnd s')
      end
  end.

(** [s.trim()] *)
Definition trim (s : string) : string := trimEnd (JS.trimStart s).

End JSExtra.

(** ** The quiz routes ([routes/quiz.js]) *)

Module Quiz.

Record SubjectSummary := {
  ss_subjectName : string;
  ss_slug : string;
  ss_topicCount : nat
}.

(** [GET /api/quiz/subjects] *)
Definition getSubjects (data : Bank.Data) : Response (list SubjectSummary) :=
  Success
    (map (fun s => {| ss_subjectName := Bank.subject_name s;
                      ss_slug := Bank.slug s;
                      ss_topicCount := length (Bank.topics s) |})
         (Bank.subjects data)).

Record TopicSummary := {
  ts_topicId : string;
  ts_title : string;
  ts_questionCount : nat
}.

Record SubjectDetail := {
  sd_subjectName : string;
  sd_slug : string;
  sd_topics : list TopicSummary
}.

(** [GET /api/quiz/subjects/:slug] *)
Definition getSubject (data : Bank.Data) (slug : string) : Response SubjectDetail :=
  match List.find (fun s => String.eqb (Bank.slug s) slug) (Bank.subjects data) with
  | None => Failure 404 "Subject not found"
  | Some subject =>
      Success
        {| sd_subjectName := Bank.subject_name subject;
           sd_slug := Bank.slug subject;
           sd_topics :=
             map (fun t => {| ts_topicId := Bank.topic_id t;
                              ts_title := Bank.title t;
                              ts_questionCount := length (Bank.questions t) |})
                 (Bank.topics subject) |}
  end.

(** The template literal [`${topic.topic_id}_Q${idx + 1}`]. *)
Definition questionId (topic_id : string) (idx : nat) : string :=
  topic_id +:+ "_Q" +:+ JSExtra.numberToString (idx + 1).

Record QuestionView := {
  qv_id : string;
  qv_question : string;
  qv_options : list string;
  qv_answer : string
}.

Record TopicDetail := {
  td_topicId : string;
  td_title : string;
  td_subjectName : string;
  td_questions : list QuestionView
}.

(** [GET /api/quiz/topics/:topicId]; the loop over the subjects is the one
    of the submit handler. *)
Definition getTopic (data : Bank.Data) (topicId : string) : Response TopicDetail :=
  match matchedTopic (Bank.subjects data) topicId with
  | None => Failure 404 "Topic not found"
  | Some (subject, topic) =>
      Success
        {| td_topicId := Bank.topic_id topic;
           td_title := Bank.title topic;
           td_subjectName := Bank.subject_name subject;
           td_questions :=
             imap (fun idx question =>
                     {| qv_id := questionId (Bank.topic_id topic) idx;
                        qv_question := Bank.q question;
                        qv_options := Bank.options question;
                        qv_answer := Bank.answer question |})
                  (Bank.questions topic) |}
  end.

(** The question sent by the random-question route: the answer is left out. *)
Record QuestionCard := {
  qc_id : string;
  qc_topicId : string;
  qc_topicTitle : string;
  qc_subjectName : string;
  qc_question : string;
  qc_options : list string;
  qc_questionIndex : nat
}.

Inductive NextQuestion :=
  | Completed (message : string) (totalQuestions : nat)
  | Card (question : QuestionCard).

(** [req.query.answered ? req.query.answered.split(',') : []]: an array or
    an object is truthy and has no function [split]; [inl] is the message
    of the [TypeError]. *)
Definition answeredIds (answered : QueryValue) : string + list string :=
  match answered with
  | QAbsent | QString EmptyString => inr []
  | QString s => inr (JS.split "," s)
  | QStructured _ => inl "req.query.answered.split is not a function"%string
  end.

(** [topic.questions.map((q, idx) => idx).filter(idx => !answeredIds.includes(...))] *)
Definition availableIndices (topic : Bank.Topic) (answeredIds : list string) : list nat :=
  List.filter
    (fun idx => negb (JSExtra.includes answeredIds (questionId (Bank.topic_id topic) idx)))
    (seq 0 (length (Bank.questions topic))).

(** [GET /api/quiz/topics/:topicId/question]; [random] is the value drawn by
    [Math.random()]. Reading [question.q] of an undefined question throws,
    and the [catch] answers 500. *)
Definition getRandomQuestion (random : Q) (data : Bank.Data) (topicId : string)
    (answered : QueryValue) : Response NextQuestion :=
  match matchedTopic (Bank.subjects data) topicId with
  | None => Failure 404 "Topic not found"
  | Some (subject, topic) =>
    match answeredIds answered with
    | inl message => Failure 500 message
    | inr ids =>
      let available := availableIndices topic ids in
      if (length available =? 0)%nat then
        Success (Completed "You have completed all questions in this topic!"
                           (length (Bank.questions topic)))
      else
        let randomAvailableIndex := Qfloor (random * inject_Z (Z.of_nat (length available))) in
        match JS.index available (Some randomAvailableIndex) with
        | Some randomIndex =>
            match Bank.questions topic !! randomIndex with
            | Some question =>
                Success (Card {| qc_id := questionId (Bank.topic_id topic) randomIndex;
                                 qc_topicId := Bank.topic_id topic;
                                 qc_topicTitle := Bank.title topic;
                                 qc_subjectName := Bank.subject_name subject;
                                 qc_question := Bank.q question;
                                 qc_options := Bank.options question;
                                 qc_questionIndex := randomIndex |})
            | None => Failure 500 "Cannot read properties of undefined (reading 'q')"
            end
        | None => Failure 500 "Cannot read properties of undefined (reading 'q')"
        end
    end
  end.

End Quiz.

(** ** The other progress routes ([routes/progress.js]) *)

(** [Attempt.find({ userId }).sort({ timestamp: -1 })]: the attempts of the
    user, the newest first; attempts of equal timestamp stay in insertion
    order. *)
Definition newestFirst (userId : UserId) (ledger : list Attempt.t) : list Attempt.t :=
  JS.sortBy (fun a b => Attempt.timestamp a <? Attempt.timestamp b)
    (List.filter (fun a => N.eqb (Attempt.userId a) userId) ledger).

(** [Attempt.find({ userId, topicId }).sort({ timestamp: -1 })] *)
Definition topicHistory (userId : UserId) (topicId : string) (ledger : list Attempt.t)
  : list Attempt.t :=
  JS.sortBy (fun a b => Attempt.timestamp a <? Attempt.timestamp b)
    (List.filter (fun a => N.eqb (Attempt.userId a) userId
                           && String.eqb (Attempt.topicId a) topicId) ledger).

(** The Progress records of a user with their topic ids, as [Progress.find]
    returns them before any sort. *)
Definition recordsOf (userId : UserId) (st : Store) : list (string * Progress.t) :=
  map_to_list (default ∅ (progressColl st !! userId)).

(** [progress.reduce((acc, p) => acc + p.mastery, 0) / progress.length || 0]:
    without records the quotient 0/0 is NaN, which [|| 0] turns into 0, as it
    does a quotient equal to 0. *)
Definition averageMastery (progress : list (string * Progress.t)) : Q :=
  let total := fold_left (fun acc p => (acc + Progress.mastery p.2)%Q) progress 0%Q in
  match progress with
  | [] => 0%Q
  | _ =>
      let average := (total / inject_Z (Z.of_nat (length progress)))%Q in
      if Qeq_bool average 0 then 0%Q else average
  end.

Record MyProgress := {
  mp_progress : list (string * Progress.t);
  mp_recentAttempts : list Attempt.t;
  mp_totalTopics : nat;
  mp_averageMastery : Q
}.

(** [GET /api/progress/my-progress] *)
Definition getMyProgress (env : Env) (userId : UserId) : Handler (Response MyProgress) :=
  do progress <-
    storage env ProgressFind
      (fun st =>
         (st, JS.sortBy (fun a b => JS.Qltb (Progress.mastery a.2) (Progress.mastery b.2))
                (recordsOf userId st)));
  do recentAttempts <-
    storage env AttemptFind (fun st => (st, take 10 (newestFirst userId (attemptColl st))));
  ret (Success {| mp_progress := progress;
                  mp_recentAttempts := recentAttempts;
                  mp_totalTopics := length progress;
                  mp_averageMastery := averageMastery progress |}).

Definition myProgressRoute (env : Env) (userId : UserId) (st : Store)
  : Store * Response MyProgress :=
  route (getMyProgress env userId) st.

(** The [progress] field of the topic route: the stored record, or the
    literal [{ mastery: 0.2, attempts: 0, corrects: 0 }]. *)
Inductive ProgressView :=
  | StoredProgress (p : Progress.t)
  | DefaultProgress (mastery : Q) (attempts corrects : Z).

Definition viewMastery (v : ProgressView) : Q :=
  match v with
  | StoredProgress p => Progress.mastery p
  | DefaultProgress m _ _ => m
  end.

Definition viewAttempts (v : ProgressView) : Z :=
  match v with
  | StoredProgress p => Progress.attempts p
  | DefaultProgress _ a _ => a
  end.

Definition viewCorrects (v : ProgressView) : Z :=
  match v with
  | StoredProgress p => Progress.corrects p
  | DefaultProgress _ _ c => c
  end.

Record TopicProgress := {
  tp_progress : ProgressView;
  tp_attempts : list Attempt.t
}.

(** [GET /api/progress/topic/:topicId] *)
Definition getTopicProgress (env : Env) (userId : UserId) (topicId : string)
  : Handler (Response TopicProgress) :=
  do progress <- Progress_findOne env userId topicId;
  do attempts <-
    storage env AttemptFind (fun st => (st, topicHistory userId topicId (attemptColl st)));
  ret (Success {| tp_progress :=
                    match progress with
                    | Some p => StoredProgress p
                    | None => DefaultProgress 0.2 0 0
                    end;
                  tp_attempts := attempts |}).

Definition topicProgressRoute (env : Env) (userId : UserId) (topicId : string) (st : Store)
  : Store * Response TopicProgress :=
  route (getTopicProgress env userId topicId) st.

(** [Progress.deleteOne({ userId, topicId })] on the store. *)
Definition deleteProgress (userId : UserId) (topicId : string) (st : Store) : Store :=
  {| attemptColl := attemptColl st;
     progressColl := alter (delete topicId) userId (progressColl st);
     userColl := userColl st; socketLog := socketLog st |}.

(** A storage call that is not one of [Op]: [rejected] tells whether it
    rejects. *)
Definition storageIf {A} (rejected : bool) (f : Store -> Store * A) : Handler A :=
  fun st =>
    if rejected then (st, inl "storage error"%string)
    else let '(st', a) := f st in (st', inr a).

(** [DELETE /api/progress/topic/:topicId/reset] *)
Definition resetTopic (rejected : bool) (userId : UserId) (topicId : string)
  : Handler (Response string) :=
  do_ storageIf rejected (fun st => (deleteProgress userId topicId st, tt));
  ret (Success "Topic progress reset successfully"%string).

Definition resetTopicRoute (rejected : bool) (userId : UserId) (topicId : string)
    (st : Store) : Store * Response string :=
  route (resetTopic rejected userId topicId) st.

(** ** The other recommendation routes ([routes/recommendations.js]) *)

(** The filter [{ mastery: { $lt: 0.5 }, attempts: { $gte: 3 } }]. *)
Definition isWeak (p : Progress.t) : bool :=
  JS.Qltb (Progress.mastery p) 0.5 && (3 <=? Progress.attempts p).

(** [GET /api/recommendations/weak-areas]: [.sort({ mastery: 1 }).limit(5)]. *)
Definition getWeakAreas (env : Env) (userId : UserId)
  : Handler (Response (list (string * Progress.t))) :=
  do weakTopics <-
    storage env ProgressFind
      (fun st =>
         (st, take 5
                (JS.sortBy (fun a b => JS.Qltb (Progress.mastery b.2) (Progress.mastery a.2))
                   (List.filter (fun r => isWeak r.2) (recordsOf userId st)))));
  ret (Success weakTopics).

Definition weakAreasRoute (env : Env) (userId : UserId) (st : Store)
  : Store * Response (list (string * Progress.t)) :=
  route (getWeakAreas env userId) st.

(** [new Date(Date.now() - 7 * 24 * 60 * 60 * 1000)] *)
Definition sevenDaysAgo (now : Z) : Z := now - 7 * 24 * 60 * 60 * 1000.

(** The filter [{ mastery: { $gte: 0.5 }, lastReview: { $lt: sevenDaysAgo } }]:
    a null [lastReview] is not less than a date. *)
Definition isDue (now : Z) (p : Progress.t) : bool :=
  Qle_bool 0.5 (Progress.mastery p) &&
  match Progress.lastReview p with
  | Some t => t <? sevenDaysAgo now
  | None => false
  end.

(** [a] sorts after [b] in [.sort({ lastReview: 1 })]; null sorts first. *)
Definition reviewedLater (a b : Progress.t) : bool :=
  match Progress.lastReview a, Progress.lastReview b with
  | Some x, Some y => y <? x
  | Some _, None => true
  | None, _ => false
  end.

(** [GET /api/recommendations/ready-for-review] *)
Definition getReadyForReview (env : Env) (now : Z) (userId : UserId)
  : Handler (Response (list (string * Progress.t))) :=
  do reviewTopics <-
    storage env ProgressFind
      (fun st =>
         (st, take 5
                (JS.sortBy (fun a b => reviewedLater a.2 b.2)
                   (List.filter (fun r => isDue now r.2) (recordsOf userId st)))));
  ret (Success reviewTopics).

Definition readyForReviewRoute (env : Env) (now : Z) (userId : UserId) (st : Store)
  : Store * Response (list (string * Progress.t)) :=
  route (getReadyForReview env now userId) st.

(** ** The orders of the sorted queries *)

Definition notOlder (a b : Attempt.t) : Prop :=
  Attempt.timestamp b <= Attempt.timestamp a.

Definition masteryNotLower (a b : string * Progress.t) : Prop :=
  (Progress.mastery b.2 <= Progress.mastery a.2)%Q.

Definition masteryNotHigher (a b : string * Progress.t) : Prop :=
  (Progress.mastery a.2 <= Progress.mastery b.2)%Q.

Definition reviewedNoLater (a b : string * Progress.t) : Prop :=
  match Progress.lastReview a.2, Progress.lastReview b.2 with
  | Some x, Some y => x <= y
  | Some _, None => False
  | None, _ => True
  end.

(** ** Invite links and accounts ([models/InviteLink.js], [models/User.js],
    [routes/invite.js], [routes/admin.js]) *)

Module InviteLink.

Record Use := { userId : UserId; usedAt : Z }.

(** An invite link; its unique [code] is the key under which the collection
    holds it. *)
Record t := {
  id : N;
  createdBy : UserId;
  isActive : bool;
  expiresAt : option Z;
  maxUses : option Q;
  usedCount : Z;
  usedBy : list Use;
  label : option string;
  description : option string
}.

(** [inviteLinkSchema.methods.isValid], [now] being [new Date()]. A null
    [expiresAt] and a null or zero [maxUses] are falsy. *)
Definition isValid (now : Z) (link : t) : bool :=
  if negb (isActive link) then false
  else if match expiresAt link with
          | Some expiry => expiry <? now
          | None => false
          end then false
  else if match maxUses link with
          | Some limit => negb (Qeq_bool limit 0) && Qle_bool limit (inject_Z (usedCount link))
          | None => false
          end then false
  else true.

(** The changes of [recordUse] to the document, before it is saved. *)
Definition recordUse (now : Z) (userId : UserId) (link : t) : t :=
  {| id := id link; createdBy := createdBy link; isActive := isActive link;
     expiresAt := expiresAt link; maxUses := maxUses link;
     usedCount := usedCount link + 1;
     usedBy := usedBy link ++ [{| userId := userId; usedAt := now |}];
     label := label link; description := description link |}.

(** [inviteLink.isActive = false] *)
Definition deactivate (link : t) : t :=
  {| id := id link; createdBy := createdBy link; isActive := false;
     expiresAt := expiresAt link; maxUses := maxUses link;
     usedCount := usedCount link; usedBy := usedBy link;
     label := label link; description := description link |}.

End InviteLink.

Inductive Role := RoleUser | RoleAdmin.

(** The fields of a User document that the invite and admin routes read or
    write; its [stats] are kept under the same id in [userColl]. *)
Record Account := {
  acc_name : string;
  acc_usedInviteCode : option string;
  acc_sessionToken : option string;
  acc_role : Role;
  acc_isActive : bool;
  acc_lastLogin : option Z
}.

(** The site: the store of the progress routes, the account fields of the
    users, the invite links by code, and the [account-status-changed] events
    emitted. *)
Record Site := {
  store : Store;
  accountColl : gmap UserId Account;
  inviteColl : gmap string InviteLink.t;
  statusLog : list (UserId * bool)
}.

(** The storage calls of the invite and admin routes. *)
Inductive SiteCall :=
  | InviteCreate | InviteFindOne | InviteFindById | InviteSave
  | UserCreate | UserFindOne | UserFindByIdCall | UserSaveCall | UserDeleteOne
  | ProgressDeleteMany | AttemptDeleteMany.

(** A thrown error: its [code] (11000 for a duplicate key) and its message. *)
Record Thrown := { errCode : option Z; errMessage : string }.

Definition Act (A : Type) : Type := Site -> Site * (Thrown + A).

Definition actRet {A} (a : A) : Act A := fun s => (s, inr a).
Definition actThrow {A} (e : Thrown) : Act A := fun s => (s, inl e).
Definition actBind {A B} (m : Act A) (k : A -> Act B) : Act B :=
  fun s =>
    match m s with
    | (s', inr a) => k a s'
    | (s', inl e) => (s', inl e)
    end.

Notation "'act' x <- m ; k" := (actBind m (fun x => k))
  (at level 10, x name, m at level 100, k at level 200).
Notation "'act_' m ; k" := (actBind m (fun _ => k))
  (at level 10, m at level 100, k at level 200).

Definition storageError : Thrown :=
  {| errCode := None; errMessage := "storage error" |}.

(** A storage call of these routes: it rejects when [faults] says so, before
    any effect. *)
Definition siteCall {A} (faults : SiteCall -> bool) (c : SiteCall)
    (f : Site -> Site * A) : Act A :=
  fun s =>
    if faults c then (s, inl storageError)
    else let '(s', a) := f s in (s', inr a).

(** What these routes send: [res.status(status).json({ success: true, ... })]
    or [{ success: false, message, error }]. *)
Inductive Reply (D : Type) :=
  | Sent (status : Z) (data : D)
  | Refused (status : Z) (message : string) (error : option string).
Arguments Sent {D} status data.
Arguments Refused {D} status message error.

Definition replyStatus {D} (r : Reply D) : Z :=
  match r with
  | Sent status _ => status
  | Refused status _ _ => status
  end.

Definition setAccounts (accounts : gmap UserId Account) (s : Site) : Site :=
  {| store := store s; accountColl := accounts; inviteColl := inviteColl s;
     statusLog := statusLog s |}.

Definition setInvites (invites : gmap string InviteLink.t) (s : Site) : Site :=
  {| store := store s; accountColl := accountColl s; inviteColl := invites;
     statusLog := statusLog s |}.

Definition setStore (st : Store) (s : Site) : Site :=
  {| store := st; accountColl := accountColl s; inviteColl := inviteColl s;
     statusLog := statusLog s |}.

(** *** [GET /api/invite/validate/:code] *)

Definition validateInvite (faults : SiteCall -> bool) (now : Z) (code : string)
  : Act (Reply (option string * option string)) :=
  act inviteLink <- siteCall faults InviteFindOne (fun s => (s, inviteColl s !! code));
  match inviteLink with
  | None => actRet (Refused 404 "Invalid invite code" None)
  | Some link =>
      if negb (InviteLink.isValid now link) then
        actRet (Refused 400 "This invite link has expired or reached its usage limit" None)
      else actRet (Sent 200 (InviteLink.label link, InviteLink.description link))
  end.

Definition validateInviteRoute (faults : SiteCall -> bool) (now : Z) (code : string)
    (s : Site) : Site * Reply (option string * option string) :=
  match validateInvite faults now code s with
  | (s', inr r) => (s', r)
  | (s', inl e) => (s', Refused 500 "Error validating invite code" (Some (errMessage e)))
  end.

(** *** [POST /api/invite/join] *)

(** What a join request draws from its environment: the three readings of
    the clock ([isValid], [lastLogin], [usedAt]), the [ObjectId] given to the
    new user, the bytes of [crypto.randomBytes(32)] in hex, and the token
    signed by [jwt.sign], which throws when it has no secret. *)
Record JoinEnv := {
  j_faults : SiteCall -> bool;
  j_validAt : Z;
  j_loginAt : Z;
  j_usedAt : Z;
  j_newId : UserId;
  j_sessionToken : string;
  j_jwt : option string
}.

Record JoinBody := { jb_name : option string; jb_inviteCode : option string }.

(** [user.getPublicProfile()], on the fields kept, and the token. *)
Record JoinData := {
  jd_id : UserId;
  jd_name : string;
  jd_role : Role;
  jd_stats : User.Stats;
  jd_lastLogin : option Z;
  jd_token : string
}.

(** Some account other than none holds the session token. *)
Definition tokenTaken (token : string) (accounts : gmap UserId Account) : bool :=
  existsb (fun entry => bool_decide (acc_sessionToken entry.2 = Some token))
          (map_to_list accounts).

(** [User.create(...)]: the schema requires a non-empty name; the [_id] and
    the session token are unique. The stats take the defaults of the schema. *)
Definition User_create (env : JoinEnv) (account : Account) : Act UserId :=
  fun s =>
    if j_faults env UserCreate then (s, inl storageError)
    else if String.eqb (acc_name account) EmptyString then
      (s, inl {| errCode := None;
                 errMessage := "User validation failed: name: Please provide a name" |})
    else if bool_decide (is_Some (accountColl s !! j_newId env))
            || match acc_sessionToken account with
               | Some token => tokenTaken token (accountColl s)
               | None => false
               end then
      (s, inl {| errCode := Some 11000; errMessage := "E11000 duplicate key error" |})
    else
      (setStore (putStats (j_newId env) User.newStats (store s))
         (setAccounts (<[j_newId env := account]> (accountColl s)) s),
       inr (j_newId env)).

Definition join (env : JoinEnv) (body : JoinBody) : Act (Reply JoinData) :=
  if negb (truthyString (jb_name body)) || negb (truthyString (jb_inviteCode body)) then
    actRet (Refused 400 "Please provide name and invite code" None)
  else
    let name := default EmptyString (jb_name body) in
    let inviteCode := default EmptyString (jb_inviteCode body) in
    act inviteLink <-
      siteCall (j_faults env) InviteFindOne (fun s => (s, inviteColl s !! inviteCode));
    match inviteLink with
    | None => actRet (Refused 404 "Invalid invite code" None)
    | Some link =>
        if negb (InviteLink.isValid (j_validAt env) link) then
          actRet (Refused 400 "This invite link has expired or reached its usage limit" None)
        else
          let account :=
            {| acc_name := JSExtra.trim name;
               acc_usedInviteCode := Some inviteCode;
               acc_sessionToken := Some (j_sessionToken env);
               acc_role := RoleUser;
               acc_isActive := true;
               acc_lastLogin := Some (j_loginAt env) |} in
          act userId <- User_create env account;
          act_ siteCall (j_faults env) InviteSave
                 (fun s =>
                    (setInvites
                       (<[inviteCode := InviteLink.recordUse (j_usedAt env) userId link]>
                          (inviteColl s)) s, tt));
          match j_jwt env with
          | None =>
              actThrow {| errCode := None;
                          errMessage := "secretOrPrivateKey must have a value" |}
          | Some token =>
              actRet (Sent 201 {| jd_id := userId; jd_name := acc_name account;
                                  jd_role := RoleUser; jd_stats := User.newStats;
                                  jd_lastLogin := acc_lastLogin account;
                                  jd_token := token |})
          end
    end.

(** The route: a duplicate key is answered 400, any other error 500. *)
Definition joinRoute (env : JoinEnv) (body : JoinBody) (s : Site)
  : Site * Reply JoinData :=
  match join env body s with
  | (s', inr r) => (s', r)
  | (s', inl e) =>
      if bool_decide (errCode e = Some 11000) then
        (s', Refused 400 "This name is already taken. Please choose another name." None)
      else (s', Refused 500 "Error joining with invite code" (Some (errMessage e)))
  end.
(** *** [POST /api/invite/create] *)

(** What a create request draws from its environment: the [ObjectId] and the
    default [code] of the new link ([crypto.randomBytes(16)] in hex), the
    instant that [expiryDate.setDate(expiryDate.getDate() + n)] gives for
    [n] on the clock and in the time zone of the server, and
    [process.env.CLIENT_URL]. *)
Record CreateEnv := {
  c_faults : SiteCall -> bool;
  c_newId : N;
  c_code : string;
  c_setDate : Q -> Z;
  c_clientUrl : option string
}.

Record CreateBody := {
  cb_label : option string;
  cb_description : option string;
  cb_maxUses : option Q;
  cb_expiresInDays : option Q
}.

(** [if (x)] on a number: absent and zero are falsy. *)
Definition truthyQ (x : option Q) : option Q :=
  match x with
  | Some v => if Qeq_bool v 0 then None else Some v
  | None => None
  end.

(** The document given to [InviteLink.create], with the defaults of the
    schema. *)
Definition newInvite (env : CreateEnv) (requester : UserId) (body : CreateBody)
  : InviteLink.t :=
  {| InviteLink.id := c_newId env;
     InviteLink.createdBy := requester;
     InviteLink.isActive := true;
     InviteLink.expiresAt := c_setDate env <$> truthyQ (cb_expiresInDays body);
     InviteLink.maxUses := truthyQ (cb_maxUses body);
     InviteLink.usedCount := 0;
     InviteLink.usedBy := [];
     InviteLink.label := cb_label body;
     InviteLink.description := cb_description body |}.

(** [InviteLink.create(inviteData)]: the code is unique. *)
Definition Invite_create (env : CreateEnv) (link : InviteLink.t) : Act InviteLink.t :=
  fun s =>
    if c_faults env InviteCreate then (s, inl storageError)
    else if bool_decide (is_Some (inviteColl s !! c_code env)) then
      (s, inl {| errCode := Some 11000; errMessage := "E11000 duplicate key error" |})
    else (setInvites (<[c_code env := link]> (inviteColl s)) s, inr link).

(** The [inviteLink] object of the answer. *)
Record CreatedInvite := {
  ci_id : N;
  ci_code : string;
  ci_url : string;
  ci_isActive : bool;
  ci_expiresAt : option Z;
  ci_maxUses : option Q;
  ci_usedCount : Z;
  ci_label : option string;
  ci_description : option string
}.

Definition joinUrl (env : CreateEnv) (code : string) : string :=
  (if truthyString (c_clientUrl env) then default EmptyString (c_clientUrl env)
   else "http://localhost:5173") +:+ "/join/" +:+ code.

Definition createInvite (env : CreateEnv) (requester : UserId) (body : CreateBody)
  : Act (Reply CreatedInvite) :=
  act inviteLink <- Invite_create env (newInvite env requester body);
  actRet (Sent 201 {| ci_id := InviteLink.id inviteLink;
                      ci_code := c_code env;
                      ci_url := joinUrl env (c_code env);
                      ci_isActive := InviteLink.isActive inviteLink;
                      ci_expiresAt := InviteLink.expiresAt inviteLink;
                      ci_maxUses := InviteLink.maxUses inviteLink;
                      ci_usedCount := InviteLink.usedCount inviteLink;
                      ci_label := InviteLink.label inviteLink;
                      ci_description := InviteLink.description inviteLink |}).

Definition createInviteRoute (env : CreateEnv) (requester : UserId) (body : CreateBody)
    (s : Site) : Site * Reply CreatedInvite :=
  match createInvite env requester body s with
  | (s', inr r) => (s', r)
  | (s', inl e) => (s', Refused 500 "Error creating invite link" (Some (errMessage e)))
  end.

(** *** [DELETE /api/invite/:id] *)

(** [InviteLink.findById(id)]: the link of that id, with its code. *)
Definition findInviteById (linkId : N) (invites : gmap string InviteLink.t)
  : option (string * InviteLink.t) :=
  List.find (fun entry => N.eqb (InviteLink.id entry.2) linkId) (map_to_list invites).

Definition deactivateInvite (faults : SiteCall -> bool) (requester : UserId) (linkId : N)
  : Act (Reply string) :=
  act inviteLink <-
    siteCall faults InviteFindById (fun s => (s, findInviteById linkId (inviteColl s)));
  match inviteLink with
  | None => actRet (Refused 404 "Invite link not found" None)
  | Some (code, link) =>
      if negb (N.eqb (InviteLink.createdBy link) requester) then
        actRet (Refused 403 "Not authorized to delete this invite link" None)
      else
        act_ siteCall faults InviteSave
               (fun s =>
                  (setInvites (<[code := InviteLink.deactivate link]> (inviteColl s)) s, tt));
        actRet (Sent 200 "Invite link deactivated"%string)
  end.

Definition deactivateInviteRoute (faults : SiteCall -> bool) (requester : UserId)
    (linkId : N) (s : Site) : Site * Reply string :=
  match deactivateInvite faults requester linkId s with
  | (s', inr r) => (s', r)
  | (s', inl e) => (s', Refused 500 "Error deactivating invite link" (Some (errMessage e)))
  end.

(** *** [POST /api/invite/quick-login] *)

(** [User.findOne({ sessionToken, isActive: true })] *)
Definition findActiveByToken (token : string) (accounts : gmap UserId Account)
  : option (UserId * Account) :=
  List.find (fun entry => bool_decide (acc_sessionToken entry.2 = Some token)
                          && acc_isActive entry.2)
            (map_to_list accounts).

Definition loggedIn (now : Z) (account : Account) : Account :=
  {| acc_name := acc_name account; acc_usedInviteCode := acc_usedInviteCode account;
     acc_sessionToken := acc_sessionToken account; acc_role := acc_role account;
     acc_isActive := acc_isActive account; acc_lastLogin := Some now |}.

Definition quickLogin (faults : SiteCall -> bool) (now : Z) (jwt : option string)
    (sessionToken : option string) : Act (Reply JoinData) :=
  if negb (truthyString sessionToken) then
    actRet (Refused 400 "Session token required" None)
  else
    let token := default EmptyString sessionToken in
    act user <-
      siteCall faults UserFindOne (fun s => (s, findActiveByToken token (accountColl s)));
    match user with
    | None => actRet (Refused 404 "Invalid session. Please use invite link again." None)
    | Some (userId, account) =>
        act_ siteCall faults UserSaveCall
               (fun s =>
                  (setAccounts (<[userId := loggedIn now account]> (accountColl s)) s, tt));
        act stats <- (fun s => (s, inr (userColl (store s) !! userId)));
        match jwt with
        | None =>
            actThrow {| errCode := None;
                        errMessage := "secretOrPrivateKey must have a value" |}
        | Some signed =>
            actRet (Sent 200 {| jd_id := userId; jd_name := acc_name account;
                                jd_role := acc_role account;
                                jd_stats := default User.newStats stats;
                                jd_lastLogin := Some now;
                                jd_token := signed |})
        end
    end.

Definition quickLoginRoute (faults : SiteCall -> bool) (now : Z) (jwt : option string)
    (sessionToken : option string) (s : Site) : Site * Reply JoinData :=
  match quickLogin faults now jwt sessionToken s with
  | (s', inr r) => (s', r)
  | (s', inl e) => (s', Refused 500 "Error during quick login" (Some (errMessage e)))
  end.

(** *** [PUT /api/admin/users/:id/toggle-status] *)

Definition toggled (account : Account) : Account :=
  {| acc_name := acc_name account; acc_usedInviteCode := acc_usedInviteCode account;
     acc_sessionToken := acc_sessionToken account; acc_role := acc_role account;
     acc_isActive := negb (acc_isActive account); acc_lastLogin := acc_lastLogin account |}.

Definition toggleStatus (faults : SiteCall -> bool) (userId : UserId) : Act (Reply string) :=
  act user <- siteCall faults UserFindByIdCall (fun s => (s, accountColl s !! userId));
  match user with
  | None => actRet (Refused 404 "User not found" None)
  | Some account =>
      act_ siteCall faults UserSaveCall
             (fun s => (setAccounts (<[userId := toggled account]> (accountColl s)) s, tt));
      act_ (fun s =>
              ({| store := store s; accountColl := accountColl s;
                  inviteColl := inviteColl s;
                  statusLog := statusLog s ++ [(userId, acc_isActive (toggled account))] |},
               inr tt));
      actRet (Sent 200 (if acc_isActive (toggled account)
                        then "User activated successfully"
                        else "User deactivated successfully")%string)
  end.

(** The admin routes answer 500 with the message of the error. *)
Definition adminRoute {D} (h : Act (Reply D)) (s : Site) : Site * Reply D :=
  match h s with
  | (s', inr r) => (s', r)
  | (s', inl e) => (s', Refused 500 (errMessage e) None)
  end.

Definition toggleStatusRoute (faults : SiteCall -> bool) (userId : UserId) (s : Site)
  : Site * Reply string :=
  adminRoute (toggleStatus faults userId) s.

(** *** [DELETE /api/admin/users/:id] *)

(** [Progress.deleteMany({ userId })] *)
Definition dropProgressOf (userId : UserId) (st : Store) : Store :=
  {| attemptColl := attemptColl st; progressColl := delete userId (progressColl st);
     userColl := userColl st; socketLog := socketLog st |}.

(** [Attempt.deleteMany({ userId })] *)
Definition dropAttemptsOf (userId : UserId) (st : Store) : Store :=
  {| attemptColl := List.filter (fun a => negb (N.eqb (Attempt.userId a) userId))
                                (attemptColl st);
     progressColl := progressColl st; userColl := userColl st;
     socketLog := socketLog st |}.

(** [user.deleteOne()]: both parts of the document go. *)
Definition dropUser (userId : UserId) (s : Site) : Site :=
  {| store := {| attemptColl := attemptColl (store s);
                 progressColl := progressColl (store s);
                 userColl := delete userId (userColl (store s));
                 socketLog := socketLog (store s) |};
     accountColl := delete userId (accountColl s);
     inviteColl := inviteColl s; statusLog := statusLog s |}.

Definition deleteUser (faults : SiteCall -> bool) (userId : UserId) : Act (Reply string) :=
  act user <- siteCall faults UserFindByIdCall (fun s => (s, accountColl s !! userId));
  match user with
  | None => actRet (Refused 404 "User not found" None)
  | Some _ =>
      act_ siteCall faults ProgressDeleteMany
             (fun s => (setStore (dropProgressOf userId (store s)) s, tt));
      act_ siteCall faults AttemptDeleteMany
             (fun s => (setStore (dropAttemptsOf userId (store s)) s, tt));
      act_ siteCall faults UserDeleteOne (fun s => (dropUser userId s, tt));
      actRet (Sent 200 "User and all associated data deleted successfully"%string)
  end.

Definition deleteUserRoute (faults : SiteCall -> bool) (userId : UserId) (s : Site)
  : Site * Reply string :=
  adminRoute (deleteUser faults userId) s.

(** Joins made one after the other. *)
Fixpoint joinAll (requests : list (JoinEnv * JoinBody)) (s : Site)
  : Site * list (Reply JoinData) :=
  match requests with
  | [] => (s, [])
  | (env, body) :: rest =>
      let '(s1, r) := joinRoute env body s in
      let '(s2, rs) := joinAll rest s1 in
      (s2, r :: rs)
  end.

(** The members a site has admitted through the link of a code. *)
Definition joinedWith (code : string) (s : Site) : list (UserId * Account) :=
  List.filter (fun entry => bool_decide (acc_usedInviteCode entry.2 = Some code))
              (map_to_list (accountColl s)).

Definition emptySite : Site :=
  {| store := emptyStore; accountColl := ∅; inviteColl := ∅; statusLog := [] |}.

(** How many of the requests named the code and were answered 201. *)
Definition admissions (code : string) (requests : list (JoinEnv * JoinBody))
    (replies : list (Reply JoinData)) : Z :=
  Z.of_nat
    (length
       (List.filter
          (fun entry => bool_decide (jb_inviteCode entry.1.2 = Some code)
                        && (replyStatus entry.2 =? 201))
          (zip requests replies))).
(** ** The statistics of a user ([routes/users.js]) *)

(** The five queries of [GET /api/users/stats]; none of them writes. *)
Inductive StatsCall :=
  | CountAttempts | CountCorrect | CountTopics | CountWeek | AggregateDaily.

(** [Attempt.countDocuments({ userId, ... })] *)
Definition countAttempts (keep : Attempt.t -> bool) (userId : UserId) (st : Store) : Z :=
  Z.of_nat
    (length (List.filter (fun a => N.eqb (Attempt.userId a) userId && keep a)
                         (attemptColl st))).

(** [Progress.countDocuments({ userId, attempts: { $gte: 1 } })] *)
Definition countTopics (userId : UserId) (st : Store) : Z :=
  Z.of_nat
    (length (List.filter (fun r : string * Progress.t => 1 <=? Progress.attempts r.2)
                         (recordsOf userId st))).

(** The UTC day of an instant. The pipeline groups by the string
    [$dateToString] prints for it with the format ['%Y-%m-%d'] and sorts by
    that string; the number of the day stands for the string here, the two
    being in one-to-one and order-preserving correspondence. *)
Definition utcDay (t : Z) : Z := t / msPerDay.

Record DayPerformance := {
  dp_date : Z;
  dp_total : Z;
  dp_correct : Z;
  dp_accuracy : Q
}.

(** One group of the [$group] stage, after [$project]. *)
Definition dayPerformance (matched : list Attempt.t) (day : Z) : DayPerformance :=
  let group := List.filter (fun a => utcDay (Attempt.timestamp a) =? day) matched in
  let total := Z.of_nat (length group) in
  let correct := Z.of_nat (length (List.filter Attempt.isCorrect group)) in
  {| dp_date := day; dp_total := total; dp_correct := correct;
     dp_accuracy := (inject_Z correct / inject_Z total * 100)%Q |}.

(** The attempts kept by [{ userId, timestamp: { $gte: weekAgo } }]. *)
Definition sinceOf (weekAgo : Z) (userId : UserId) (st : Store) : list Attempt.t :=
  List.filter (fun a => N.eqb (Attempt.userId a) userId
                        && (weekAgo <=? Attempt.timestamp a))
              (attemptColl st).

(** The aggregation: [$match], [$group] by day, [$project], [$sort] by date. *)
Definition dailyPerformance (weekAgo : Z) (userId : UserId) (st : Store)
  : list DayPerformance :=
  let matched := sinceOf weekAgo userId st in
  map (dayPerformance matched)
      (JS.sortBy (fun a b => b <? a)
         (nodup Z.eq_dec (map (fun a => utcDay (Attempt.timestamp a)) matched))).

Record UserStats := {
  us_overallAccuracy : Z;
  us_totalAttempts : Z;
  us_correctAttempts : Z;
  us_topicsStudied : Z;
  us_weekActivity : Z;
  us_currentStreak : Z;
  us_longestStreak : Z;
  us_dailyPerformance : list DayPerformance
}.

(** [GET /api/users/stats]; [now] is [Date.now()] and [me] the statistics of
    [req.user]. *)
Definition getStats (faults : StatsCall -> bool) (now : Z) (userId : UserId)
    (me : User.Stats) : Handler (Response UserStats) :=
  do totalAttempts <-
    storageIf (faults CountAttempts) (fun st => (st, countAttempts (fun _ => true) userId st));
  do correctAttempts <-
    storageIf (faults CountCorrect) (fun st => (st, countAttempts Attempt.isCorrect userId st));
  let overallAccuracy :=
    if 0 <? totalAttempts
    then (inject_Z correctAttempts / inject_Z totalAttempts * 100)%Q else 0%Q in
  do topicsStudied <-
    storageIf (faults CountTopics) (fun st => (st, countTopics userId st));
  let weekAgo := sevenDaysAgo now in
  do weekActivity <-
    storageIf (faults CountWeek)
      (fun st => (st, countAttempts (fun a => weekAgo <=? Attempt.timestamp a) userId st));
  do daily <-
    storageIf (faults AggregateDaily) (fun st => (st, dailyPerformance weekAgo userId st));
  ret (Success {| us_overallAccuracy := JS.round overallAccuracy;
                  us_totalAttempts := totalAttempts;
                  us_correctAttempts := correctAttempts;
                  us_topicsStudied := topicsStudied;
                  us_weekActivity := weekActivity;
                  us_currentStreak := User.currentStreak me;
                  us_longestStreak := User.longestStreak me;
                  us_dailyPerformance := daily |}).

Definition statsRoute (faults : StatsCall -> bool) (now : Z) (userId : UserId)
    (me : User.Stats) (st : Store) : Store * Response UserStats :=
  route (getStats faults now userId me) st.

(** The same route among other requests. Its five queries are awaited one
    after the other and none of them writes: the query [c] reads the store
    [seen c], the collections as they are when it runs. *)
Definition statsAmong (faults : StatsCall -> bool) (now : Z) (userId : UserId)
    (me : User.Stats) (seen : StatsCall -> Store) : Response UserStats :=
  if faults CountAttempts then Failure 500 "storage error" else
  let totalAttempts := countAttempts (fun _ => true) userId (seen CountAttempts) in
  if faults CountCorrect then Failure 500 "storage error" else
  let correctAttempts := countAttempts Attempt.isCorrect userId (seen CountCorrect) in
  let overallAccuracy :=
    if 0 <? totalAttempts
    then (inject_Z correctAttempts / inject_Z totalAttempts * 100)%Q else 0%Q in
  if faults CountTopics then Failure 500 "storage error" else
  let topicsStudied := countTopics userId (seen CountTopics) in
  let weekAgo := sevenDaysAgo now in
  if faults CountWeek then Failure 500 "storage error" else
  let weekActivity :=
    countAttempts (fun a => weekAgo <=? Attempt.timestamp a) userId (seen CountWeek) in
  if faults AggregateDaily then Failure 500 "storage error" else
  let daily := dailyPerformance weekAgo userId (seen AggregateDaily) in
  Success {| us_overallAccuracy := JS.round overallAccuracy;
             us_totalAttempts := totalAttempts;
             us_correctAttempts := correctAttempts;
             us_topicsStudied := topicsStudied;
             us_weekActivity := weekActivity;
             us_currentStreak := User.currentStreak me;
             us_longestStreak := User.longestStreak me;
             us_dailyPerformance := daily |}.

(** The sum of a list of counts. *)
Definition sumOf (counts : list Z) : Z := fold_right Z.add 0 counts.

(** ** Sample data for the other routes *)

Module Fixture.

Definition view (id text answer : string) : Quiz.QuestionView :=
  {| Quiz.qv_id := id; Quiz.qv_question := text;
     Quiz.qv_options := ["a"; "b"; "c"; "d"]; Quiz.qv_answer := answer |}.

(** What [GET /api/quiz/topics/ALG] sends for the sample bank. *)
Definition algebraDetail : Quiz.TopicDetail :=
  {| Quiz.td_topicId := "ALG"; Quiz.td_title := "Algebra";
     Quiz.td_subjectName := "Mathematics";
     Quiz.td_questions := [view "ALG_Q1" "1 + 1" "a "; view "ALG_Q2" "2 + 2" "b";
                           view "ALG_Q3" "void" ""] |}.

Definition mathematics : Bank.Subject :=
  {| Bank.subject_name := "Mathematics"; Bank.slug := "math";
     Bank.topics := [Sample.algebra; Sample.geometry] |}.

Definition geometrySummary : Quiz.TopicSummary :=
  {| Quiz.ts_topicId := "GEO"; Quiz.ts_title := "Geometry"; Quiz.ts_questionCount := 1 |}.

Definition record (subject title : string) (mastery : Q) (attempts corrects : Z)
    (lastReview : Z) : Progress.t :=
  {| Progress.subjectName := subject; Progress.topicTitle := title;
     Progress.mastery := mastery; Progress.attempts := attempts;
     Progress.corrects := corrects; Progress.lastReview := Some lastReview;
     Progress.emaAlpha := 0.3 |}.

(** Geometry is mastered and was reviewed 8 days before [Sample.noon];
    Grammar is weak and was reviewed the day before. *)
Definition geometryRecord : Progress.t :=
  record "Mathematics" "Geometry" 0.8 5 4 (Sample.noon - 8 * msPerDay).
Definition grammarRecord : Progress.t :=
  record "English" "Grammar" 0.3 4 1 (Sample.noon - msPerDay).

Definition studied : Store :=
  putProgress Sample.alice "GEO" geometryRecord
    (putProgress Sample.alice "GRA" grammarRecord Sample.store0).

(** Algebra as well, weak and reviewed 10 days before. *)
Definition algebraRecord : Progress.t :=
  record "Mathematics" "Algebra" 0.25 3 0 (Sample.noon - 10 * msPerDay).

Definition studiedAll : Store := putProgress Sample.alice "ALG" algebraRecord studied.

(** The store after Alice answers the second question of Algebra. *)
Definition afterSubmit : Store :=
  fst (submitAnswerRoute Sample.env Sample.bank Sample.alice Sample.secondUpper studied).

(** The same after her Algebra record has been reset. *)
Definition afterReset : Store := fst (resetTopicRoute false Sample.alice "ALG" studiedAll).

(** *** A site with an administrator and one invite link *)

Definition admin : UserId := 1%N.
Definition bob : UserId := 8%N.
Definition carol : UserId := 9%N.
Definition dave : UserId := 10%N.

Definition adminAccount : Account :=
  {| acc_name := "Root"; acc_usedInviteCode := None; acc_sessionToken := None;
     acc_role := RoleAdmin; acc_isActive := true; acc_lastLogin := None |}.

(** A link for two members, good until the day after [Sample.noon]. *)
Definition welcome : InviteLink.t :=
  {| InviteLink.id := 11; InviteLink.createdBy := admin; InviteLink.isActive := true;
     InviteLink.expiresAt := Some (Sample.noon + msPerDay);
     InviteLink.maxUses := Some 2%Q; InviteLink.usedCount := 0;
     InviteLink.usedBy := []; InviteLink.label := Some "Class A"%string;
     InviteLink.description := None |}.

Definition site0 : Site :=
  {| store := putStats admin User.newStats emptyStore;
     accountColl := {[ admin := adminAccount ]};
     inviteColl := {[ "c0ffee"%string := welcome ]};
     statusLog := [] |}.

Definition noFault : SiteCall -> bool := fun _ => false.

(** A join served at [Sample.noon], every storage call going through. *)
Definition joinAs (newId : UserId) (token : string) : JoinEnv :=
  {| j_faults := noFault; j_validAt := Sample.noon; j_loginAt := Sample.noon;
     j_usedAt := Sample.noon; j_newId := newId; j_sessionToken := token;
     j_jwt := Some "signed"%string |}.

(** The same, with the save of the link rejected. *)
Definition joinSaveFailing (newId : UserId) (token : string) : JoinEnv :=
  {| j_faults := fun c => match c with InviteSave => true | _ => false end;
     j_validAt := Sample.noon; j_loginAt := Sample.noon;
     j_usedAt := Sample.noon; j_newId := newId; j_sessionToken := token;
     j_jwt := Some "signed"%string |}.

Definition request (name code : string) : JoinBody :=
  {| jb_name := Some name; jb_inviteCode := Some code |}.

Definition bobAccount : Account :=
  {| acc_name := "Bob"; acc_usedInviteCode := Some "c0ffee"%string;
     acc_sessionToken := Some "b0b"%string; acc_role := RoleUser;
     acc_isActive := true; acc_lastLogin := Some Sample.noon |}.

Definition bobData (token : string) (lastLogin : Z) : JoinData :=
  {| jd_id := bob; jd_name := "Bob"; jd_role := RoleUser; jd_stats := User.newStats;
     jd_lastLogin := Some lastLogin; jd_token := token |}.

(** The site after Bob has joined. *)
Definition joined : Site :=
  fst (joinRoute (joinAs bob "b0b") (request " Bob " "c0ffee") site0).

(** Three requests for the link of two. *)
Definition queue : list (JoinEnv * JoinBody) :=
  [ (joinAs bob "b0b", request " Bob " "c0ffee");
    (joinAs carol "ca01", request "Carol" "c0ffee");
    (joinAs dave "da7e", request "Dave" "c0ffee") ].

(** The site after the administrator has deactivated the link. *)
Definition closed : Site := fst (deactivateInviteRoute noFault admin 11 site0).

(** A creation served at [Sample.noon] by a server on UTC, for whole
    numbers of days. *)
Definition createAs (newId : N) (code : string) : CreateEnv :=
  {| c_faults := noFault; c_newId := newId; c_code := code;
     c_setDate := fun n => Sample.noon + Qfloor n * msPerDay;
     c_clientUrl := None |}.

(** A link for three members, for a week. *)
Definition classB : CreateBody :=
  {| cb_label := Some "Class B"%string; cb_description := None;
     cb_maxUses := Some 3%Q; cb_expiresInDays := Some 7%Q |}.

Definition created : CreatedInvite :=
  {| ci_id := 12; ci_code := "decaf"; ci_url := "http://localhost:5173/join/decaf";
     ci_isActive := true; ci_expiresAt := Some (Sample.noon + 7 * msPerDay);
     ci_maxUses := Some 3%Q; ci_usedCount := 0; ci_label := Some "Class B"%string;
     ci_description := None |}.

(** The site after the administrator has created that link. *)
Definition extended : Site :=
  fst (createInviteRoute (createAs 12 "decaf") admin classB site0).

(** What happens while a submission of Alice is served: Bob submits an
    answer after her first step. *)
Definition meanwhile : list (Store -> Store) :=
  [ id;
    (fun st => fst (servedAlone Sample.env Sample.bank bob Sample.firstUpper st));
    id; id; id; id ].

(** The statistics queries all going through. *)
Definition noStatsFault : StatsCall -> bool := fun _ => false.

(** The first count runs before Alice's submission is recorded, the other
    queries after it. *)
Definition duringSubmit (c : StatsCall) : Store :=
  match c with
  | CountAttempts => studied
  | _ => afterSubmit
  end.

End Fixture.

(** * Properties *)

(** ** The JavaScript primitives on examples *)

Example split_question_id : JS.split "_Q" "T1_Q3" = ["T1"; "3"]. Proof. reflexivity. Qed.
Example split_separator_last : JS.split "_Q" "a_Q" = ["a"; ""]. Proof. reflexivity. Qed.
Example split_two_separators : JS.split "_Q" "a_Qb_Q5" = ["a"; "b"; "5"]. Proof. reflexivity. Qed.
Example parseInt_sign_and_unit : JS.parseInt " -12px" = Some (-12). Proof. reflexivity. Qed.
Example parseInt_hex : JS.parseInt "0x1f" = Some 31. Proof. reflexivity. Qed.
Example parseInt_letters : JS.parseInt "abc" = None. Proof. reflexivity. Qed.
Example parseInt_empty : JS.parseInt "" = None. Proof. reflexivity. Qed.

(** A no-break space (U+00A0, the bytes C2 A0) before the digits is skipped,
    as is an ideographic space (U+3000, the bytes E3 80 80). *)
Example parseInt_no_break_space :
  JS.parseInt (String (ascii_of_nat 194) (String (ascii_of_nat 160) "2")) = Some 2.
Proof. reflexivity. Qed.

Example parseInt_ideographic_space :
  JS.parseInt (String (ascii_of_nat 227) (String (ascii_of_nat 128)
                 (String (ascii_of_nat 128) "-7"))) = Some (-7).
Proof. reflexivity. Qed.

(** The bytes of a letter outside ASCII are no white space: "é" is C3 A9. *)
Example trimStart_keeps_letters :
  JS.trimStart (String (ascii_of_nat 195) (String (ascii_of_nat 169) " "))
  = String (ascii_of_nat 195) (String (ascii_of_nat 169) " ").
Proof. reflexivity. Qed.
Example toUpperCase_ascii : JS.toUpperCase "a b-z{" = "A B-Z{". Proof. reflexivity. Qed.
Example slice0_negative_end : JS.slice0 [1;2;3] (Some (-1)) = [1;2]. Proof. reflexivity. Qed.
Example round_half_up : JS.round (5 # 2) = 3. Proof. reflexivity. Qed.
Example round_negative_half : JS.round (-5 # 2) = -2. Proof. reflexivity. Qed.

(** ** The store *)

Lemma findProgress_putProgress userId topicId p st :
  findProgress userId topicId (putProgress userId topicId p st) = Some p.
Proof.
  unfold findProgress, putProgress; simpl.
  rewrite lookup_insert_eq. simpl. apply lookup_insert_eq.
Qed.

Lemma findProgress_putProgress_other userId topicId userId' topicId' p st :
  (userId, topicId) <> (userId', topicId') ->
  findProgress userId topicId (putProgress userId' topicId' p st)
  = findProgress userId topicId st.
Proof.
  intros Hne. unfold findProgress, putProgress; cbn [progressColl].
  destruct (decide (userId = userId')) as [->|Hu].
  - rewrite lookup_insert_eq. cbn [mbind option_bind].
    rewrite lookup_insert_ne by congruence.
    destruct (progressColl st !! userId'); [reflexivity | apply lookup_empty].
  - rewrite lookup_insert_ne by congruence. reflexivity.
Qed.

Lemma findProgress_afterProgress env userId body found st :
  findProgress userId (topicId body) (afterProgress env userId body found st)
  = Some (progressAfter env userId body found st).
Proof. apply findProgress_putProgress. Qed.

Lemma findProgress_afterStats env userId body found st stats0 :
  findProgress userId (topicId body) (afterStats env userId body found st stats0)
  = Some (progressAfter env userId body found st).
Proof. apply findProgress_putProgress. Qed.

Lemma userColl_afterCreate env userId body found st :
  userColl (afterCreate env userId body found st) = userColl st.
Proof. unfold afterCreate. destruct (findProgress _ _ _); reflexivity. Qed.

Lemma socketLog_afterCreate env userId body found st :
  socketLog (afterCreate env userId body found st) = socketLog st.
Proof. unfold afterCreate. destruct (findProgress _ _ _); reflexivity. Qed.

Lemma attemptColl_afterCreate env userId body found st :
  attemptColl (afterCreate env userId body found st)
  = attemptColl st ++ [attemptRecord env userId body found].
Proof. unfold afterCreate. destruct (findProgress _ _ _); reflexivity. Qed.

(** ** The route, case by case *)

Ltac storage_step :=
  match goal with
  | |- context [storage ?env ?op ?f ?st] =>
      unfold storage at 1;
      destruct (rejects env op) eqn:?; simpl; try reflexivity
  end.

Lemma submitAnswerRoute_outcome env data userId body st :
  submitAnswerRoute env data userId body st =
  outcome env userId body
    (lookup (Bank.subjects data) (topicId body) (questionId body)) st.
Proof.
  unfold submitAnswerRoute, route, submitAnswer, outcome.
  set (found := lookup _ _ _).
  destruct (negb (truthyString (correctAnswer found))); [reflexivity|].
  fold (answerOf found). fold (verdict body found).
  fold (attemptRecord env userId body found).
  unfold bind at 1, Attempt_create. storage_step.
  fold (afterAttempt env userId body found st).
  unfold bind at 1, Progress_findOne. storage_step.
  change (findProgress userId (topicId body) (afterAttempt env userId body found st))
    with (findProgress userId (topicId body) st).
  unfold afterProgress, afterCreate, afterStats, successData, progressAfter, progressBefore.
  fold (freshRecord found).
  destruct (findProgress userId (topicId body) st) as [p|] eqn:Hfind; simpl.
  - unfold bind at 1, ret at 1.
    unfold bind at 1, Progress_save. storage_step.
    unfold bind at 1, User_findById. storage_step.
    destruct (userColl st !! userId) as [stats0|]; simpl; [|reflexivity].
    unfold bind at 1, User_save. storage_step.
    unfold afterProgress, afterCreate, progressAfter, progressBefore.
    rewrite Hfind. reflexivity.
  - unfold bind at 1, Progress_create. storage_step.
    unfold bind at 1, Progress_save. storage_step.
    unfold bind at 1, User_findById. storage_step.
    destruct (userColl st !! userId) as [stats0|]; simpl; [|reflexivity].
    unfold bind at 1, User_save. storage_step.
    unfold afterProgress, afterCreate, progressAfter, progressBefore.
    rewrite Hfind. reflexivity.
Qed.

Lemma truthyString_Some s a :
  s = Some a -> a <> EmptyString -> truthyString s = true.
Proof. intros -> Ha. destruct a; [congruence | reflexivity]. Qed.

Lemma truthyString_inv s :
  truthyString s = true -> exists a, s = Some a /\ a <> EmptyString.
Proof.
  destruct s as [[|c r]|]; simpl; try discriminate.
  intros _. eexists; split; [reflexivity | discriminate].
Qed.

(** A successful answer has gone through every case of [outcome]. *)
Lemma outcome_Success_inv env userId body found st st' d :
  outcome env userId body found st = (st', Success d) ->
  exists stats0,
    truthyString (correctAnswer found) = true /\
    userColl st !! userId = Some stats0 /\
    st' = afterStats env userId body found st stats0 /\
    d = successData env userId body found st stats0.
Proof.
  unfold outcome.
  repeat match goal with
         | |- context [if ?b then _ else _] => destruct b eqn:?; try discriminate
         end.
  destruct (userColl st !! userId) as [stats0|]; [|discriminate].
  destruct (rejects env UserSave); [discriminate|].
  intros [= <- <-]. exists stats0.
  repeat split; try reflexivity.
  destruct (truthyString (correctAnswer found)); [reflexivity | discriminate].
Qed.

(** With the question resolved, the user registered and no storage call
    rejecting, the submission succeeds. *)
Lemma submitAnswerRoute_succeeds env data userId body st answer stats0 :
  correctAnswer (lookup (Bank.subjects data) (topicId body) (questionId body)) = Some answer ->
  answer <> EmptyString ->
  (forall op, rejects env op = false) ->
  userColl st !! userId = Some stats0 ->
  exists st' d, submitAnswerRoute env data userId body st = (st', Success d).
Proof.
  intros Hans Hne Hok Huser.
  rewrite submitAnswerRoute_outcome. unfold outcome.
  rewrite (truthyString_Some _ _ Hans Hne), !Hok, Huser, andb_false_r. simpl.
  eauto.
Qed.

Lemma lookup_matchedTopic subjects topicId questionId :
  lookup subjects topicId questionId =
  match matchedTopic subjects topicId with
  | Some (subject, topic) =>
      {| subjectName := Some (Bank.subject_name subject);
         topicTitle := Some (Bank.title topic);
         correctAnswer := answerAt topic questionId |}
  | None => notFound
  end.
Proof.
  induction subjects as [|subject rest IH]; simpl; [reflexivity|].
  destruct (findTopic topicId subject); [reflexivity | exact IH].
Qed.

Lemma matchedTopic_no_match subjects topicId :
  (forall subject topic,
      In subject subjects -> In topic (Bank.topics subject) ->
      Bank.topic_id topic <> topicId) ->
  matchedTopic subjects topicId = None.
Proof.
  induction subjects as [|subject rest IH]; simpl; intros Hno; [reflexivity|].
  destruct (findTopic topicId subject) as [topic|] eqn:Hfind.
  - apply find_some in Hfind as [Hin Heq].
    apply String.eqb_eq in Heq. exfalso. exact (Hno subject topic (or_introl eq_refl) Hin Heq).
  - apply IH. intros s t Hs. apply Hno. right; exact Hs.
Qed.

Lemma index_out_of_range {A} (arr : list A) k :
  k < 0 \/ Z.of_nat (length arr) <= k -> JS.index arr (Some k) = None.
Proof.
  intros H. unfold JS.index. destruct (k <? 0) eqn:Hk; [reflexivity|].
  apply Z.ltb_ge in Hk. apply lookup_ge_None. lia.
Qed.

(** ** The request as it arrives *)

Lemma asStrings_rawOf body : asStrings (rawOf body) = Some body.
Proof. destruct body; reflexivity. Qed.

Lemma asStrings_Some fields body : asStrings fields = Some body -> fields = rawOf body.
Proof.
  destruct fields as [[| |tid|] [| |qid|] [| |answer|] elapsed]; try discriminate.
  intros [= <-]. reflexivity.
Qed.

Lemma rawOf_inj body body' : rawOf body = rawOf body' -> body = body'.
Proof.
  intros H. apply (f_equal asStrings) in H. rewrite !asStrings_rawOf in H.
  injection H as ->. reflexivity.
Qed.

(** On a body of three strings the request is the route on the strings. *)
Lemma submitRequest_typed env data userId body st :
  submitRequest env data userId (Some (rawOf body)) st
  = submitAnswerRoute env data userId body st.
Proof.
  destruct body as [tid qid answer elapsed].
  unfold submitRequest, submitRaw, submitAnswerRoute, rawOf;
    cbn [raw_topicId raw_questionId raw_userAnswer raw_timeTaken
         topicId questionId userAnswer timeTaken].
  destruct (matchedTopic (Bank.subjects data) tid) as [[subject topic]|] eqn:Hm.
  - destruct (negb (truthyString (answerAt topic qid))) eqn:Ht; [|reflexivity].
    unfold route, submitAnswer; cbn [topicId questionId].
    rewrite lookup_matchedTopic, Hm; cbn [correctAnswer]. rewrite Ht. reflexivity.
  - unfold route, submitAnswer; cbn [topicId questionId].
    rewrite lookup_matchedTopic, Hm. reflexivity.
Qed.

(** A body with a field that is no string is answered before any storage
    call: with 404 by the handler, or by a [TypeError]. *)
Lemma submitRaw_untyped env data userId fields st :
  asStrings fields = None ->
  exists r, submitRaw env data userId fields st = (st, r) /\
            (r = inr (Failure 404 "Question not found") \/ exists message, r = inl message).
Proof.
  unfold submitRaw, asStrings.
  destruct fields as [tid qid answer elapsed];
    cbn [raw_topicId raw_questionId raw_userAnswer raw_timeTaken].
  destruct tid as [| |tid|]; try (intros _; eexists; split; [reflexivity | left; reflexivity]).
  destruct (matchedTopic (Bank.subjects data) tid) as [[subject topic]|];
    [|intros _; eexists; split; [reflexivity | left; reflexivity]].
  destruct qid as [| |qid|];
    try (intros _; eexists; split; [reflexivity | right; eexists; reflexivity]).
  destruct (negb (truthyString (answerAt topic qid)));
    [intros _; eexists; split; [reflexivity | left; reflexivity]|].
  destruct answer as [| |answer|]; try discriminate;
    intros _; eexists; (split; [reflexivity | right; eexists; reflexivity]).
Qed.

Lemma submitRequest_untyped env data userId fields st :
  asStrings fields = None ->
  exists code message,
    submitRequest env data userId (Some fields) st = (st, Failure code message) /\
    (code = 404 \/ code = 500).
Proof.
  intros H. destruct (submitRaw_untyped env data userId fields st H)
    as (r & Hrun & [-> | [message ->]]);
    unfold submitRequest, route; rewrite Hrun; eauto.
Qed.

(** A [userAnswer] that is no string, for a question that resolves, stops
    the handler at line 59. *)
Lemma submitRequest_answer_not_string env data userId fields tid subject topic qid st :
  raw_topicId fields = JsString tid ->
  matchedTopic (Bank.subjects data) tid = Some (subject, topic) ->
  raw_questionId fields = JsString qid ->
  truthyString (answerAt topic qid) = true ->
  (forall answer, raw_userAnswer fields <> JsString answer) ->
  submitRequest env data userId (Some fields) st
  = (st, Failure 500 (notAString "userAnswer" "toUpperCase" (raw_userAnswer fields))).
Proof.
  intros Ht Hm Hq Htruthy Ha. unfold submitRequest, route, submitRaw.
  rewrite Ht, Hm, Hq, Htruthy. cbn [negb].
  destruct (raw_userAnswer fields) as [| |answer|]; try reflexivity.
  destruct (Ha answer eq_refl).
Qed.

Lemma submitRequest_no_body env data userId st :
  submitRequest env data userId None st
  = (st, Failure 500
           "Cannot destructure property 'topicId' of 'req.body' as it is undefined.").
Proof. reflexivity. Qed.

(** A request answered 200 had three strings in its body. *)
Lemma submitRequest_Success_inv env data userId body st st' d :
  submitRequest env data userId body st = (st', Success d) ->
  exists typed, body = Some (rawOf typed) /\
                submitAnswerRoute env data userId typed st = (st', Success d).
Proof.
  intros H. destruct body as [fields|]; [|discriminate H].
  destruct (asStrings fields) as [typed|] eqn:Htyped.
  - apply asStrings_Some in Htyped as ->. exists typed.
    split; [reflexivity|]. rewrite <- submitRequest_typed. exact H.
  - destruct (submitRequest_untyped env data userId fields st Htyped)
      as (code & message & Hrun & _).
    rewrite Hrun in H. discriminate H.
Qed.

(** ** The mastery update *)

Lemma newMastery_range alpha right m :
  (0 <= alpha <= 1 -> 0 <= m <= 1 -> 0 <= newMastery alpha right m <= 1)%Q.
Proof. unfold newMastery. destruct right; intros; nra. Qed.

Lemma progressBefore_stored userId body found st :
  Progress.emaAlpha (progressBefore userId body found st)
  = from_option Progress.emaAlpha 0.3%Q (findProgress userId (topicId body) st) /\
  Progress.mastery (progressBefore userId body found st)
  = from_option Progress.mastery 0.2%Q (findProgress userId (topicId body) st) /\
  Progress.attempts (progressBefore userId body found st)
  = from_option Progress.attempts 0 (findProgress userId (topicId body) st) /\
  Progress.corrects (progressBefore userId body found st)
  = from_option Progress.corrects 0 (findProgress userId (topicId body) st).
Proof.
  unfold progressBefore. destruct (findProgress _ _ _); simpl; auto.
Qed.

(** C1. When the topic and the question of a submission resolve and the
    attempt and Progress storage calls go through, the Progress record stored
    for the user and the topic has mastery
    [alpha * (isCorrect ? 1 : 0) + (1 - alpha) * priorMastery], where [alpha]
    and [priorMastery] are the [emaAlpha] and [mastery] of the record stored
    before, or 0.3 and 0.2 of the record materialized for a first attempt (the
    formula is applied to that prior as well); and the new mastery lies in
    [0,1] whenever [alpha] and [priorMastery] do. *)
Theorem C1_mastery_is_ema env data userId body st answer :
  correctAnswer (lookup (Bank.subjects data) (topicId body) (questionId body)) = Some answer ->
  answer <> EmptyString ->
  rejects env AttemptCreate = false ->
  rejects env ProgressFindOne = false ->
  rejects env ProgressCreate = false ->
  rejects env ProgressSave = false ->
  let stored := findProgress userId (topicId body) st in
  let alpha := from_option Progress.emaAlpha 0.3%Q stored in
  let priorMastery := from_option Progress.mastery 0.2%Q stored in
  let sample := if isCorrect (userAnswer body) answer then 1%Q else 0%Q in
  exists p,
    findProgress userId (topicId body)
      (fst (submitAnswerRoute env data userId body st)) = Some p /\
    Progress.mastery p = (alpha * sample + (1 - alpha) * priorMastery)%Q /\
    ((0 <= alpha <= 1)%Q -> (0 <= priorMastery <= 1)%Q ->
     (0 <= Progress.mastery p <= 1)%Q).
Proof.
  intros Hans Hne H1 H2 H3 H4 stored alpha priorMastery sample.
  rewrite submitAnswerRoute_outcome.
  set (found := lookup _ _ _) in *.
  exists (progressAfter env userId body found st).
  destruct (progressBefore_stored userId body found st) as (Ha & Hm & _ & _).
  assert (Hv : verdict body found = isCorrect (userAnswer body) answer).
  { unfold verdict, answerOf. rewrite Hans. reflexivity. }
  split; [|split].
  - unfold outcome.
    rewrite (truthyString_Some _ _ Hans Hne), H1, H2, H3, H4, andb_false_r. simpl.
    destruct (rejects env UserFindById); simpl;
      [apply findProgress_afterProgress|].
    destruct (userColl st !! userId); simpl;
      [|apply findProgress_afterProgress].
    destruct (rejects env UserSave); simpl;
      [apply findProgress_afterProgress | apply findProgress_afterStats].
  - unfold progressAfter, updateProgress; simpl.
    rewrite Ha, Hm, Hv. reflexivity.
  - intros Hal Hpr. unfold progressAfter, updateProgress; simpl.
    rewrite Ha, Hm. apply newMastery_range; assumption.
Qed.


(** ** Correctness of an answer *)

Lemma isCorrect_iff userAnswer answer :
  isCorrect userAnswer answer = true <-> JS.toUpperCase userAnswer = JS.toUpperCase answer.
Proof. unfold isCorrect. apply String.eqb_eq. Qed.

Example isCorrect_ignores_case : isCorrect "A" "a" = true /\ isCorrect "b" "B" = true.
Proof. split; reflexivity. Qed.

Example isCorrect_keeps_spaces : isCorrect "A" "a " = false /\ isCorrect " a" "a" = false.
Proof. split; reflexivity. Qed.

Lemma upperChar_idempotent c : JS.upperChar (JS.upperChar c) = JS.upperChar c.
Proof.
  destruct c as [[] [] [] [] [] [] [] []]; reflexivity.
Qed.

(** Upper-casing either side first does not change the verdict. *)
Lemma toUpperCase_idempotent s : JS.toUpperCase (JS.toUpperCase s) = JS.toUpperCase s.
Proof.
  induction s as [|c s IH]; simpl; [reflexivity|].
  rewrite upperChar_idempotent, IH. reflexivity.
Qed.

Lemma isCorrect_toUpperCase userAnswer answer :
  isCorrect (JS.toUpperCase userAnswer) answer = isCorrect userAnswer answer /\
  isCorrect userAnswer (JS.toUpperCase answer) = isCorrect userAnswer answer.
Proof. unfold isCorrect. rewrite !toUpperCase_idempotent. split; reflexivity. Qed.

(** Upper-casing tells two characters apart exactly when they are not the
    same letter: checked on the 256 times 256 pairs. *)
Lemma upperChar_sameLetter a b :
  JS.upperChar a = JS.upperChar b <-> sameLetter a b = true.
Proof.
  assert (Hall : forall P : ascii -> bool,
             forallb P (List.map ascii_of_nat (seq 0 256)) = true -> forall c, P c = true).
  { intros P H c. rewrite forallb_forall in H. apply H.
    rewrite <- (ascii_nat_embedding c).
    apply in_map, in_seq. pose proof (nat_ascii_bounded c). lia. }
  assert (H : forall x y,
             Bool.eqb (Ascii.eqb (JS.upperChar x) (JS.upperChar y)) (sameLetter x y) = true).
  { intros x. apply Hall. revert x. apply Hall. vm_compute. reflexivity. }
  specialize (H a b). apply Bool.eqb_prop in H.
  rewrite <- H. symmetry. apply Ascii.eqb_eq.
Qed.

Lemma toUpperCase_sameLetters s t :
  JS.toUpperCase s = JS.toUpperCase t <-> sameLetters s t = true.
Proof.
  revert t. induction s as [|a s IH]; intros [|b t]; cbn [JS.toUpperCase sameLetters];
    try (split; [reflexivity | reflexivity]); try (split; discriminate).
  rewrite andb_true_iff, <- IH, <- upperChar_sameLetter.
  split; [intros [= Hc Hs]; auto | intros [-> ->]; reflexivity].
Qed.

Lemma sameLetters_length s t :
  sameLetters s t = true -> String.length s = String.length t.
Proof.
  revert t. induction s as [|a s IH]; intros [|b t]; cbn [sameLetters String.length];
    try discriminate; [reflexivity|].
  intros H. apply andb_true_iff in H as [_ H]. rewrite (IH _ H). reflexivity.
Qed.

(** C4, as the code has it. The answers are compared as they are, without
    trimming, and up to the case of letters. For a submission answered 200,
    whose answers are ASCII strings, [isCorrect] is true exactly when the
    user's answer and the stored answer have the same length and differ in
    the case of letters only; the answer "A" is correct against a stored
    "a", and incorrect against a stored "a " (a trailing space). *)
Theorem C4_case_insensitive_untrimmed env data userId body st st' d :
  submitRequest env data userId body st = (st', Success d) ->
  exists typed answer,
    body = Some (rawOf typed) /\
    correctAnswer (lookup (Bank.subjects data) (topicId typed) (questionId typed))
    = Some answer /\
    r_correctAnswer d = answer /\
    (isAscii (userAnswer typed) = true -> isAscii answer = true ->
     (r_isCorrect d = true <-> sameLetters (userAnswer typed) answer = true) /\
     (r_isCorrect d = true -> String.length (userAnswer typed) = String.length answer)) /\
    (userAnswer typed = "A"%string -> answer = "a"%string -> r_isCorrect d = true) /\
    (userAnswer typed = "A"%string -> answer = "a "%string -> r_isCorrect d = false).
Proof.
  intros H. apply submitRequest_Success_inv in H as (typed & -> & H).
  rewrite submitAnswerRoute_outcome in H.
  apply outcome_Success_inv in H as (stats0 & Ht & _ & _ & ->).
  apply truthyString_inv in Ht as (answer & Hans & _).
  exists typed, answer. split; [reflexivity|]. split; [exact Hans|].
  unfold successData, verdict, answerOf; cbn [r_correctAnswer r_isCorrect].
  rewrite Hans; cbn [default from_option]. unfold id.
  split; [reflexivity|].
  assert (Hiff : isCorrect (userAnswer typed) answer = true
                 <-> sameLetters (userAnswer typed) answer = true)
    by (rewrite isCorrect_iff; apply toUpperCase_sameLetters).
  split.
  { intros _ _. split; [exact Hiff|].
    intros Hc. apply sameLetters_length, Hiff, Hc. }
  split; intros -> ->; reflexivity.
Qed.

(** ** Counters and invariants *)

Lemma longestStreak_updateStats env right stats :
  User.currentStreak (updateStats env right stats)
  <= User.longestStreak (updateStats env right stats).
Proof. unfold updateStats; simpl. lia. Qed.

(** *** The submission step by step *)

Lemma steps_answered fuel env data userId body r st :
  steps fuel env data userId body (Answered r) st = (st, Answered r).
Proof. induction fuel as [|fuel IH]; [reflexivity | exact IH]. Qed.

Lemma steps_S fuel env data userId body point st :
  steps (S fuel) env data userId body point st
  = let '(st', point') := step env data userId body point st in
    steps fuel env data userId body point' st'.
Proof. reflexivity. Qed.

Lemma saveProgress_alone read new :
  Progress.attempts (saveProgress read new read) = Progress.attempts new /\
  Progress.corrects (saveProgress read new read) = Progress.corrects new /\
  Progress.lastReview (saveProgress read new read) = Progress.lastReview new /\
  (Progress.mastery (saveProgress read new read) == Progress.mastery new)%Q.
Proof.
  unfold saveProgress; cbn.
  repeat split.
  - destruct (Z.eqb_spec (Progress.attempts read) (Progress.attempts new)); congruence.
  - destruct (Z.eqb_spec (Progress.corrects read) (Progress.corrects new)); congruence.
  - case_bool_decide; congruence.
  - destruct (Qeq_bool (Progress.mastery read) (Progress.mastery new)) eqn:E; [|reflexivity].
    apply Qeq_bool_iff, E.
Qed.

Lemma saveStats_alone read new : saveStats read new read = new.
Proof.
  destruct read, new; unfold saveStats; cbn. f_equal.
  - destruct (Z.eqb_spec totalAttempts totalAttempts0); congruence.
  - destruct (Z.eqb_spec totalCorrect totalCorrect0); congruence.
  - destruct (Z.eqb_spec currentStreak currentStreak0); congruence.
  - destruct (Z.eqb_spec longestStreak longestStreak0); congruence.
  - case_bool_decide; congruence.
Qed.

Lemma servedAlone_run env data userId body st :
  let found := lookup (Bank.subjects data) (topicId body) (questionId body) in
  let saved := savedAlone env userId body found st in
  servedAlone env data userId body st =
  if negb (truthyString (correctAnswer found)) then
    (st, Answered (Failure 404 "Question not found"))
  else if rejects env AttemptCreate then (st, rejected)
  else if rejects env ProgressFindOne then (afterAttempt env userId body found st, rejected)
  else if bool_decide (findProgress userId (topicId body) st = None)
          && rejects env ProgressCreate
  then (afterAttempt env userId body found st, rejected)
  else if rejects env ProgressSave then (afterCreate env userId body found st, rejected)
  else if rejects env UserFindById then (saved, rejected)
  else
    match userColl st !! userId with
    | None =>
        (saved, Answered (Failure 500 "Cannot read properties of null (reading 'stats')"))
    | Some stats0 =>
        if rejects env UserSave then (saved, rejected)
        else (putEvent {| ev_user := userId; ev_topicId := topicId body;
                          ev_mastery := Progress.mastery (progressAfter env userId body found st);
                          ev_attempts := Progress.attempts (progressAfter env userId body found st);
                          ev_corrects := Progress.corrects (progressAfter env userId body found st) |}
                (putStats userId (updateStats env (verdict body found) stats0) saved),
              Answered (Success (successData env userId body found st stats0)))
    end.
Proof.
  intros found saved. unfold servedAlone.
  rewrite steps_S. unfold step at 1. fold found.
  destruct (negb (truthyString (correctAnswer found))); [apply steps_answered|].
  destruct (rejects env AttemptCreate); [apply steps_answered|].
  fold (afterAttempt env userId body found st). cbv beta iota zeta.
  rewrite steps_S. unfold step at 1. fold found.
  destruct (rejects env ProgressFindOne); [apply steps_answered|].
  change (findProgress userId (topicId body) (afterAttempt env userId body found st))
    with (findProgress userId (topicId body) st).
  assert (Hlate : forall extra read store,
    findProgress userId (topicId body) store = Some read ->
    userColl store = userColl st ->
    steps (S (S (S extra))) env data userId body (Loaded read) store =
    (if rejects env ProgressSave then (store, rejected)
     else
       let progress := updateProgress env (verdict body found) read in
       let saved := putProgress userId (topicId body) (saveProgress read progress read) store in
       if rejects env UserFindById then (saved, rejected)
       else
         match userColl st !! userId with
         | None =>
             (saved, Answered (Failure 500 "Cannot read properties of null (reading 'stats')"))
         | Some stats0 =>
             if rejects env UserSave then (saved, rejected)
             else (putEvent {| ev_user := userId; ev_topicId := topicId body;
                               ev_mastery := Progress.mastery progress;
                               ev_attempts := Progress.attempts progress;
                               ev_corrects := Progress.corrects progress |}
                     (putStats userId (updateStats env (verdict body found) stats0) saved),
                   Answered (Success
                     {| r_isCorrect := verdict body found;
                        r_correctAnswer := answerOf found;
                        r_mastery := Progress.mastery progress;
                        r_attempts := Progress.attempts progress;
                        r_corrects := Progress.corrects progress;
                        r_userStats := updateStats env (verdict body found) stats0 |}))
         end)).
  { intros extra read store Hread Huser.
    rewrite steps_S. unfold step at 1. fold found.
    destruct (rejects env ProgressSave); [apply steps_answered|].
    rewrite Hread. cbv beta iota zeta.
    rewrite steps_S. unfold step at 1. fold found.
    destruct (rejects env UserFindById); [apply steps_answered|].
    cbn [userColl putProgress]. rewrite Huser.
    destruct (userColl st !! userId) as [stats0|] eqn:Hstats; [|apply steps_answered].
    cbv beta iota zeta.
    rewrite steps_S. unfold step at 1. fold found.
    destruct (rejects env UserSave); [apply steps_answered|].
    cbn [userColl putProgress]. rewrite Huser, Hstats, saveStats_alone.
    cbv beta iota zeta. rewrite steps_answered. reflexivity. }
  unfold saved, savedAlone, afterCreate, progressAfter, progressBefore, successData,
    progressAfter, progressBefore.
  destruct (findProgress userId (topicId body) st) as [p|] eqn:Hfind.
  - rewrite bool_decide_eq_false_2 by discriminate. cbn [andb default from_option].
    cbv beta iota zeta. unfold id.
    rewrite (Hlate 1%nat p (afterAttempt env userId body found st) Hfind eq_refl).
    reflexivity.
  - rewrite bool_decide_eq_true_2 by reflexivity. cbn [andb default from_option].
    cbv beta iota zeta. rewrite steps_S. unfold step at 1. fold found.
    destruct (rejects env ProgressCreate); [apply steps_answered|].
    change (findProgress userId (topicId body) (afterAttempt env userId body found st))
      with (findProgress userId (topicId body) st).
    rewrite Hfind. cbv beta iota zeta.
    rewrite (Hlate 0%nat (freshRecord found)
               (putProgress userId (topicId body) (freshRecord found)
                  (afterAttempt env userId body found st))
               (findProgress_putProgress _ _ _ _) eq_refl).
    reflexivity.
Qed.

(** Served alone, a submission is answered as by the route run in one go. *)
Lemma servedAlone_answer env data userId body st :
  snd (servedAlone env data userId body st)
  = Answered (snd (submitAnswerRoute env data userId body st)).
Proof.
  rewrite submitAnswerRoute_outcome. pose proof (servedAlone_run env data userId body st) as H.
  cbv zeta in H. rewrite H. unfold outcome, rejected.
  destruct (negb (truthyString (correctAnswer _))); [reflexivity|].
  destruct (rejects env AttemptCreate); [reflexivity|].
  destruct (rejects env ProgressFindOne); [reflexivity|].
  destruct (bool_decide (findProgress userId (topicId body) st = None)
            && rejects env ProgressCreate); [reflexivity|].
  destruct (rejects env ProgressSave); [reflexivity|].
  destruct (rejects env UserFindById); [reflexivity|].
  destruct (userColl st !! userId) as [stats0|]; [|reflexivity].
  destruct (rejects env UserSave); reflexivity.
Qed.

(** *** The submission among other requests *)

Section Among.
Context (env : Env) (data : Bank.Data) (userId : UserId) (body : SubmitBody).
Let found := lookup (Bank.subjects data) (topicId body) (questionId body).
Let right := verdict body found.

Lemma stepsAmong_cons other rest point st :
  stepsAmong (other :: rest) env data userId body point st
  = let '(st', point') := step env data userId body point (other st) in
    stepsAmong rest env data userId body point' st'.
Proof. reflexivity. Qed.

Lemma stepsAmong_answered others r st st' point :
  Forall (leaves userId (topicId body)) others ->
  stepsAmong others env data userId body (Answered r) st = (st', point) ->
  point = Answered r /\
  findProgress userId (topicId body) st' = findProgress userId (topicId body) st /\
  userColl st' !! userId = userColl st !! userId.
Proof.
  intros Hq. revert st. induction Hq as [|other rest Hother _ IH]; intros st H.
  - injection H as <- <-. auto.
  - rewrite stepsAmong_cons in H. cbn [step] in H.
    destruct (IH _ H) as (-> & Hp & Hu). destruct (Hother st) as [Hp' Hu'].
    split; [reflexivity|]. split; congruence.
Qed.

Ltac stopped H Hrest :=
  destruct (stepsAmong_answered _ _ _ _ _ Hrest H) as [Hstop _]; discriminate Hstop.

Lemma among_Found others progress stats0 st st' d :
  Forall (leaves userId (topicId body)) others ->
  stepsAmong others env data userId body (Found progress stats0) st
  = (st', Answered (Success d)) ->
  userColl st !! userId = Some stats0 ->
  rejects env UserSave = false /\
  d = {| r_isCorrect := right; r_correctAnswer := answerOf found;
         r_mastery := Progress.mastery progress;
         r_attempts := Progress.attempts progress;
         r_corrects := Progress.corrects progress;
         r_userStats := updateStats env right stats0 |} /\
  findProgress userId (topicId body) st' = findProgress userId (topicId body) st /\
  userColl st' !! userId = Some (updateStats env right stats0).
Proof.
  intros Hq H Hstats. destruct Hq as [|other rest Hother Hrest]; [discriminate H|].
  rewrite stepsAmong_cons in H. unfold step in H. fold found in H. fold right in H.
  destruct (Hother st) as [Hp Hu].
  destruct (rejects env UserSave); [stopped H Hrest|].
  rewrite Hu, Hstats in H.
  destruct (stepsAmong_answered _ _ _ _ _ Hrest H) as (Hd & Hp' & Hu').
  injection Hd as <-. split; [reflexivity|]. split; [reflexivity|].
  split.
  - rewrite Hp'. exact Hp.
  - rewrite Hu'. cbn [userColl putEvent putStats]. rewrite lookup_insert_eq.
    rewrite saveStats_alone. reflexivity.
Qed.

Lemma among_Saved others progress st st' d :
  Forall (leaves userId (topicId body)) others ->
  stepsAmong others env data userId body (Saved progress) st
  = (st', Answered (Success d)) ->
  exists stats0,
    userColl st !! userId = Some stats0 /\
    rejects env UserFindById = false /\
    rejects env UserSave = false /\
    d = {| r_isCorrect := right; r_correctAnswer := answerOf found;
           r_mastery := Progress.mastery progress;
           r_attempts := Progress.attempts progress;
           r_corrects := Progress.corrects progress;
           r_userStats := updateStats env right stats0 |} /\
    findProgress userId (topicId body) st' = findProgress userId (topicId body) st /\
    userColl st' !! userId = Some (updateStats env right stats0).
Proof.
  intros Hq H. destruct Hq as [|other rest Hother Hrest]; [discriminate H|].
  rewrite stepsAmong_cons in H. unfold step in H.
  destruct (Hother st) as [Hp Hu].
  destruct (rejects env UserFindById); [stopped H Hrest|].
  rewrite Hu in H.
  destruct (userColl st !! userId) as [stats0|] eqn:Hstats; [|stopped H Hrest].
  destruct (among_Found rest progress stats0 (other st) st' d Hrest H) as (Hs & Hd & Hp' & Hu');
    [congruence|].
  exists stats0. repeat split; try assumption. congruence.
Qed.

Lemma among_Loaded others read st st' d :
  Forall (leaves userId (topicId body)) others ->
  stepsAmong others env data userId body (Loaded read) st
  = (st', Answered (Success d)) ->
  findProgress userId (topicId body) st = Some read ->
  exists stats0,
    userColl st !! userId = Some stats0 /\
    rejects env ProgressSave = false /\
    rejects env UserFindById = false /\
    rejects env UserSave = false /\
    d = {| r_isCorrect := right; r_correctAnswer := answerOf found;
           r_mastery := Progress.mastery (updateProgress env right read);
           r_attempts := Progress.attempts (updateProgress env right read);
           r_corrects := Progress.corrects (updateProgress env right read);
           r_userStats := updateStats env right stats0 |} /\
    findProgress userId (topicId body) st'
    = Some (saveProgress read (updateProgress env right read) read) /\
    userColl st' !! userId = Some (updateStats env right stats0).
Proof.
  intros Hq H Hread. destruct Hq as [|other rest Hother Hrest]; [discriminate H|].
  rewrite stepsAmong_cons in H. unfold step in H. fold found in H. fold right in H.
  destruct (Hother st) as [Hp Hu].
  destruct (rejects env ProgressSave); [stopped H Hrest|].
  rewrite Hp, Hread in H.
  destruct (among_Saved rest _ _ st' d Hrest H) as (stats0 & Hstats & Hf & Hs & Hd & Hp' & Hu').
  exists stats0. cbn [userColl putProgress] in Hstats.
  split; [congruence|]. repeat split; try assumption.
  rewrite Hp'. apply findProgress_putProgress.
Qed.

Lemma among_Created others st st' d :
  Forall (leaves userId (topicId body)) others ->
  stepsAmong others env data userId body Created st = (st', Answered (Success d)) ->
  exists stats0,
    userColl st !! userId = Some stats0 /\
    rejects env ProgressFindOne = false /\
    (findProgress userId (topicId body) st = None -> rejects env ProgressCreate = false) /\
    rejects env ProgressSave = false /\
    rejects env UserFindById = false /\
    rejects env UserSave = false /\
    d = successData env userId body found st stats0 /\
    findProgress userId (topicId body) st'
    = Some (saveProgress (progressBefore userId body found st)
              (progressAfter env userId body found st)
              (progressBefore userId body found st)) /\
    userColl st' !! userId = Some (updateStats env right stats0).
Proof.
  intros Hq H. destruct Hq as [|other rest Hother Hrest]; [discriminate H|].
  rewrite stepsAmong_cons in H. unfold step in H.
  destruct (Hother st) as [Hp Hu].
  destruct (rejects env ProgressFindOne); [stopped H Hrest|].
  rewrite Hp in H. unfold successData, progressAfter, progressBefore.
  fold found. fold right.
  destruct (findProgress userId (topicId body) st) as [read|] eqn:Hread.
  - destruct (among_Loaded rest read (other st) st' d Hrest H)
      as (stats0 & Hstats & Hsave & Hf & Hs & Hd & Hp' & Hu'); [congruence|].
    exists stats0. cbn [default from_option]. unfold id.
    split; [congruence|]. split; [reflexivity|]. split; [discriminate|].
    repeat split; assumption.
  - destruct Hrest as [|other2 rest Hother2 Hrest]; [discriminate H|].
    rewrite stepsAmong_cons in H. unfold step in H. fold found in H.
    destruct (Hother2 (other st)) as [Hp2 Hu2].
    destruct (rejects env ProgressCreate); [stopped H Hrest|].
    rewrite Hp2, Hp in H.
    destruct (among_Loaded rest (freshRecord found) _ st' d Hrest H)
      as (stats0 & Hstats & Hsave & Hf & Hs & Hd & Hp' & Hu');
      [apply findProgress_putProgress|].
    exists stats0. cbn [default from_option userColl putProgress] in *.
    split; [congruence|]. split; [reflexivity|]. split; [reflexivity|].
    repeat split; assumption.
Qed.

Lemma servedAmong_Success_inv others st st' d :
  Forall (leaves userId (topicId body)) others ->
  servedAmong others env data userId body st = (st', Answered (Success d)) ->
  exists stats0,
    userColl st !! userId = Some stats0 /\
    d = successData env userId body found st stats0 /\
    findProgress userId (topicId body) st'
    = Some (saveProgress (progressBefore userId body found st)
              (progressAfter env userId body found st)
              (progressBefore userId body found st)) /\
    userColl st' !! userId = Some (updateStats env right stats0) /\
    snd (submitAnswerRoute env data userId body st) = Success d.
Proof.
  intros Hq H. unfold servedAmong in H.
  destruct Hq as [|other rest Hother Hrest]; [discriminate H|].
  rewrite stepsAmong_cons in H. unfold step in H. fold found in H.
  destruct (Hother st) as [Hp Hu].
  destruct (negb (truthyString (correctAnswer found))) eqn:Htruthy; [stopped H Hrest|].
  destruct (rejects env AttemptCreate) eqn:Hattempt; [stopped H Hrest|].
  destruct (among_Created rest _ st' d Hrest H)
    as (stats0 & Hstats & Hfind & Hcreate & Hsave & Hf & Hs & Hd & Hp' & Hu').
  cbn [userColl putAttempt] in Hstats. rewrite Hu in Hstats.
  change (findProgress userId (topicId body) (putAttempt (attemptRecord env userId body found)
                                                (other st)))
    with (findProgress userId (topicId body) (other st)) in *.
  assert (Hbefore : progressBefore userId body found
                      (putAttempt (attemptRecord env userId body found) (other st))
                    = progressBefore userId body found st).
  { unfold progressBefore.
    change (findProgress userId (topicId body)
              (putAttempt (attemptRecord env userId body found) (other st)))
      with (findProgress userId (topicId body) (other st)).
    rewrite Hp. reflexivity. }
  assert (Hd' : d = successData env userId body found st stats0).
  { rewrite Hd. unfold successData, progressAfter. rewrite Hbefore. reflexivity. }
  exists stats0. split; [exact Hstats|]. split; [exact Hd'|].
  split; [rewrite Hp'; unfold progressAfter; rewrite Hbefore; reflexivity|].
  split; [exact Hu'|].
  rewrite submitAnswerRoute_outcome. fold found. unfold outcome.
  rewrite Htruthy, Hattempt, Hfind, Hsave, Hf, Hstats, Hs.
  rewrite Hp in Hcreate.
  destruct (findProgress userId (topicId body) st) as [p|] eqn:Hstored.
  - rewrite bool_decide_eq_false_2 by discriminate. cbn [andb snd]. congruence.
  - rewrite (Hcreate eq_refl), andb_false_r. cbn [snd]. congruence.
Qed.
End Among.

Lemma servedAlone_among env data userId body st :
  servedAlone env data userId body st
  = servedAmong [id; id; id; id; id; id] env data userId body st.
Proof. reflexivity. Qed.

Lemma leaves_id userId topicId : leaves userId topicId id.
Proof. intros st. split; reflexivity. Qed.

(** A submission of another user leaves the record and the stats as they
    are. *)
Lemma leaves_other_user env data userId body userId' topic :
  userId' <> userId ->
  leaves userId' topic (fun st => fst (servedAlone env data userId body st)).
Proof.
  intros Hne st. pose proof (servedAlone_run env data userId body st) as H.
  cbv zeta in H. rewrite H. clear H.
  set (found := lookup _ _ _).
  assert (Hattempt : findProgress userId' topic (afterAttempt env userId body found st)
                     = findProgress userId' topic st /\
                     userColl (afterAttempt env userId body found st) !! userId'
                     = userColl st !! userId') by (split; reflexivity).
  assert (Hcreate : findProgress userId' topic (afterCreate env userId body found st)
                    = findProgress userId' topic st /\
                    userColl (afterCreate env userId body found st) !! userId'
                    = userColl st !! userId').
  { unfold afterCreate. destruct (findProgress userId (topicId body) st); [exact Hattempt|].
    split; [|reflexivity]. rewrite findProgress_putProgress_other by congruence. reflexivity. }
  assert (Hsaved : findProgress userId' topic (savedAlone env userId body found st)
                   = findProgress userId' topic st /\
                   userColl (savedAlone env userId body found st) !! userId'
                   = userColl st !! userId').
  { unfold savedAlone. split.
    - rewrite findProgress_putProgress_other by congruence. apply Hcreate.
    - cbn [userColl putProgress]. apply Hcreate. }
  unfold rejected.
  destruct (negb (truthyString (correctAnswer found))); [split; reflexivity|].
  destruct (rejects env AttemptCreate); [split; reflexivity|].
  destruct (rejects env ProgressFindOne); [exact Hattempt|].
  destruct (bool_decide (findProgress userId (topicId body) st = None)
            && rejects env ProgressCreate); [exact Hattempt|].
  destruct (rejects env ProgressSave); [exact Hcreate|].
  destruct (rejects env UserFindById); [exact Hsaved|].
  destruct (userColl st !! userId) as [stats0|]; [|exact Hsaved].
  destruct (rejects env UserSave); [exact Hsaved|].
  cbn [fst]. split.
  - change (findProgress userId' topic (putEvent ?e (putStats ?u ?s ?x)))
      with (findProgress userId' topic x). apply Hsaved.
  - cbn [userColl putEvent putStats]. rewrite lookup_insert_ne by congruence. apply Hsaved.
Qed.

(** C6, as the code has it. A successful submission during which no other
    request writes the Progress record of the user for the topic or the
    stats of the user adds exactly 1 to the attempts of the topic, adds 1 to
    its corrects exactly when the answer is correct (and nothing otherwise),
    and sets [lastReview]; so [0 <= corrects <= attempts] is preserved,
    neither counter decreases, and the stats of the user end with
    [longestStreak >= currentStreak]. The counters before a first attempt
    are those of the materialized record, 0 and 0; the answer is the one of
    the route run in one go, and it reports the stored counters. (A
    submission answered 200 has three strings in its body:
    [submitRequest_Success_inv].) *)
Theorem C6_counters_and_invariants others env data userId body st st' d :
  Forall (leaves userId (topicId body)) others ->
  servedAmong others env data userId body st = (st', Answered (Success d)) ->
  let stored := findProgress userId (topicId body) st in
  let attempts0 := from_option Progress.attempts 0 stored in
  let corrects0 := from_option Progress.corrects 0 stored in
  exists p stats,
    findProgress userId (topicId body) st' = Some p /\
    userColl st' !! userId = Some stats /\
    Progress.attempts p = attempts0 + 1 /\
    Progress.corrects p = corrects0 + (if r_isCorrect d then 1 else 0) /\
    (Progress.corrects p = corrects0 + 1 <-> r_isCorrect d = true) /\
    Progress.lastReview p = Some (nowReview env) /\
    (0 <= corrects0 <= attempts0 ->
     0 <= Progress.corrects p <= Progress.attempts p /\
     attempts0 <= Progress.attempts p /\ corrects0 <= Progress.corrects p) /\
    User.currentStreak stats <= User.longestStreak stats /\
    r_attempts d = Progress.attempts p /\
    r_corrects d = Progress.corrects p /\
    snd (submitAnswerRoute env data userId body st) = Success d.
Proof.
  intros Hleft H stored attempts0 corrects0.
  apply servedAmong_Success_inv in H as (stats0 & _ & -> & Hp & Hs & Hroute);
    [|exact Hleft].
  set (found := lookup _ _ _) in *.
  destruct (progressBefore_stored userId body found st) as (_ & _ & Hatt & Hcor).
  destruct (saveProgress_alone (progressBefore userId body found st)
              (progressAfter env userId body found st)) as (Hsa & Hsc & Hsl & _).
  eexists _, _. split; [exact Hp|]. split; [exact Hs|].
  rewrite Hsa, Hsc, Hsl.
  assert (Ha : Progress.attempts (progressAfter env userId body found st) = attempts0 + 1).
  { unfold progressAfter, updateProgress; simpl. rewrite Hatt. reflexivity. }
  assert (Hc : Progress.corrects (progressAfter env userId body found st)
               = corrects0 + (if verdict body found then 1 else 0)).
  { unfold progressAfter, updateProgress; simpl. rewrite Hcor. reflexivity. }
  split; [exact Ha|]. split; [exact Hc|].
  split; [rewrite Hc; simpl; destruct (verdict body found); split; intros; (lia || congruence)|].
  split; [reflexivity|].
  split; [intros Hinv; rewrite Ha, Hc; destruct (verdict body found); lia|].
  split; [apply longestStreak_updateStats|].
  split; [reflexivity|]. split; [reflexivity|]. exact Hroute.
Qed.

(** ** Failing submissions *)

(** A failing submission of three strings, by the step that fails. *)
Lemma outcome_failure env userId body found st st' code message :
  outcome env userId body found st = (st', Failure code message) ->
  userColl st' = userColl st /\
  socketLog st' = socketLog st /\
  (code = 404 -> st' = st) /\
  (code <> 404 ->
   (rejects env AttemptCreate = true -> st' = st) /\
   (rejects env AttemptCreate = false ->
    attemptColl st' = attemptColl st ++ [attemptRecord env userId body found] /\
    (rejects env ProgressFindOne = true -> st' = afterAttempt env userId body found st) /\
    (rejects env ProgressFindOne = false ->
     (findProgress userId (topicId body) st = None ->
      rejects env ProgressCreate = true ->
      st' = afterAttempt env userId body found st) /\
     (findProgress userId (topicId body) st <> None \/ rejects env ProgressCreate = false ->
      (rejects env ProgressSave = true -> st' = afterCreate env userId body found st) /\
      (rejects env ProgressSave = false ->
       st' = afterProgress env userId body found st))))).
Proof.
  intros H. unfold outcome in H.
  pose proof (userColl_afterCreate env userId body found st) as Hu.
  pose proof (socketLog_afterCreate env userId body found st) as Hs.
  pose proof (attemptColl_afterCreate env userId body found st) as Hl.
  destruct (negb (truthyString (correctAnswer found))).
  { injection H as <- <- <-. repeat split; congruence. }
  destruct (rejects env AttemptCreate) eqn:Hattempt.
  { injection H as <- <- <-. repeat split; congruence. }
  destruct (rejects env ProgressFindOne) eqn:Hfind.
  { injection H as <- <- <-.
    split; [reflexivity|]. split; [reflexivity|]. split; [discriminate|].
    intros _. split; [discriminate|]. intros _.
    split; [reflexivity|]. split; [reflexivity|]. discriminate. }
  destruct (bool_decide (findProgress userId (topicId body) st = None)
            && rejects env ProgressCreate) eqn:Hcreate.
  { injection H as <- <- <-.
    apply andb_true_iff in Hcreate as [Hnone%bool_decide_eq_true Hrej].
    split; [reflexivity|]. split; [reflexivity|]. split; [discriminate|].
    intros _. split; [discriminate|]. intros _.
    split; [reflexivity|]. split; [discriminate|]. intros _.
    split; [reflexivity|]. intros [Hsome | Hok]; congruence. }
  assert (Hcreated : findProgress userId (topicId body) st = None ->
                     rejects env ProgressCreate = true -> False).
  { intros Hnone Hrej. rewrite Hrej, andb_true_r in Hcreate.
    apply bool_decide_eq_false in Hcreate. contradiction. }
  destruct (rejects env ProgressSave) eqn:Hsave.
  { injection H as <- <- <-.
    split; [exact Hu|]. split; [exact Hs|]. split; [discriminate|].
    intros _. split; [discriminate|]. intros _.
    split; [exact Hl|]. split; [discriminate|]. intros _.
    split; [intros Hnone Hrej; destruct (Hcreated Hnone Hrej)|].
    intros _. split; [reflexivity | discriminate]. }
  assert (Hend : code = 500 /\ st' = afterProgress env userId body found st).
  { destruct (rejects env UserFindById); [injection H as <- <- <-; auto|].
    destruct (userColl st !! userId) as [stats0|]; [|injection H as <- <- <-; auto].
    destruct (rejects env UserSave); [injection H as <- <- <-; auto | discriminate H]. }
  destruct Hend as [-> ->].
  split; [exact Hu|]. split; [exact Hs|]. split; [discriminate|].
  intros _. split; [discriminate|]. intros _.
  split; [exact Hl|]. split; [discriminate|]. intros _.
  split; [intros Hnone Hrej; destruct (Hcreated Hnone Hrej)|].
  intros _. split; [discriminate | reflexivity].
Qed.

(** C5, as the code has it. The writes of a submission are not undone when
    a later step fails. A failing submission (served on its own) never
    applies the stats update and emits no event. Answering 404, or stopped
    by a missing body or by a field that is no string (the [TypeError] of
    [userAnswer.toUpperCase()] at line 59 among them, answered 500), or
    failing on the creation of the attempt, it leaves the store as it was.
    Failing later, it leaves the Attempt persisted, and the store is the one
    reached before the call that failed: the store after the attempt when
    [Progress.findOne] or [Progress.create] rejects, the store after the
    creation of the record when [progress.save()] rejects, and the store
    after the Progress update when the failure comes from the user's
    document. *)
Theorem C5_failure_keeps_earlier_writes env data userId body st st' code message :
  submitRequest env data userId body st = (st', Failure code message) ->
  userColl st' = userColl st /\
  socketLog st' = socketLog st /\
  (code = 404 -> st' = st) /\
  (body = None -> st' = st /\ code = 500) /\
  (forall fields, body = Some fields -> asStrings fields = None ->
     st' = st /\ (code = 404 \/ code = 500)) /\
  (forall fields tid subject topic qid,
     body = Some fields ->
     raw_topicId fields = JsString tid ->
     matchedTopic (Bank.subjects data) tid = Some (subject, topic) ->
     raw_questionId fields = JsString qid ->
     truthyString (answerAt topic qid) = true ->
     (forall answer, raw_userAnswer fields <> JsString answer) ->
     st' = st /\ code = 500 /\
     message = notAString "userAnswer" "toUpperCase" (raw_userAnswer fields)) /\
  (forall typed, body = Some (rawOf typed) -> code <> 404 ->
   let found := lookup (Bank.subjects data) (topicId typed) (questionId typed) in
   (rejects env AttemptCreate = true -> st' = st) /\
   (rejects env AttemptCreate = false ->
    attemptColl st' = attemptColl st ++ [attemptRecord env userId typed found] /\
    (rejects env ProgressFindOne = true -> st' = afterAttempt env userId typed found st) /\
    (rejects env ProgressFindOne = false ->
     (findProgress userId (topicId typed) st = None ->
      rejects env ProgressCreate = true ->
      st' = afterAttempt env userId typed found st) /\
     (findProgress userId (topicId typed) st <> None \/ rejects env ProgressCreate = false ->
      (rejects env ProgressSave = true -> st' = afterCreate env userId typed found st) /\
      (rejects env ProgressSave = false ->
       st' = afterProgress env userId typed found st))))).
Proof.
  intros H.
  assert (Hline59 : forall fields tid subject topic qid,
     body = Some fields ->
     raw_topicId fields = JsString tid ->
     matchedTopic (Bank.subjects data) tid = Some (subject, topic) ->
     raw_questionId fields = JsString qid ->
     truthyString (answerAt topic qid) = true ->
     (forall answer, raw_userAnswer fields <> JsString answer) ->
     st' = st /\ code = 500 /\
     message = notAString "userAnswer" "toUpperCase" (raw_userAnswer fields)).
  { intros fields tid subject topic qid -> Ht Hm Hq Htruthy Ha.
    rewrite (submitRequest_answer_not_string env data userId fields tid subject topic qid st
               Ht Hm Hq Htruthy Ha) in H.
    injection H as <- <- <-. auto. }
  destruct body as [fields|].
  2:{ rewrite submitRequest_no_body in H. injection H as <- <- <-.
      split; [reflexivity|]. split; [reflexivity|]. split; [discriminate|].
      split; [auto|]. split; [discriminate|]. split; [exact Hline59 | discriminate]. }
  destruct (asStrings fields) as [typed|] eqn:Htyped.
  - apply asStrings_Some in Htyped as ->.
    rewrite submitRequest_typed, submitAnswerRoute_outcome in H.
    apply outcome_failure in H as (Hu & Hs & H404 & Hlater).
    split; [exact Hu|]. split; [exact Hs|]. split; [exact H404|].
    split; [discriminate|].
    split; [intros fields Heq Hnone; injection Heq as <-;
            rewrite asStrings_rawOf in Hnone; discriminate|].
    split; [exact Hline59|].
    intros typed' Heq Hcode.
    assert (typed' = typed) as -> by (apply rawOf_inj; congruence).
    exact (Hlater Hcode).
  - destruct (submitRequest_untyped env data userId fields st Htyped)
      as (code' & message' & Hrun & Hcode).
    rewrite Hrun in H. injection H as <- <- <-.
    split; [reflexivity|]. split; [reflexivity|]. split; [reflexivity|].
    split; [discriminate|]. split; [auto|]. split; [exact Hline59|].
    intros typed Heq. injection Heq as ->.
    rewrite asStrings_rawOf in Htyped. discriminate.
Qed.

(** ** Unresolved questions *)

(** C10, as the code has it. A submission whose topicId is no string or
    matches no topic, or whose questionId is a string that gives, through the
    part after ['_Q'], no index of a question of the matched topic (the parsed
    index is NaN, negative or past the end), or whose question has the empty
    string as stored answer, is answered with 404 "Question not found" by the
    handler itself (nothing is thrown), and the store is left as it was. When
    the topic matches and questionId is missing or is no string,
    [questionId.split] throws instead: the route answers 500 from its
    [catch], with the store as it was; so does the destructuring of a
    request without a parsed body. *)
Theorem C10_question_not_found env data userId body st :
  ((forall tid, raw_topicId body = JsString tid ->
      forall subject topic,
        In subject (Bank.subjects data) -> In topic (Bank.topics subject) ->
        Bank.topic_id topic <> tid)
   \/ (exists tid subject topic qid,
         raw_topicId body = JsString tid /\
         matchedTopic (Bank.subjects data) tid = Some (subject, topic) /\
         raw_questionId body = JsString qid /\
         match qIndex qid with
         | None => True
         | Some k =>
             k < 0 \/ Z.of_nat (length (Bank.questions topic)) <= k \/
             exists question,
               Bank.questions topic !! Z.to_nat k = Some question /\
               Bank.answer question = EmptyString
         end) ->
   submitRaw env data userId body st = (st, inr (Failure 404 "Question not found")) /\
   submitRequest env data userId (Some body) st = (st, Failure 404 "Question not found")) /\
  (forall tid subject topic,
     raw_topicId body = JsString tid ->
     matchedTopic (Bank.subjects data) tid = Some (subject, topic) ->
     (forall qid, raw_questionId body <> JsString qid) ->
     submitRaw env data userId body st
     = (st, inl (notAString "questionId" "split" (raw_questionId body))) /\
     submitRequest env data userId (Some body) st
     = (st, Failure 500 (notAString "questionId" "split" (raw_questionId body)))) /\
  (exists message, submitRequest env data userId None st = (st, Failure 500 message)).
Proof.
  split; [|split; [|eexists; apply submitRequest_no_body]].
  - intros H.
    assert (Hraw : submitRaw env data userId body st
                   = (st, inr (Failure 404 "Question not found"))).
    { unfold submitRaw. destruct H as [Hno | (tid & subject & topic & qid & Ht & Hm & Hq & Hk)].
      - destruct (raw_topicId body) as [| |tid|]; try reflexivity.
        rewrite (matchedTopic_no_match _ _ (Hno tid eq_refl)). reflexivity.
      - rewrite Ht, Hm, Hq.
        assert (Hfalsy : truthyString (answerAt topic qid) = false).
        { unfold answerAt. destruct (qIndex qid) as [k|]; [|reflexivity].
          destruct Hk as [Hk | [Hk | (question & Hat & Hempty)]].
          + rewrite index_out_of_range by auto. reflexivity.
          + rewrite index_out_of_range by auto. reflexivity.
          + unfold JS.index. destruct (k <? 0); [reflexivity|].
            rewrite Hat; simpl. rewrite Hempty. reflexivity. }
        rewrite Hfalsy. reflexivity. }
    split; [exact Hraw|]. unfold submitRequest, route. rewrite Hraw. reflexivity.
  - intros tid subject topic Ht Hm Hq.
    assert (Hraw : submitRaw env data userId body st
                   = (st, inl (notAString "questionId" "split" (raw_questionId body)))).
    { unfold submitRaw. rewrite Ht, Hm.
      destruct (raw_questionId body) as [| |qid|]; try reflexivity.
      destruct (Hq qid eq_refl). }
    split; [exact Hraw|]. unfold submitRequest, route. rewrite Hraw. reflexivity.
Qed.

Example qIndex_plain : qIndex "ALG_Q2" = Some 1. Proof. reflexivity. Qed.
Example qIndex_no_suffix : qIndex "ALG" = None. Proof. reflexivity. Qed.
Example qIndex_not_a_number : qIndex "ALG_Qx" = None. Proof. reflexivity. Qed.
Example qIndex_empty_suffix : qIndex "ALG_Q" = None. Proof. reflexivity. Qed.
Example qIndex_zero : qIndex "ALG_Q0" = Some (-1). Proof. reflexivity. Qed.
Example qIndex_trailing : qIndex "ALG_Q2nd" = Some 1. Proof. reflexivity. Qed.
Example qIndex_spaced : qIndex "ALG_Q 2" = Some 1. Proof. reflexivity. Qed.

(** A [userAnswer] that is no string passes the 404 test and stops the
    handler at [userAnswer.toUpperCase()], before any write. *)
Example submit_numeric_answer :
  submitRequest Sample.env Sample.bank Sample.alice (Some Sample.numericAnswer) Sample.store0
  = (Sample.store0, Failure 500 "userAnswer.toUpperCase is not a function").
Proof. reflexivity. Qed.

(** ** The streak *)

Lemma Qltb_lt x y : JS.Qltb x y = true <-> (x < y)%Q.
Proof.
  unfold JS.Qltb. rewrite negb_true_iff. split.
  - intros H. apply Qnot_le_lt. intros Hle. apply Qle_bool_iff in Hle. congruence.
  - intros H. destruct (Qle_bool y x) eqn:E; [|reflexivity].
    apply Qle_bool_iff in E. exfalso. exact (Qlt_not_le _ _ H E).
Qed.

Lemma Qltb_ge x y : JS.Qltb x y = false <-> (y <= x)%Q.
Proof.
  unfold JS.Qltb. rewrite negb_false_iff. apply Qle_bool_iff.
Qed.

Lemma daysDiff_whole today lastStudy k :
  today - lastStudy = k * msPerDay -> (daysDiff today lastStudy == inject_Z k)%Q.
Proof.
  intros H. unfold daysDiff. rewrite H, inject_Z_mult.
  field. intros Hz. vm_compute in Hz. discriminate.
Qed.

Lemma nextStreak_first env stats :
  User.lastStudyDate stats = None -> nextStreak env stats = 1.
Proof. intros H. unfold nextStreak, lastStudyOf. rewrite H. reflexivity. Qed.

(** The policy, for a last study date whose local midnight is not the
    timestamp 0: unchanged below one day, incremented at exactly one day,
    reset to 1 above. *)
Lemma nextStreak_cases env stats last :
  User.lastStudyDate stats = Some last ->
  localMidnight env last <> 0 ->
  let d := daysDiff (localMidnight env (nowToday env)) (localMidnight env last) in
  ((d == 1)%Q -> nextStreak env stats = User.currentStreak stats + 1) /\
  ((1 < d)%Q -> nextStreak env stats = 1) /\
  ((d < 1)%Q -> nextStreak env stats = User.currentStreak stats).
Proof.
  intros Hlast Hnz d. unfold nextStreak, lastStudyOf. rewrite Hlast. simpl.
  destruct (Z.eqb_spec (localMidnight env last) 0) as [?|_]; [contradiction|]. simpl.
  fold d. repeat split; intros Hd.
  - apply Qeq_bool_iff in Hd. rewrite Hd. reflexivity.
  - destruct (Qeq_bool d 1) eqn:E.
    + apply Qeq_bool_iff in E. rewrite E in Hd. exfalso. exact (Qlt_irrefl _ Hd).
    + apply Qltb_lt in Hd. rewrite Hd. reflexivity.
  - destruct (Qeq_bool d 1) eqn:E.
    + apply Qeq_bool_iff in E. rewrite E in Hd. exfalso. exact (Qlt_irrefl _ Hd).
    + assert (Hge : JS.Qltb 1 d = false) by (apply Qltb_ge, Qlt_le_weak, Hd).
      rewrite Hge. reflexivity.
Qed.

(** The same in whole days between the two midnights. *)
Lemma nextStreak_whole_days env stats last k :
  User.lastStudyDate stats = Some last ->
  localMidnight env last <> 0 ->
  localMidnight env (nowToday env) - localMidnight env last = k * msPerDay ->
  nextStreak env stats =
    if k =? 1 then User.currentStreak stats + 1
    else if 1 <? k then 1 else User.currentStreak stats.
Proof.
  intros Hlast Hnz Hk.
  destruct (nextStreak_cases env stats last Hlast Hnz) as (Heq & Hgt & Hlt).
  pose proof (daysDiff_whole _ _ _ Hk) as Hd.
  destruct (Z.eqb_spec k 1) as [->|Hne].
  - apply Heq. rewrite Hd. reflexivity.
  - destruct (Z.ltb_spec 1 k) as [Hk1|Hk1].
    + apply Hgt. rewrite Hd. change 1%Q with (inject_Z 1). rewrite <- Zlt_Qlt. exact Hk1.
    + apply Hlt. rewrite Hd. change 1%Q with (inject_Z 1). rewrite <- Zlt_Qlt. lia.
Qed.

(** Submissions on the days D, D, D+1 and D+3 by a user who never studied,
    the midnights of D and D+1 not being the timestamp 0: the streak goes
    1, 1, 2, 1 and the longest streak ends at 2. *)
Lemma streak_example e1 e2 e3 e4 r1 r2 r3 r4 D :
  D <> 0 -> D + msPerDay <> 0 ->
  localMidnight e2 (nowStudy e1) = D -> localMidnight e2 (nowToday e2) = D ->
  localMidnight e3 (nowStudy e2) = D -> localMidnight e3 (nowToday e3) = D + msPerDay ->
  localMidnight e4 (nowStudy e3) = D + msPerDay ->
  localMidnight e4 (nowToday e4) = D + 3 * msPerDay ->
  let s1 := updateStats e1 r1 User.newStats in
  let s2 := updateStats e2 r2 s1 in
  let s3 := updateStats e3 r3 s2 in
  let s4 := updateStats e4 r4 s3 in
  map User.currentStreak [s1; s2; s3; s4] = [1; 1; 2; 1] /\
  map User.longestStreak [s1; s2; s3; s4] = [1; 1; 2; 2].
Proof.
  intros HD HD1 H2s H2t H3s H3t H4s H4t s1 s2 s3 s4.
  assert (S1 : nextStreak e1 User.newStats = 1) by (apply nextStreak_first; reflexivity).
  assert (S2 : nextStreak e2 s1 = User.currentStreak s1).
  { rewrite (nextStreak_whole_days e2 s1 (nowStudy e1) 0); [reflexivity..| |];
      rewrite ?H2s, ?H2t; [exact HD | lia]. }
  assert (S3 : nextStreak e3 s2 = User.currentStreak s2 + 1).
  { rewrite (nextStreak_whole_days e3 s2 (nowStudy e2) 1); [reflexivity..| |];
      rewrite ?H3s, ?H3t; [exact HD | lia]. }
  assert (S4 : nextStreak e4 s3 = 1).
  { rewrite (nextStreak_whole_days e4 s3 (nowStudy e3) 2); [reflexivity..| |];
      rewrite ?H4s, ?H4t; [exact HD1 | lia]. }
  assert (Hc : forall e r s, User.currentStreak (updateStats e r s) = nextStreak e s)
    by reflexivity.
  assert (Hl : forall e r s, User.longestStreak (updateStats e r s)
                             = Z.max (User.longestStreak s) (nextStreak e s))
    by reflexivity.
  assert (C1 : User.currentStreak s1 = 1) by exact S1.
  assert (C2 : User.currentStreak s2 = 1) by (unfold s2; rewrite Hc, S2; exact C1).
  assert (C3 : User.currentStreak s3 = 2) by (unfold s3; rewrite Hc, S3, C2; reflexivity).
  assert (C4 : User.currentStreak s4 = 1) by exact S4.
  assert (L1 : User.longestStreak s1 = 1) by (unfold s1; rewrite Hl, S1; reflexivity).
  assert (L2 : User.longestStreak s2 = 1) by (unfold s2; rewrite Hl, S2, C1, L1; reflexivity).
  assert (L3 : User.longestStreak s3 = 2) by (unfold s3; rewrite Hl, S3, C2, L2; reflexivity).
  assert (L4 : User.longestStreak s4 = 2) by (unfold s4; rewrite Hl, S4, L3; reflexivity).
  cbn [map List.map fmap list_fmap]. rewrite C1, C2, C3, C4, L1, L2, L3, L4. split; reflexivity.
Qed.

(** ** Sorting *)

Section SortFacts.
Context {A : Type} (after : A -> A -> bool).

Lemma insert_Permutation x l : JS.insert after x l ≡ₚ x :: l.
Proof.
  induction l as [|y l IH]; simpl; [reflexivity|].
  destruct (after x y); [|reflexivity].
  rewrite IH. apply Permutation_swap.
Qed.

Lemma sortBy_Permutation l : JS.sortBy after l ≡ₚ l.
Proof.
  induction l as [|x l IH]; simpl; [reflexivity|].
  rewrite insert_Permutation, IH. reflexivity.
Qed.

Lemma length_sortBy l : length (JS.sortBy after l) = length l.
Proof. apply Permutation_length, sortBy_Permutation. Qed.

(** Stability: an element moves only past elements it has to come after,
    so the elements selected by a test [keep] keep their order when no
    selected element has to come after another selected one. *)
Lemma filter_insert (keep : A -> bool) x l :
  (forall y, keep x = true -> keep y = true -> after x y = false) ->
  List.filter keep (JS.insert after x l) = List.filter keep (x :: l).
Proof.
  intros Hkeep. induction l as [|y l IH]; [reflexivity|].
  cbn [JS.insert]. destruct (after x y) eqn:Hxy; [|reflexivity].
  cbn [List.filter] in *. rewrite IH.
  destruct (keep x) eqn:Hx; [|reflexivity].
  destruct (keep y) eqn:Hy; [|reflexivity].
  rewrite (Hkeep y eq_refl Hy) in Hxy. discriminate.
Qed.

Lemma filter_sortBy (keep : A -> bool) l :
  (forall x y, keep x = true -> keep y = true -> after x y = false) ->
  List.filter keep (JS.sortBy after l) = List.filter keep l.
Proof.
  intros Hkeep. induction l as [|x l IH]; [reflexivity|].
  cbn [JS.sortBy foldr]. fold (JS.sortBy after l).
  rewrite filter_insert by (intros y; apply Hkeep).
  cbn [List.filter]. rewrite IH. reflexivity.
Qed.

(** Order: with [after] the strict part of a total preorder [le]
    ([after x y] exactly when [le x y] fails), the result is sorted. *)
Context (le : A -> A -> Prop).
Hypothesis le_trans : forall x y z, le x y -> le y z -> le x z.
Hypothesis after_false : forall x y, after x y = false -> le x y.
Hypothesis after_true : forall x y, after x y = true -> le y x.

Lemma insert_sorted x l :
  StronglySorted le l -> StronglySorted le (JS.insert after x l).
Proof.
  induction 1 as [|y l Hs IH Hall]; simpl.
  - constructor; [constructor | constructor].
  - destruct (after x y) eqn:Hxy.
    + constructor; [exact IH|].
      rewrite insert_Permutation. constructor; [apply after_true, Hxy | exact Hall].
    + constructor; [constructor; assumption|].
      constructor; [apply after_false, Hxy|].
      eapply Forall_impl; [exact Hall|].
      intros z Hz. simpl in Hz. eapply le_trans; [apply after_false, Hxy | exact Hz].
Qed.

Lemma sortBy_sorted l : StronglySorted le (JS.sortBy after l).
Proof.
  induction l as [|x l IH]; simpl; [constructor | apply insert_sorted, IH].
Qed.
End SortFacts.

Lemma StronglySorted_lookup {A} (R : A -> A -> Prop) (l : list A) :
  StronglySorted R l ->
  forall (i j : nat) a b, (i < j)%nat -> l !! i = Some a -> l !! j = Some b -> R a b.
Proof.
  induction 1 as [|x l Hs IH Hall]; intros i j a b Hij Hi Hj.
  - rewrite lookup_nil in Hi. discriminate.
  - destruct j as [|j]; [lia|]. destruct i as [|i]; simpl in *.
    + injection Hi as <-. rewrite Forall_lookup in Hall. eapply Hall; eassumption.
    + eapply (IH i j); [lia | eassumption..].
Qed.

Lemma filter_take_prefix {A} (keep : A -> bool) (k : nat) (l : list A) :
  List.filter keep (take k l) `prefix_of` List.filter keep l.
Proof.
  revert k. induction l as [|x l IH]; intros [|k]; simpl;
    try apply prefix_nil.
  destruct (keep x); [apply prefix_cons|]; apply IH.
Qed.

Lemma sort_byScoreDesc_sorted scores :
  StronglySorted outranks (JS.sort byScoreDesc scores).
Proof.
  apply sortBy_sorted; unfold outranks, byScoreDesc.
  - intros x y z Hxy Hyz. eapply Qle_trans; eassumption.
  - intros x y H. apply Qltb_ge in H. lra.
  - intros x y H. apply Qltb_lt in H. lra.
Qed.

Lemma sort_byScoreDesc_stable s scores :
  List.filter (fun e => Qeq_bool (Score.score e) s) (JS.sort byScoreDesc scores)
  = List.filter (fun e => Qeq_bool (Score.score e) s) scores.
Proof.
  apply filter_sortBy. intros x y Hx Hy.
  apply Qeq_bool_iff in Hx, Hy. apply Qltb_ge. unfold byScoreDesc. lra.
Qed.

(** ** The recommendation route *)

(** The route, case by case: it never writes. *)
Lemma recommendationsRoute_run env now data userId n st :
  recommendationsRoute env now data userId n st =
  if rejects env ProgressFind then (st, Failure 500 "storage error")
  else if rejects env AttemptFind then (st, Failure 500 "storage error")
  else
    match parsedN n with
    | inr end_ => (st, Success (JS.slice0 (rankingOf now data userId st) end_))
    | inl message => (st, Failure 500 message)
    end.
Proof.
  unfold recommendationsRoute, route, getRecommendations, bind,
    Progress_find, Attempt_findRecent, storage, rankingOf.
  destruct (rejects env ProgressFind); [reflexivity|].
  destruct (rejects env AttemptFind); [reflexivity|].
  destruct (parsedN n); reflexivity.
Qed.

Lemma recommendationsRoute_succeeds env now data userId n end_ st :
  rejects env ProgressFind = false ->
  rejects env AttemptFind = false ->
  parsedN n = inr end_ ->
  recommendationsRoute env now data userId n st =
  (st, Success (JS.slice0 (rankingOf now data userId st) end_)).
Proof.
  intros H1 H2 Hn. rewrite recommendationsRoute_run, H1, H2, Hn. reflexivity.
Qed.

Lemma recommendationsRoute_Success_inv env now data userId n st st' recs :
  recommendationsRoute env now data userId n st = (st', Success recs) ->
  st' = st /\
  exists end_, parsedN n = inr end_ /\
               recs = JS.slice0 (rankingOf now data userId st) end_.
Proof.
  rewrite recommendationsRoute_run.
  destruct (rejects env ProgressFind); [discriminate|].
  destruct (rejects env AttemptFind); [discriminate|].
  destruct (parsedN n) as [message|end_]; [discriminate|].
  intros [= <- <-]. split; [reflexivity|]. exists end_. split; reflexivity.
Qed.

Lemma length_allScores now allTopics progressMap recentAttempts :
  length (allScores now allTopics progressMap recentAttempts) = length allTopics.
Proof. apply length_map. Qed.

Lemma length_rankingOf now data userId st :
  length (rankingOf now data userId st) = length (getAllTopicIds data).
Proof.
  unfold rankingOf, ranking, JS.sort. rewrite length_sortBy. apply length_allScores.
Qed.

Lemma slice0_take {A} (arr : list A) end_ :
  exists k : nat, JS.slice0 arr end_ = take k arr.
Proof.
  destruct end_ as [e|]; simpl; [eexists; reflexivity|].
  exists 0%nat. reflexivity.
Qed.

Lemma slice0_count {A} (arr : list A) k :
  0 <= k -> JS.slice0 arr (Some k) = take (Z.to_nat k) arr.
Proof.
  intros Hk. unfold JS.slice0.
  destruct (Z.ltb_spec k 0) as [?|_]; [lia|].
  destruct (Z.min_spec k (Z.of_nat (length arr))) as [[_ ->] | [Hle ->]]; [reflexivity|].
  rewrite Nat2Z.id, !take_ge by lia. reflexivity.
Qed.

Lemma slice0_from_end {A} (arr : list A) k :
  k < 0 -> JS.slice0 arr (Some k) = take (Z.to_nat (Z.of_nat (length arr) + k)) arr.
Proof.
  intros Hk. unfold JS.slice0.
  destruct (Z.ltb_spec k 0) as [_|?]; [|lia].
  destruct (Z.max_spec (Z.of_nat (length arr) + k) 0) as [[Hlt ->] | [Hle ->]].
  - replace (Z.to_nat (Z.of_nat (length arr) + k)) with 0%nat by lia. reflexivity.
  - reflexivity.
Qed.

Lemma length_slice0 {A} (arr : list A) k :
  0 <= k -> Z.of_nat (length (JS.slice0 arr (Some k))) = Z.min k (Z.of_nat (length arr)).
Proof.
  intros Hk. rewrite slice0_count by exact Hk. rewrite length_take. lia.
Qed.

(** C9, as the code has it. A request answered 200 leaves the store as it
    was, and its parameter [n] had a string for [parseInt]. When [n] is
    absent, or parses to a non-negative integer k (3 when absent), the list
    returned is the first k entries of the ranking and has exactly
    min(k, number of known topics) entries. When [n] parses to a negative k,
    [slice(0, k)] drops the last |k| entries of the ranking instead, and
    when [n] does not parse the list is empty. For every [n], the list is in
    non-increasing order of score, holds score entries of the known topics
    only, and among the topics of equal score it holds the first ones of the
    enumeration, in the order of the enumeration. *)
Theorem C9_top_n_sorted_stable env now data userId n st st' recs :
  recommendationsRoute env now data userId n st = (st', Success recs) ->
  let allTopics := getAllTopicIds data in
  let scores := allScores now allTopics (default ∅ (progressColl st !! userId))
                  (recentOf userId (attemptColl st)) in
  let total := Z.of_nat (length allTopics) in
  st' = st /\
  (exists end_, parsedN n = inr end_) /\
  (forall k, parsedN n = inr (Some k) -> 0 <= k ->
     recs = take (Z.to_nat k) (rankingOf now data userId st) /\
     Z.of_nat (length recs) = Z.min k total) /\
  (n = QAbsent -> Z.of_nat (length recs) = Z.min 3 total) /\
  (forall k, parsedN n = inr (Some k) -> k < 0 ->
     recs = take (Z.to_nat (total + k)) (rankingOf now data userId st) /\
     Z.of_nat (length recs) = Z.max (total + k) 0) /\
  (parsedN n = inr None -> recs = []) /\
  (forall (i j : nat) a b, (i < j)%nat -> recs !! i = Some a -> recs !! j = Some b ->
     (Score.score b <= Score.score a)%Q) /\
  (forall e, In e recs -> In e scores) /\
  (forall s, List.filter (fun e => Qeq_bool (Score.score e) s) recs
             `prefix_of` List.filter (fun e => Qeq_bool (Score.score e) s) scores).
Proof.
  intros H allTopics scores total.
  apply recommendationsRoute_Success_inv in H as (-> & end_ & Hn & ->).
  pose proof (length_rankingOf now data userId st) as Hlen. fold allTopics in Hlen.
  assert (Hpos : forall k, parsedN n = inr (Some k) -> 0 <= k ->
     JS.slice0 (rankingOf now data userId st) end_
     = take (Z.to_nat k) (rankingOf now data userId st) /\
     Z.of_nat (length (JS.slice0 (rankingOf now data userId st) end_)) = Z.min k total).
  { intros k Hk Hk0. rewrite Hn in Hk. injection Hk as ->.
    split; [apply slice0_count, Hk0|].
    rewrite length_slice0 by exact Hk0. unfold total. rewrite Hlen. reflexivity. }
  split; [reflexivity|].
  split; [exists end_; exact Hn|].
  split; [exact Hpos|].
  split; [intros ->; apply (Hpos 3); [reflexivity | lia]|].
  split.
  { intros k Hk Hk0. rewrite Hn in Hk. injection Hk as ->.
    rewrite slice0_from_end by exact Hk0. rewrite Hlen. fold total.
    split; [reflexivity|]. rewrite length_take, Hlen. fold total. lia. }
  split; [intros Hnone; rewrite Hn in Hnone; injection Hnone as ->; reflexivity|].
  clear Hpos.
  unfold rankingOf, ranking. fold allTopics. fold scores.
  destruct (slice0_take (JS.sort byScoreDesc scores) end_) as [k ->].
  split; [|split].
  - intros i j a b Hij Hi Hj.
    apply lookup_take_Some in Hi as [Hi _]. apply lookup_take_Some in Hj as [Hj _].
    exact (StronglySorted_lookup outranks _ (sort_byScoreDesc_sorted scores)
             i j a b Hij Hi Hj).
  - intros e He. apply list_elem_of_In in He. apply list_elem_of_In.
    apply (subseteq_take k) in He.
    unfold JS.sort in He. rewrite sortBy_Permutation in He. exact He.
  - intros s. rewrite <- (sort_byScoreDesc_stable s scores).
    apply filter_take_prefix.
Qed.

(** A repeated [n] arrives as an array: [parseInt] reads the string the
    array converts to, "2,5" for [n=2&n=5]; a value that converts to no
    string is answered 500. *)
Example recommendations_repeated_n :
  parsedN (QStructured (Some "2,5"%string)) = inr (Some 2) /\
  recommendationsRoute Sample.env Sample.noon Sample.bank Sample.alice
    (QStructured None) Sample.store1
  = (Sample.store1, Failure 500 "Cannot convert object to primitive value").
Proof. split; reflexivity. Qed.

(** ** Scores *)

Lemma recentTotal_take l : recentTotal l = Z.of_nat (length (take 5 l)).
Proof. unfold recentTotal. rewrite length_take. lia. Qed.

Lemma length_filter_map {A} (f : A -> bool) (l : list A) :
  length (List.filter f l) = length (List.filter (fun b : bool => b) (map f l)).
Proof.
  induction l as [|x l IH]; [reflexivity|].
  cbn [List.filter map List.map fmap list_fmap]. destruct (f x); simpl; rewrite IH; reflexivity.
Qed.

(** The bonus depends on the outcomes of the five most recent attempts only. *)
Lemma strugglingBonus_outcomes l1 l2 :
  map Attempt.isCorrect (take 5 l1) = map Attempt.isCorrect (take 5 l2) ->
  strugglingBonus l1 = strugglingBonus l2.
Proof.
  intros H. unfold strugglingBonus, recentRate, recentCorrect.
  rewrite !recentTotal_take, !(length_filter_map Attempt.isCorrect).
  rewrite <- (length_map Attempt.isCorrect (take 5 l1)),
          <- (length_map Attempt.isCorrect (take 5 l2)), H.
  reflexivity.
Qed.

Lemma strugglingBonus_cases l :
  let recent := take 5 l in
  let rate := (inject_Z (Z.of_nat (length (List.filter Attempt.isCorrect recent)))
               / inject_Z (Z.of_nat (length recent)))%Q in
  (recent <> [] /\ (rate < 0.4)%Q -> strugglingBonus l = 0.3%Q) /\
  (~ (recent <> [] /\ (rate < 0.4)%Q) -> strugglingBonus l = 0%Q).
Proof.
  intros recent rate. unfold strugglingBonus, recentRate, recentCorrect.
  rewrite recentTotal_take. fold recent. fold rate.
  destruct (Z.ltb_spec 0 (Z.of_nat (length recent))) as [Hpos|Hzero]; simpl.
  - destruct (JS.Qltb rate 0.4) eqn:Hrate.
    + split; [reflexivity|]. intros Hn. exfalso. apply Hn. split.
      * intros Hnil. rewrite Hnil in Hpos. simpl in Hpos. lia.
      * apply Qltb_lt, Hrate.
    + split; [|reflexivity]. intros [_ Hlt]. apply Qltb_lt in Hlt. congruence.
  - split; [|reflexivity]. intros [Hne _]. exfalso. apply Hne.
    apply length_zero_iff_nil. lia.
Qed.

Lemma recencyFactor_le_2 d : (recencyFactor d <= 2)%Q.
Proof.
  unfold recencyFactor. pose proof (Q.le_min_r (d / 30) 2). lra.
Qed.

Lemma recencyFactor_ge_1 d : (0 <= d)%Q -> (1 <= recencyFactor d)%Q.
Proof.
  intros Hd. unfold recencyFactor.
  assert (0 <= Qmin (d / 30) 2)%Q; [|lra].
  apply Q.min_glb; [|lra]. unfold Qdiv. apply Qmult_le_0_compat; [exact Hd|].
  vm_compute. discriminate.
Qed.

Lemma Qdiv_neg (d c : Q) : (0 < c)%Q -> (d < 0)%Q -> (d / c < 0)%Q.
Proof. intros Hc Hd. apply Qlt_shift_div_r; [exact Hc|]. lra. Qed.

Lemma Qdiv_nonneg (d c : Q) : (0 < c)%Q -> (0 <= d)%Q -> (0 <= d / c)%Q.
Proof. intros Hc Hd. apply Qle_shift_div_l; [exact Hc|]. lra. Qed.

Lemma recencyFactor_lt_1 d : (d < 0)%Q <-> (recencyFactor d < 1)%Q.
Proof.
  unfold recencyFactor. split.
  - intros Hd. assert (Qmin (d / 30) 2 < 0)%Q; [|lra].
    eapply Qle_lt_trans; [apply Q.le_min_l|].
    apply Qdiv_neg; [reflexivity | exact Hd].
  - intros Hf. apply Qnot_le_lt. intros Hd.
    assert (0 <= Qmin (d / 30) 2)%Q; [|lra].
    apply Q.min_glb; [|lra]. apply Qdiv_nonneg; [reflexivity | exact Hd].
Qed.

Lemma daysSince_negative now t : now < t <-> (daysSince now (Some t) < 0)%Q.
Proof.
  unfold daysSince. split.
  - intros Hlt. apply Qdiv_neg; [reflexivity|].
    change 0%Q with (inject_Z 0). rewrite <- Zlt_Qlt. lia.
  - intros Hneg. destruct (Z.lt_ge_cases now t) as [Hlt|Hge]; [exact Hlt|].
    exfalso. apply (Qlt_not_le _ _ Hneg).
    apply Qdiv_nonneg; [reflexivity|].
    change 0%Q with (inject_Z 0). rewrite <- Zle_Qle. lia.
Qed.

Lemma progressMap_lookup userId topicId st :
  default ∅ (progressColl st !! userId) !! topicId = findProgress userId topicId st.
Proof.
  unfold findProgress. destruct (progressColl st !! userId); simpl; [reflexivity|].
  apply lookup_empty.
Qed.

(** *** Records without a last review *)

Lemma unreviewedAreFresh_emptyStore : unreviewedAreFresh emptyStore.
Proof.
  intros userId topicId p H. unfold findProgress in H. cbn in H.
  rewrite lookup_empty in H. discriminate.
Qed.

Lemma unreviewedAreFresh_putProgress userId topicId p st :
  (Progress.lastReview p = None -> Progress.mastery p = 0.2%Q) ->
  unreviewedAreFresh st -> unreviewedAreFresh (putProgress userId topicId p st).
Proof.
  intros Hp Hst u t q Hq Hnone.
  destruct (decide ((u, t) = (userId, topicId))) as [[= -> ->]|Hne].
  - rewrite findProgress_putProgress in Hq. injection Hq as <-. exact (Hp Hnone).
  - rewrite findProgress_putProgress_other in Hq by exact Hne. exact (Hst u t q Hq Hnone).
Qed.

Lemma unreviewedAreFresh_same st st' :
  progressColl st' = progressColl st -> unreviewedAreFresh st -> unreviewedAreFresh st'.
Proof. intros Heq Hst u t q. unfold findProgress. rewrite Heq. apply Hst. Qed.

(** A submission keeps it, however it ends. *)
Lemma unreviewedAreFresh_submit env data userId body st :
  unreviewedAreFresh st ->
  unreviewedAreFresh (fst (submitAnswerRoute env data userId body st)).
Proof.
  intros Hst. rewrite submitAnswerRoute_outcome.
  set (found := lookup _ _ _).
  assert (Hattempt : unreviewedAreFresh (afterAttempt env userId body found st))
    by (apply (unreviewedAreFresh_same st); [reflexivity | exact Hst]).
  assert (Hcreate : unreviewedAreFresh (afterCreate env userId body found st)).
  { unfold afterCreate. destruct (findProgress userId (topicId body) st); [exact Hattempt|].
    apply unreviewedAreFresh_putProgress; [reflexivity | exact Hattempt]. }
  assert (Hprogress : unreviewedAreFresh (afterProgress env userId body found st))
    by (apply unreviewedAreFresh_putProgress; [discriminate | exact Hcreate]).
  unfold outcome.
  repeat match goal with
         | |- context [if ?b then _ else _] => destruct b
         end; cbn [fst]; try assumption.
  destruct (userColl st !! userId) as [stats0|]; [|exact Hprogress].
  destruct (rejects env UserSave); cbn [fst]; [exact Hprogress|].
  apply (unreviewedAreFresh_same (afterProgress env userId body found st));
    [reflexivity | exact Hprogress].
Qed.

(** C3, as the code has it. The score of a topic is
    [(1 - mastery) * (1 + 0.5 * min(daysSince/30, 2)) + strugglingBonus].
    Without a record for the topic the mastery is 0.2 and daysSince the
    sentinel 999; with a record that has no lastReview daysSince is 999 and
    the mastery is the stored one, which is 0.2 in the stores the routes
    build ([unreviewedAreFresh]). The bonus is 0.3 exactly when the at most
    five most recent attempts on the topic, among the 100 most recent
    attempts of the user, are not empty and have a correct rate strictly
    below 0.4 (2 of 5 gives no bonus, 1 of 5 gives 0.3), and 0 otherwise.
    The recency factor is at most 2; it is at least 1 when daysSince is not
    negative, that is when the last review is not later than the clock of
    the request, and it is below 1 otherwise: a last review in the future
    gives a factor below 1. *)
Theorem C3_score_formula now st userId topic :
  let stored := findProgress userId (ref_topicId topic) st in
  let entry := scoreTopic now (default ∅ (progressColl st !! userId))
                 (recentOf userId (attemptColl st)) topic in
  let mastery := from_option Progress.mastery 0.2%Q stored in
  let days :=
    match stored ≫= Progress.lastReview with
    | Some t => (inject_Z (now - t) / inject_Z msPerDay)%Q
    | None => 999%Q
    end in
  let factor := (1 + 0.5 * Qmin (days / 30) 2)%Q in
  let recent :=
    take 5 (List.filter (fun a => String.eqb (Attempt.topicId a) (ref_topicId topic))
              (recentOf userId (attemptColl st))) in
  let rate := (inject_Z (Z.of_nat (length (List.filter Attempt.isCorrect recent)))
               / inject_Z (Z.of_nat (length recent)))%Q in
  exists bonus,
    Score.score entry = ((1 - mastery) * factor + bonus)%Q /\
    Score.mastery entry = mastery /\
    (stored = None -> mastery = 0.2%Q /\ days = 999%Q) /\
    (forall p, stored = Some p -> Progress.lastReview p = None ->
       days = 999%Q /\ (unreviewedAreFresh st -> mastery = 0.2%Q)) /\
    (factor <= 2)%Q /\
    ((0 <= days)%Q -> (1 <= factor)%Q) /\
    ((days < 0)%Q -> (factor < 1)%Q) /\
    (forall p t, stored = Some p -> Progress.lastReview p = Some t ->
       (now < t <-> (factor < 1)%Q)) /\
    (recent <> [] /\ (rate < 0.4)%Q -> bonus = 0.3%Q) /\
    (~ (recent <> [] /\ (rate < 0.4)%Q) -> bonus = 0%Q) /\
    (map Attempt.isCorrect recent = [false; false; false; true; true] -> bonus = 0%Q) /\
    (map Attempt.isCorrect recent = [false; false; false; false; true] -> bonus = 0.3%Q).
Proof.
  intros stored entry mastery days factor recent rate.
  set (attempts := topicAttempts (recentOf userId (attemptColl st)) (ref_topicId topic)).
  exists (strugglingBonus attempts).
  assert (Hcases :
    (recent <> [] /\ (rate < 0.4)%Q -> strugglingBonus attempts = 0.3%Q) /\
    (~ (recent <> [] /\ (rate < 0.4)%Q) -> strugglingBonus attempts = 0%Q))
    by exact (strugglingBonus_cases attempts).
  destruct Hcases as [Hyes Hno].
  assert (Hrate : forall outcomes, map Attempt.isCorrect recent = outcomes ->
            rate = (inject_Z (Z.of_nat (length (List.filter (fun b : bool => b) outcomes)))
                    / inject_Z (Z.of_nat (length outcomes)))%Q).
  { intros outcomes <-. unfold rate.
    rewrite (length_filter_map Attempt.isCorrect), length_map. reflexivity. }
  split; [unfold entry, scoreTopic; simpl; rewrite progressMap_lookup; reflexivity|].
  split; [unfold entry, scoreTopic; simpl; rewrite progressMap_lookup; reflexivity|].
  split; [intros Hnone; unfold mastery, days; rewrite Hnone; split; reflexivity|].
  split.
  { intros p Hp Hlast. unfold mastery, days. rewrite Hp. cbn [mbind option_bind from_option].
    rewrite Hlast. split; [reflexivity|].
    intros Hfresh. exact (Hfresh userId (ref_topicId topic) p Hp Hlast). }
  split; [apply recencyFactor_le_2|].
  split; [apply recencyFactor_ge_1|].
  split; [apply recencyFactor_lt_1|].
  split.
  { intros p t Hp Hlast. unfold factor, days. rewrite Hp. cbn [mbind option_bind].
    rewrite Hlast. rewrite daysSince_negative. apply recencyFactor_lt_1. }
  split; [exact Hyes|].
  split; [exact Hno|].
  split.
  - intros Hout. apply Hno. intros [_ Hlt].
    rewrite (Hrate _ Hout) in Hlt. vm_compute in Hlt. discriminate.
  - intros Hout. apply Hyes. split.
    + intros Hnil. rewrite Hnil in Hout. discriminate.
    + rewrite (Hrate _ Hout). reflexivity.
Qed.

Lemma recencyFactor_never : (recencyFactor (daysSince 0 None) == 2)%Q.
Proof. reflexivity. Qed.

Lemma recencyFactor_yesterday now :
  (recencyFactor (daysSince now (Some (now - msPerDay)%Z)) == 61 # 60)%Q.
Proof.
  unfold daysSince. replace (now - (now - msPerDay)) with msPerDay by lia.
  reflexivity.
Qed.

(** In a list sorted by score, an entry of strictly higher score comes
    strictly first. *)
Lemma higher_score_first (l : list Score.t) (i j : nat) a b :
  StronglySorted outranks l ->
  (Score.score b < Score.score a)%Q ->
  l !! i = Some b -> l !! j = Some a -> (j < i)%nat.
Proof.
  intros Hs Hlt Hi Hj.
  destruct (Nat.lt_trichotomy j i) as [H | [-> | H]]; [exact H | |].
  - rewrite Hi in Hj. injection Hj as ->. exfalso. exact (Qlt_irrefl _ Hlt).
  - pose proof (StronglySorted_lookup outranks l Hs i j b a H Hi Hj) as Hle.
    unfold outranks in Hle. exfalso. exact (Qlt_not_le _ _ Hlt Hle).
Qed.

Lemma scoreTopic_ranked now data userId st topic :
  In topic (getAllTopicIds data) ->
  exists i, rankingOf now data userId st !! i
            = Some (scoreTopic now (default ∅ (progressColl st !! userId))
                      (recentOf userId (attemptColl st)) topic).
Proof.
  intros Hin. apply list_elem_of_lookup.
  unfold rankingOf, ranking, JS.sort. rewrite sortBy_Permutation.
  apply list_elem_of_In. unfold allScores. apply in_map, Hin.
Qed.

(** C8. Of two topics with mastery 0.2 and the same recent outcomes, one
    never reviewed (no record, or a record without lastReview: daysSince is
    the sentinel 999) and one reviewed exactly one day ago, the never-reviewed
    one has the strictly higher score. Both are in the ranking of the
    request, the never-reviewed one strictly before the other, at every
    position where they occur. A request whose two queries go through and
    whose [n] has a string is answered 200 with a prefix of that ranking: the
    never-reviewed topic comes before the other in it and is returned
    whenever the other is, and with [n] at least the number of known topics
    the whole ranking is returned, both topics in it. *)
Theorem C8_never_reviewed_outranks env now data userId n st never yesterday reviewed :
  let progressMap := default ∅ (progressColl st !! userId) in
  let recentAttempts := recentOf userId (attemptColl st) in
  In never (getAllTopicIds data) ->
  In yesterday (getAllTopicIds data) ->
  (progressMap !! ref_topicId never = None \/
   exists p, progressMap !! ref_topicId never = Some p /\
             Progress.lastReview p = None /\ (Progress.mastery p == 0.2)%Q) ->
  progressMap !! ref_topicId yesterday = Some reviewed ->
  (Progress.mastery reviewed == 0.2)%Q ->
  Progress.lastReview reviewed = Some (now - msPerDay) ->
  map Attempt.isCorrect (take 5 (topicAttempts recentAttempts (ref_topicId never))) =
  map Attempt.isCorrect (take 5 (topicAttempts recentAttempts (ref_topicId yesterday))) ->
  let eN := scoreTopic now progressMap recentAttempts never in
  let eY := scoreTopic now progressMap recentAttempts yesterday in
  let full := rankingOf now data userId st in
  (Score.score eY < Score.score eN)%Q /\
  (exists i j : nat, (i < j)%nat /\ full !! i = Some eN /\ full !! j = Some eY) /\
  (forall i j : nat, full !! i = Some eY -> full !! j = Some eN -> (j < i)%nat) /\
  (rejects env ProgressFind = false -> rejects env AttemptFind = false ->
   forall end_, parsedN n = inr end_ ->
   exists recs,
     recommendationsRoute env now data userId n st = (st, Success recs) /\
     recs `prefix_of` full /\
     (forall i j : nat, recs !! i = Some eY -> recs !! j = Some eN -> (j < i)%nat) /\
     (In eY recs -> In eN recs) /\
     (forall k, end_ = Some k -> Z.of_nat (length (getAllTopicIds data)) <= k ->
        recs = full /\ In eN recs /\ In eY recs)).
Proof.
  intros progressMap recentAttempts HinN HinY Hnever Hrev Hm Hlast Hout eN eY full.
  assert (Hlt : (Score.score eY < Score.score eN)%Q).
  { unfold eN, eY, scoreTopic; simpl.
    rewrite (strugglingBonus_outcomes _ _ Hout).
    rewrite Hrev; simpl. rewrite Hlast.
    pose proof (recencyFactor_yesterday now) as Hy. rewrite Hy, Hm.
    destruct Hnever as [-> | (p & -> & Hp & Hmp)]; simpl.
    - change (recencyFactor (daysSince now None)) with (recencyFactor (daysSince 0 None)).
      rewrite recencyFactor_never. lra.
    - rewrite Hp.
      change (recencyFactor (daysSince now None)) with (recencyFactor (daysSince 0 None)).
      rewrite recencyFactor_never, Hmp. lra. }
  assert (Hsorted : StronglySorted outranks full)
    by apply sort_byScoreDesc_sorted.
  assert (Hfirst : forall i j : nat,
             full !! i = Some eY -> full !! j = Some eN -> (j < i)%nat)
    by (intros i j Hi Hj; exact (higher_score_first _ i j eN eY Hsorted Hlt Hi Hj)).
  destruct (scoreTopic_ranked now data userId st never HinN) as [iN HiN].
  destruct (scoreTopic_ranked now data userId st yesterday HinY) as [iY HiY].
  fold progressMap recentAttempts eN full in HiN.
  fold progressMap recentAttempts eY full in HiY.
  split; [exact Hlt|].
  split; [exists iN, iY; split; [exact (Hfirst iY iN HiY HiN) | split; assumption]|].
  split; [exact Hfirst|].
  intros H1 H2 end_ Hn.
  exists (JS.slice0 full end_).
  split; [exact (recommendationsRoute_succeeds env now data userId n end_ st H1 H2 Hn)|].
  destruct (slice0_take full end_) as [k Hk].
  split; [rewrite Hk; apply prefix_take|].
  split.
  { intros i j Hi Hj. rewrite Hk in Hi, Hj.
    apply lookup_take_Some in Hi as [Hi _]. apply lookup_take_Some in Hj as [Hj _].
    exact (Hfirst i j Hi Hj). }
  split.
  { intros HY. rewrite Hk in HY |- *.
    apply list_elem_of_In, list_elem_of_lookup in HY as [i Hi].
    apply lookup_take_Some in Hi as [Hi Hik].
    pose proof (Hfirst i iN Hi HiN) as Hji.
    apply list_elem_of_In, list_elem_of_lookup. exists iN.
    apply lookup_take_Some. split; [exact HiN | lia]. }
  intros k' -> Hall.
  assert (Hfull : JS.slice0 full (Some k') = full).
  { rewrite slice0_count by lia. apply take_ge.
    unfold full. rewrite length_rankingOf. lia. }
  rewrite Hfull.
  split; [reflexivity|].
  split; apply list_elem_of_In, list_elem_of_lookup; eauto.
Qed.

(** ** The streak on the day of the Unix epoch *)

(** C2. The handler tests the midnight of the last study date for
    truthiness, and the midnight of 1970-01-01 on a UTC server is the
    timestamp 0, which is falsy: the user is then taken for one who never
    studied. With a streak of 5 and a last study one hour after the epoch, a
    submission one hour later (daysDiff 0) sets the streak to 1, not 5, and a
    submission the next day (daysDiff 1) sets it to 1, not 6; submissions on
    the days 0, 0, 1 and 3 give the streaks 1, 1, 1, 1. *)
Theorem C2_streak_lost_at_epoch_midnight :
  User.lastStudyDate Sample.epochStats = Some Sample.hour /\
  User.currentStreak Sample.epochStats = 5 /\
  lastStudyOf Sample.epochEnv Sample.epochStats = Some 0 /\
  (daysDiff (localMidnight Sample.epochEnv (nowToday Sample.epochEnv))
            (localMidnight Sample.epochEnv Sample.hour) == 0)%Q /\
  User.currentStreak (updateStats Sample.epochEnv true Sample.epochStats) = 1 /\
  (daysDiff (localMidnight Sample.epochNextDayEnv (nowToday Sample.epochNextDayEnv))
            (localMidnight Sample.epochNextDayEnv Sample.hour) == 1)%Q /\
  User.currentStreak (updateStats Sample.epochNextDayEnv true Sample.epochStats) = 1 /\
  map User.currentStreak Sample.epochDays = [1; 1; 1; 1].
Proof. repeat split; vm_compute; reflexivity. Qed.

(** Away from the epoch, on a UTC server, the days D, D, D+1 and D+3 give
    the streaks 1, 1, 2, 1 and the longest streak 2. *)
Example streak_example_utc :
  map User.currentStreak
    [ updateStats (Sample.utcAt Sample.noon) true User.newStats;
      updateStats (Sample.utcAt (Sample.noon + Sample.hour)) false
        (updateStats (Sample.utcAt Sample.noon) true User.newStats);
      updateStats (Sample.utcAt (Sample.noon + msPerDay)) true
        (updateStats (Sample.utcAt (Sample.noon + Sample.hour)) false
           (updateStats (Sample.utcAt Sample.noon) true User.newStats));
      updateStats (Sample.utcAt (Sample.noon + 3 * msPerDay)) true
        (updateStats (Sample.utcAt (Sample.noon + msPerDay)) true
           (updateStats (Sample.utcAt (Sample.noon + Sample.hour)) false
              (updateStats (Sample.utcAt Sample.noon) true User.newStats))) ]
  = [1; 1; 2; 1].
Proof.
  refine (proj1 (streak_example (Sample.utcAt Sample.noon)
                   (Sample.utcAt (Sample.noon + Sample.hour))
                   (Sample.utcAt (Sample.noon + msPerDay))
                   (Sample.utcAt (Sample.noon + 3 * msPerDay))
                   true false true true (20522 * msPerDay) _ _ _ _ _ _ _ _));
    vm_compute; congruence.
Qed.

(** In a zone with daylight saving time the two midnights around the switch
    are 25 hours apart: the quotient is 25/24, neither 1 nor at most 1, and a
    study on the next calendar day resets a streak of 3 to 1. *)
Example streak_reset_on_25_hour_day :
  (daysDiff (Sample.easternMidnight (nowToday Sample.easternEnv))
            (Sample.easternMidnight (20758 * msPerDay + 16 * Sample.hour)) == 25 # 24)%Q /\
  User.currentStreak (updateStats Sample.easternEnv true Sample.easternStats) = 1.
Proof. split; vm_compute; reflexivity. Qed.

(** ** Concrete runs *)

(** C1 on a first attempt at Algebra: the stored mastery is
    [0.3 * 1 + (1 - 0.3) * 0.2]. *)
Lemma C1_witness :
  correctAnswer (lookup (Bank.subjects Sample.bank) "ALG" "ALG_Q2") = Some "b"%string /\
  exists p,
    findProgress Sample.alice "ALG"
      (fst (submitAnswerRoute Sample.env Sample.bank Sample.alice Sample.secondUpper
              Sample.store0)) = Some p /\
    Progress.mastery p = (0.3 * 1 + (1 - 0.3) * 0.2)%Q.
Proof.
  split; [reflexivity|].
  destruct (C1_mastery_is_ema Sample.env Sample.bank Sample.alice Sample.secondUpper
              Sample.store0 "b")
    as (p & Hp & Hm & _);
    [reflexivity | discriminate | reflexivity | reflexivity | reflexivity | reflexivity |].
  exists p. split; [exact Hp | exact Hm].
Defined.



(** C4, the claim refuted: with the stored answer "a " (a trailing space),
    the answer "A" is accepted by the route and recorded as incorrect. *)
Lemma C4_trailing_space_is_incorrect :
  Bank.answer <$> Bank.questions Sample.algebra !! 0%nat = Some "a "%string /\
  r_isCorrect <$>
    match snd (submitRequest Sample.env Sample.bank Sample.alice
                 (Some (Sample.posted "ALG" "ALG_Q1" "A")) Sample.store0) with
    | Success d => Some d
    | Failure _ _ => None
    end = Some false /\
  Attempt.isCorrect <$>
    attemptColl (fst (submitRequest Sample.env Sample.bank Sample.alice
                        (Some (Sample.posted "ALG" "ALG_Q1" "A")) Sample.store0)) = [false].
Proof. repeat split; vm_compute; reflexivity. Qed.

(** C4 on the answer "A" to the two questions of Letters: correct against
    the stored "a", incorrect against the stored "a ". *)
Lemma C4_witness :
  Bank.answer <$> Bank.questions Sample.letters = ["a"; "a "]%string /\
  (exists st' d,
     submitRequest Sample.env Sample.letterBank Sample.alice
       (Some (Sample.posted "LET" "LET_Q1" "A")) Sample.store0 = (st', Success d) /\
     r_correctAnswer d = "a"%string /\ r_isCorrect d = true) /\
  (exists st' d,
     submitRequest Sample.env Sample.letterBank Sample.alice
       (Some (Sample.posted "LET" "LET_Q2" "A")) Sample.store0 = (st', Success d) /\
     r_correctAnswer d = "a "%string /\ r_isCorrect d = false).
Proof.
  split; [reflexivity|]. split.
  - destruct (submitAnswerRoute_succeeds Sample.env Sample.letterBank Sample.alice
                (Sample.submission "LET" "LET_Q1" "A") Sample.store0 "a" User.newStats)
      as (st' & d & Hrun); [reflexivity | discriminate | reflexivity | reflexivity |].
    rewrite <- submitRequest_typed in Hrun.
    exists st', d. split; [exact Hrun|].
    destruct (C4_case_insensitive_untrimmed _ _ _ _ _ _ _ Hrun)
      as (typed & answer & Htyped & Hans & Hd & _ & Hyes & _).
    unfold Sample.posted in Htyped.
    assert (typed = Sample.submission "LET" "LET_Q1" "A") as ->
      by (apply rawOf_inj; congruence).
    assert (answer = "a"%string) as -> by (vm_compute in Hans; congruence).
    split; [exact Hd | exact (Hyes eq_refl eq_refl)].
  - destruct (submitAnswerRoute_succeeds Sample.env Sample.letterBank Sample.alice
                (Sample.submission "LET" "LET_Q2" "A") Sample.store0 "a " User.newStats)
      as (st' & d & Hrun); [reflexivity | discriminate | reflexivity | reflexivity |].
    rewrite <- submitRequest_typed in Hrun.
    exists st', d. split; [exact Hrun|].
    destruct (C4_case_insensitive_untrimmed _ _ _ _ _ _ _ Hrun)
      as (typed & answer & Htyped & Hans & Hd & _ & _ & Hno).
    unfold Sample.posted in Htyped.
    assert (typed = Sample.submission "LET" "LET_Q2" "A") as ->
      by (apply rawOf_inj; congruence).
    assert (answer = "a "%string) as -> by (vm_compute in Hans; congruence).
    split; [exact Hd | exact (Hno eq_refl eq_refl)].
Defined.

(** C5, the claim refuted: [Progress.findOne] rejecting after the attempt
    was recorded, the route answers 500 and the store holds the new Attempt
    and nothing else new. *)
Lemma C5_attempt_persisted_alone :
  snd Sample.failedRun = Failure 500 "storage error" /\
  attemptColl Sample.store0 = [] /\
  length (attemptColl (fst Sample.failedRun)) = 1%nat /\
  progressColl (fst Sample.failedRun) = progressColl Sample.store0 /\
  userColl (fst Sample.failedRun) = userColl Sample.store0.
Proof. repeat split; vm_compute; reflexivity. Qed.

(** C5 on the run where [Progress.findOne] rejects, on the run where
    [user.save()] rejects, and on a body whose [userAnswer] is a number: the
    store is the one after the attempt, the one after the Progress update,
    and the store as it was. *)
Lemma C5_witness :
  (exists st',
     submitRequest (Sample.utcFailing ProgressFindOne Sample.noon) Sample.bank Sample.alice
       (Some (rawOf Sample.secondUpper)) Sample.store0
     = (st', Failure 500 "storage error") /\
     st' = afterAttempt (Sample.utcFailing ProgressFindOne Sample.noon) Sample.alice
             Sample.secondUpper (lookup (Bank.subjects Sample.bank) "ALG" "ALG_Q2")
             Sample.store0) /\
  (exists st',
     submitRequest (Sample.utcFailing UserSave Sample.noon) Sample.bank Sample.alice
       (Some (rawOf Sample.secondUpper)) Sample.store0
     = (st', Failure 500 "storage error") /\
     st' = afterProgress (Sample.utcFailing UserSave Sample.noon) Sample.alice
             Sample.secondUpper (lookup (Bank.subjects Sample.bank) "ALG" "ALG_Q2")
             Sample.store0 /\
     userColl st' = userColl Sample.store0) /\
  (exists st' code message,
     submitRequest Sample.env Sample.bank Sample.alice (Some Sample.numericAnswer)
       Sample.store0 = (st', Failure code message) /\
     st' = Sample.store0 /\ code = 500 /\
     message = "userAnswer.toUpperCase is not a function"%string).
Proof.
  split; [|split].
  - assert (Hrun : exists st',
               submitRequest (Sample.utcFailing ProgressFindOne Sample.noon) Sample.bank
                 Sample.alice (Some (rawOf Sample.secondUpper)) Sample.store0
               = (st', Failure 500 "storage error"))
      by (eexists; rewrite submitRequest_typed, submitAnswerRoute_outcome; reflexivity).
    destruct Hrun as [st' Hrun]. exists st'. split; [exact Hrun|].
    destruct (C5_failure_keeps_earlier_writes _ _ _ _ _ _ _ _ Hrun)
      as (_ & _ & _ & _ & _ & _ & Htyped).
    destruct (Htyped Sample.secondUpper eq_refl ltac:(discriminate)) as [_ Hkept].
    destruct (Hkept eq_refl) as (_ & Hfind & _).
    exact (Hfind eq_refl).
  - assert (Hrun : exists st',
               submitRequest (Sample.utcFailing UserSave Sample.noon) Sample.bank Sample.alice
                 (Some (rawOf Sample.secondUpper)) Sample.store0
               = (st', Failure 500 "storage error"))
      by (eexists; rewrite submitRequest_typed, submitAnswerRoute_outcome; reflexivity).
    destruct Hrun as [st' Hrun]. exists st'. split; [exact Hrun|].
    destruct (C5_failure_keeps_earlier_writes _ _ _ _ _ _ _ _ Hrun)
      as (Hu & _ & _ & _ & _ & _ & Htyped).
    destruct (Htyped Sample.secondUpper eq_refl ltac:(discriminate)) as [_ Hkept].
    destruct (Hkept eq_refl) as (_ & _ & Hfound).
    destruct (Hfound eq_refl) as [_ Hsave].
    destruct (Hsave (or_intror eq_refl)) as [_ Hprogress].
    split; [exact (Hprogress eq_refl) | exact Hu].
  - destruct (submitRequest Sample.env Sample.bank Sample.alice (Some Sample.numericAnswer)
                Sample.store0) as [st' [d|code message]] eqn:Hrun;
      [vm_compute in Hrun; discriminate|].
    exists st', code, message. split; [reflexivity|].
    destruct (C5_failure_keeps_earlier_writes _ _ _ _ _ _ _ _ Hrun)
      as (_ & _ & _ & _ & _ & Hline59 & _).
    apply (Hline59 Sample.numericAnswer "ALG"%string Fixture.mathematics Sample.algebra
             "ALG_Q2"%string); try reflexivity.
    intros answer. discriminate.
Defined.

(** C6, the claim refuted: three submissions of one user on one topic, all
    answered 200. The wrong answer reads the record (5 attempts, 5 correct)
    before the two correct answers are served, and saves after them: its
    save takes the attempts from 7 down to 6 and leaves 7 corrects, more
    than the attempts. *)
Lemma C6_stale_save_breaks_counters :
  exists atRead first second st' d p q,
    servedAmong [id; id] Sample.slowEnv Sample.bank Sample.alice Sample.wrongSecond
      Sample.store3 = (atRead, Loaded Sample.fiveOfFive) /\
    snd (Sample.firstCorrect atRead) = Answered (Success first) /\
    snd (Sample.secondCorrect atRead) = Answered (Success second) /\
    servedAmong Sample.overlapped Sample.slowEnv Sample.bank Sample.alice
      Sample.wrongSecond Sample.store3 = (st', Answered (Success d)) /\
    findProgress Sample.alice "ALG" (Sample.twoCorrect atRead) = Some p /\
    findProgress Sample.alice "ALG" st' = Some q /\
    counters Sample.fiveOfFive = (5, 5) /\
    counters p = (7, 7) /\
    counters q = (6, 7) /\
    0 <= Progress.corrects p <= Progress.attempts p /\
    Progress.attempts q < Progress.attempts p /\
    Progress.attempts q < Progress.corrects q.
Proof.
  eexists _, _, _, _, _, _, _.
  split; [vm_compute; reflexivity|]. split; [vm_compute; reflexivity|].
  split; [vm_compute; reflexivity|]. split; [vm_compute; reflexivity|].
  split; [vm_compute; reflexivity|]. split; [vm_compute; reflexivity|].
  repeat split; vm_compute; congruence.
Qed.

(** C6 on a first, correct answer of Alice, served while a submission of
    Bob is. *)
Lemma C6_witness :
  exists st' d,
    servedAmong Fixture.meanwhile Sample.env Sample.bank Sample.alice Sample.secondUpper Sample.store0
    = (st', Answered (Success d)) /\
    length (attemptColl st') = 2%nat /\
    exists p stats,
      findProgress Sample.alice "ALG" st' = Some p /\
      userColl st' !! Sample.alice = Some stats /\
      Progress.attempts p = 0 + 1 /\
      Progress.corrects p = 0 + 1 /\
      Progress.lastReview p = Some Sample.noon /\
      User.currentStreak stats <= User.longestStreak stats.
Proof.
  set (others := Fixture.meanwhile).
  assert (Hleft : Forall (leaves Sample.alice "ALG") others).
  { unfold others, Fixture.meanwhile.
    constructor; [apply leaves_id|].
    constructor; [apply leaves_other_user; discriminate|].
    repeat (constructor; [apply leaves_id|]). constructor. }
  assert (Hlen : length (attemptColl (fst (servedAmong others Sample.env Sample.bank
                                            Sample.alice Sample.secondUpper Sample.store0)))
                 = 2%nat) by (vm_compute; reflexivity).
  destruct (servedAmong others Sample.env Sample.bank Sample.alice Sample.secondUpper
              Sample.store0) as [st' point] eqn:Hrun.
  cbn [fst] in Hlen.
  destruct point as [| | | | | |[d|code message]];
    try (apply (f_equal snd) in Hrun; vm_compute in Hrun; discriminate Hrun).
  exists st', d. split; [reflexivity|]. split; [exact Hlen|].
  destruct (C6_counters_and_invariants others Sample.env Sample.bank Sample.alice
              Sample.secondUpper Sample.store0 st' d Hleft Hrun)
    as (p & stats & Hp & Hs & Ha & Hc & _ & Hr & _ & Hl & _ & _ & Hroute).
  exists p, stats.
  assert (Hd : r_isCorrect d = true).
  { assert (Hsnd : Success d
               = snd (submitAnswerRoute Sample.env Sample.bank Sample.alice
                        Sample.secondUpper Sample.store0)) by (symmetry; exact Hroute).
    vm_compute in Hsnd. injection Hsnd as ->. reflexivity. }
  rewrite Hd in Hc.
  repeat split; assumption.
Defined.

(** C10, the claim refuted: a submission without [questionId] on a known
    topic encodes no index, and the handler throws where it calls
    [questionId.split]; the route answers 500, not 404. *)
Lemma C10_missing_questionId_throws :
  raw_topicId Sample.noQuestionId = JsString "ALG" /\
  matchedTopic (Bank.subjects Sample.bank) "ALG" <> None /\
  encodedIndex (raw_questionId Sample.noQuestionId) = None /\
  submitRaw Sample.env Sample.bank Sample.alice Sample.noQuestionId Sample.store0
  = (Sample.store0, inl "Cannot read properties of undefined (reading 'split')"%string) /\
  status (snd (submitRequest Sample.env Sample.bank Sample.alice
                 (Some Sample.noQuestionId) Sample.store0)) = 500.
Proof. repeat split; try discriminate; reflexivity. Qed.

(** C10 on a question with an empty stored answer, on an unknown topic and
    on a body without [questionId]. *)
Lemma C10_witness :
  matchedTopic (Bank.subjects Sample.bank) "ALG" <> None /\
  qIndex "ALG_Q3" = Some 2 /\
  submitRequest Sample.env Sample.bank Sample.alice
    (Some (rawOf Sample.emptyAnswer)) Sample.store0
  = (Sample.store0, Failure 404 "Question not found") /\
  submitRequest Sample.env Sample.bank Sample.alice
    (Some (rawOf Sample.unknownTopic)) Sample.store0
  = (Sample.store0, Failure 404 "Question not found") /\
  submitRequest Sample.env Sample.bank Sample.alice (Some Sample.noQuestionId) Sample.store0
  = (Sample.store0, Failure 500 "Cannot read properties of undefined (reading 'split')").
Proof.
  split; [discriminate|]. split; [reflexivity|]. split; [|split].
  - apply (C10_question_not_found Sample.env Sample.bank Sample.alice
             (rawOf Sample.emptyAnswer) Sample.store0).
    right. exists "ALG"%string, Fixture.mathematics, Sample.algebra, "ALG_Q3"%string.
    split; [reflexivity|]. split; [reflexivity|]. split; [reflexivity|].
    simpl. right. right. eexists. split; reflexivity.
  - apply (C10_question_not_found Sample.env Sample.bank Sample.alice
             (rawOf Sample.unknownTopic) Sample.store0).
    left. intros tid [= <-]. simpl. intros subject topic [<- | [<- | []]]; simpl;
      intros [<- | Hin]; try discriminate;
      try (destruct Hin as [<- | []]; discriminate); destruct Hin.
  - apply (proj1 (proj2 (C10_question_not_found Sample.env Sample.bank Sample.alice
                           Sample.noQuestionId Sample.store0))
             "ALG"%string Fixture.mathematics Sample.algebra);
      [reflexivity | reflexivity | discriminate].
Defined.

(** C3, the claim refuted: for a record whose last review is 30 days later
    than the clock of the request, daysSince is -30 and the recency factor is
    1/2, outside [1,2]; the route ranks the topic last, with the score
    [(1 - 0.2) * 1/2]. *)
Lemma C3_recency_below_one :
  (daysSince Sample.noon (Progress.lastReview Sample.reviewedAhead) == -30)%Q /\
  (recencyFactor (daysSince Sample.noon (Progress.lastReview Sample.reviewedAhead))
   == 1 # 2)%Q /\
  ~ (1 <= recencyFactor (daysSince Sample.noon (Progress.lastReview Sample.reviewedAhead))
     <= 2)%Q /\
  match snd (recommendationsRoute Sample.env Sample.noon Sample.bank Sample.alice QAbsent
               Sample.store2) with
  | Success [_; _; e] =>
      Score.topicId e = "GEO"%string /\ (Score.score e == (1 - 0.2) * (1 # 2))%Q
  | _ => False
  end.
Proof.
  split; [reflexivity|]. split; [reflexivity|]. split.
  - intros [Hlow _]. vm_compute in Hlow. apply Hlow. reflexivity.
  - vm_compute. split; reflexivity.
Qed.

(** C3 on Geometry, reviewed one day before and never attempted, and on
    Algebra after a first submission whose save was rejected: the record has
    no last review, and the entry has the mastery 0.2 and the factor 2. *)
Lemma C3_witness :
  (exists bonus,
     Score.score (scoreTopic Sample.noon (default ∅ (progressColl Sample.store1 !! Sample.alice))
                    (recentOf Sample.alice (attemptColl Sample.store1)) Sample.geometryRef)
     = ((1 - 0.2) * (1 + 0.5 * Qmin (inject_Z (Sample.noon - (Sample.noon - msPerDay))%Z
                                     / inject_Z msPerDay / 30) 2) + bonus)%Q /\
     bonus = 0%Q) /\
  (Progress.lastReview <$> findProgress Sample.alice "ALG" Sample.unsaved = Some None /\
   from_option Progress.mastery 0.2%Q (findProgress Sample.alice "ALG" Sample.unsaved)
   = 0.2%Q /\
   Score.mastery (scoreTopic Sample.noon
                    (default ∅ (progressColl Sample.unsaved !! Sample.alice))
                    (recentOf Sample.alice (attemptColl Sample.unsaved)) Sample.algebraRef)
   = from_option Progress.mastery 0.2%Q (findProgress Sample.alice "ALG" Sample.unsaved)).
Proof.
  split.
  - destruct (C3_score_formula Sample.noon Sample.store1 Sample.alice Sample.geometryRef)
      as (bonus & Hscore & _ & _ & _ & _ & _ & _ & _ & _ & Hno & _).
    exists bonus. split; [exact Hscore|].
    apply Hno. intros [Hne _]. apply Hne. reflexivity.
  - destruct (C3_score_formula Sample.noon Sample.unsaved Sample.alice Sample.algebraRef)
      as (bonus & _ & Hmastery & _ & Hunreviewed & _).
    assert (Hfresh : unreviewedAreFresh Sample.unsaved).
    { apply unreviewedAreFresh_submit.
      apply (unreviewedAreFresh_same emptyStore); [reflexivity|].
      apply unreviewedAreFresh_emptyStore. }
    assert (Hrecord : exists p, findProgress Sample.alice "ALG" Sample.unsaved = Some p /\
                                Progress.lastReview p = None)
      by (eexists; split; [vm_compute; reflexivity | reflexivity]).
    destruct Hrecord as (p & Hp & Hlast).
    destruct (Hunreviewed p Hp Hlast) as [_ Hm].
    split; [rewrite Hp; cbn; rewrite Hlast; reflexivity|].
    split; [exact (Hm Hfresh) | exact Hmastery].
Defined.

(** C8 on Algebra (never reviewed) and Geometry (reviewed the day before):
    the request without [n] is answered with the three topics, Algebra
    first and Geometry last. *)
Lemma C8_witness :
  exists recs,
    recommendationsRoute Sample.env Sample.noon Sample.bank Sample.alice QAbsent
      Sample.store1 = (Sample.store1, Success recs) /\
    Score.topicId <$> recs = ["ALG"; "GRA"; "GEO"]%string /\
    (Score.score (scoreTopic Sample.noon (default ∅ (progressColl Sample.store1 !! Sample.alice))
                    (recentOf Sample.alice (attemptColl Sample.store1)) Sample.geometryRef)
     < Score.score (scoreTopic Sample.noon (default ∅ (progressColl Sample.store1 !! Sample.alice))
                      (recentOf Sample.alice (attemptColl Sample.store1)) Sample.algebraRef))%Q /\
    In (scoreTopic Sample.noon (default ∅ (progressColl Sample.store1 !! Sample.alice))
          (recentOf Sample.alice (attemptColl Sample.store1)) Sample.algebraRef) recs.
Proof.
  destruct (C8_never_reviewed_outranks Sample.env Sample.noon Sample.bank Sample.alice
              QAbsent Sample.store1 Sample.algebraRef Sample.geometryRef
              Sample.reviewedYesterday)
    as (Hlt & _ & _ & Hroute).
  - left. reflexivity.
  - right. left. reflexivity.
  - left. reflexivity.
  - reflexivity.
  - reflexivity.
  - reflexivity.
  - reflexivity.
  - destruct (Hroute eq_refl eq_refl (Some 3) eq_refl) as (recs & Hrun & _ & _ & _ & Hall).
    destruct (Hall 3 eq_refl) as (Hfull & HN & _); [vm_compute; discriminate|].
    exists recs. split; [exact Hrun|].
    split; [rewrite Hfull; vm_compute; reflexivity|].
    split; [exact Hlt | exact HN].
Defined.

(** C9, the claim refuted: with [n=-1] and three known topics the route
    returns two entries, all but the last one, where min(n, 3) is -1. *)
Lemma C9_negative_n_drops_last :
  parsedN (QString "-1") = inr (Some (-1)) /\
  length (getAllTopicIds Sample.bank) = 3%nat /\
  Score.topicId <$>
    match snd (recommendationsRoute Sample.env Sample.noon Sample.bank Sample.alice
                 (QString "-1") Sample.store1) with
    | Success recs => recs
    | Failure _ _ => []
    end = ["ALG"; "GRA"]%string /\
  Z.of_nat (length
    match snd (recommendationsRoute Sample.env Sample.noon Sample.bank Sample.alice
                 (QString "-1") Sample.store1) with
    | Success recs => recs
    | Failure _ _ => []
    end) <> Z.min (-1) 3.
Proof. repeat split; vm_compute; congruence. Qed.

(** C9 with [n=2] and three known topics. *)
Lemma C9_witness :
  exists recs,
    recommendationsRoute Sample.env Sample.noon Sample.bank Sample.alice (QString "2")
      Sample.store1 = (Sample.store1, Success recs) /\
    Z.of_nat (length recs) = Z.min 2 (Z.of_nat (length (getAllTopicIds Sample.bank))) /\
    Score.topicId <$> recs = ["ALG"; "GRA"]%string /\
    forall (i j : nat) a b, (i < j)%nat -> recs !! i = Some a -> recs !! j = Some b ->
      (Score.score b <= Score.score a)%Q.
Proof.
  eexists. split; [apply (recommendationsRoute_succeeds _ _ _ _ _ (Some 2)); reflexivity|].
  destruct (C9_top_n_sorted_stable Sample.env Sample.noon Sample.bank Sample.alice
              (QString "2") Sample.store1 Sample.store1 _
              (recommendationsRoute_succeeds Sample.env Sample.noon Sample.bank Sample.alice
                 (QString "2") (Some 2) Sample.store1 eq_refl eq_refl eq_refl))
    as (_ & _ & Hpos & _ & _ & _ & Hsorted & _).
  split; [apply (Hpos 2); [reflexivity | lia]|].
  split; [vm_compute; reflexivity | exact Hsorted].
Defined.

(** * Properties of the other routes *)

(** ** Question ids: printing and parsing *)

Lemma digits_string_of_uint d (a : nat) :
  JS.digits 10 (Some (Z.of_nat a)) (NilEmpty.string_of_uint d)
  = Some (Z.of_nat (Nat.of_uint_acc d a)).
Proof.
  revert a. induction d; intros a; cbn [NilEmpty.string_of_uint JS.digits Nat.of_uint_acc];
    [reflexivity|..];
    (match goal with
     | |- context [JS.digitValue 10 ?c] =>
         let v := eval vm_compute in (JS.digitValue 10 c) in
         change (JS.digitValue 10 c) with v
     end);
    cbn [default from_option]; unfold id;
    (match goal with
     | |- JS.digits 10 (Some ?v) _ = Some (Z.of_nat (Nat.of_uint_acc _ ?n)) =>
         replace v with (Z.of_nat n) by (rewrite Nat.tail_mul_spec; lia)
     end);
    apply IHd.
Qed.

Lemma digits_None_string_of_uint d :
  d <> Decimal.Nil ->
  JS.digits 10 None (NilEmpty.string_of_uint d) = Some (Z.of_nat (Nat.of_uint d)).
Proof.
  intros Hd. unfold Nat.of_uint.
  destruct d; [congruence|..];
    cbn [NilEmpty.string_of_uint JS.digits Nat.of_uint_acc];
    (match goal with
     | |- context [JS.digitValue 10 ?c] =>
         let v := eval vm_compute in (JS.digitValue 10 c) in
         change (JS.digitValue 10 c) with v
     end);
    (match goal with
     | |- _ = Some (Z.of_nat (Nat.of_uint_acc _ ?n)) => exact (digits_string_of_uint d n)
     end).
Qed.

(** A character that is no white space and no first byte of an encoded
    white space stops [trimStart]. *)
Lemma trimStart_stops c s :
  JS.isWhiteSpace c = false ->
  (forall c2, JS.isWhiteSpace2 c c2 = false) ->
  (forall c2 c3, JS.isWhiteSpace3 c c2 c3 = false) ->
  JS.trimStart (String c s) = String c s.
Proof.
  intros H1 H2 H3. cbn [JS.trimStart]. rewrite H1.
  destruct s as [|c2 [|c3 s]]; [reflexivity|..]; rewrite H2; [reflexivity|].
  rewrite H3. reflexivity.
Qed.

Lemma isWhiteSpace2_ascii c c2 :
  (N_of_ascii c < 128)%N -> JS.isWhiteSpace2 c c2 = false.
Proof.
  intros H. unfold JS.isWhiteSpace2.
  destruct (N.eqb_spec (N_of_ascii c) 194) as [E|_]; [lia | reflexivity].
Qed.

Lemma isWhiteSpace3_ascii c c2 c3 :
  (N_of_ascii c < 128)%N -> JS.isWhiteSpace3 c c2 c3 = false.
Proof.
  intros H. unfold JS.isWhiteSpace3. cbv zeta.
  destruct (N.eqb_spec (N_of_ascii c) 225) as [E|_]; [lia|].
  destruct (N.eqb_spec (N_of_ascii c) 226) as [E|_]; [lia|].
  destruct (N.eqb_spec (N_of_ascii c) 227) as [E|_]; [lia|].
  destruct (N.eqb_spec (N_of_ascii c) 239) as [E|_]; [lia|].
  reflexivity.
Qed.

Lemma trimStart_ascii c s :
  (N_of_ascii c < 128)%N -> JS.isWhiteSpace c = false ->
  JS.trimStart (String c s) = String c s.
Proof.
  intros Hc Hw. apply trimStart_stops; [exact Hw | |]; intros.
  - apply isWhiteSpace2_ascii, Hc.
  - apply isWhiteSpace3_ascii, Hc.
Qed.

Lemma parseInt_string_of_uint d :
  JS.parseInt (NilEmpty.string_of_uint d) = JS.digits 10 None (NilEmpty.string_of_uint d).
Proof.
  unfold JS.parseInt.
  destruct d as [|d|d|d|d|d|d|d|d|d|d];
    cbn [NilEmpty.string_of_uint]; try reflexivity;
    rewrite trimStart_ascii by (vm_compute; reflexivity).
  1: destruct d; cbn [NilEmpty.string_of_uint].
  all: cbv beta iota;
    match goal with
    | |- _ <$> ?o = _ => destruct o as [v|]; cbn [fmap option_fmap option_map];
                         [f_equal; lia | reflexivity]
    end.
Qed.

Lemma parseInt_numberToString n :
  JS.parseInt (JSExtra.numberToString n) = Some (Z.of_nat n).
Proof.
  unfold JSExtra.numberToString.
  rewrite parseInt_string_of_uint, digits_None_string_of_uint.
  - rewrite Unsigned.of_to. reflexivity.
  - intros Hnil. pose proof (Unsigned.of_to n) as Hn. rewrite Hnil in Hn.
    cbn in Hn. subst n. discriminate Hnil.
Qed.

Lemma append_nil_r s : s +:+ EmptyString = s.
Proof.
  induction s as [|c s IH]; [reflexivity|].
  change (String c s +:+ EmptyString) with (String c (s +:+ EmptyString)).
  rewrite IH. reflexivity.
Qed.

Lemma append_assoc (s1 s2 s3 : string) : (s1 +:+ s2) +:+ s3 = s1 +:+ (s2 +:+ s3).
Proof.
  induction s1 as [|c s1 IH]; [reflexivity|].
  change (String c (s1 +:+ s2) +:+ s3 = String c (s1 +:+ (s2 +:+ s3))).
  change (String c ((s1 +:+ s2) +:+ s3) = String c (s1 +:+ (s2 +:+ s3))).
  rewrite IH. reflexivity.
Qed.

(** Without an occurrence of the separator there is one piece. *)
Lemma split_go_no_separator sep cur s :
  JSExtra.contains sep s = false -> JS.split_go sep 0 cur s = [cur +:+ s].
Proof.
  revert cur. induction s as [|c s IH]; intros cur H.
  - simpl. rewrite append_nil_r. reflexivity.
  - cbn [JSExtra.contains] in H. apply orb_false_iff in H as [Hp Hs].
    cbn [JS.split_go]. rewrite Hp, (IH _ Hs), append_assoc. reflexivity.
Qed.

(** ["_Q"] never starts on a decimal digit. *)
Lemma contains_Q_string_of_uint d :
  JSExtra.contains "_Q" (NilEmpty.string_of_uint d) = false.
Proof. induction d; cbn [NilEmpty.string_of_uint JSExtra.contains]; [reflexivity|..]; exact IHd. Qed.

Lemma prefix_Q_cons c s :
  String.prefix "_Q" (String c s) = true <->
  c = "_"%char /\ exists s', s = String "Q" s'.
Proof.
  cbn [String.prefix]. destruct (ascii_dec "_" c) as [<-|Hc].
  - destruct s as [|c2 s']; cbn [String.prefix].
    + split; [discriminate | intros [_ [? ?]]; discriminate].
    + destruct (ascii_dec "Q" c2) as [<-|Hc2].
      * split; [intros _; split; [reflexivity | eexists; reflexivity] | intros _; destruct s'; reflexivity].
      * split; [discriminate | intros [_ [s'' [= ? ?]]]; congruence].
  - split; [discriminate | intros [? _]; congruence].
Qed.

(** The first piece ends at the first ["_Q"]. *)
Lemma split_go_first_separator cur t rest :
  JSExtra.contains "_Q" t = false ->
  JS.split_go "_Q" 0 cur (t +:+ "_Q" +:+ rest)
  = (cur +:+ t) :: JS.split_go "_Q" 0 EmptyString rest.
Proof.
  revert cur. induction t as [|c t IH]; intros cur H.
  - rewrite append_nil_r. destruct rest; reflexivity.
  - cbn [JSExtra.contains] in H. apply orb_false_iff in H as [Hp Hs].
    change (String c t +:+ "_Q" +:+ rest) with (String c (t +:+ "_Q" +:+ rest)).
    cbn [JS.split_go].
    destruct (String.prefix "_Q" (String c (t +:+ "_Q" +:+ rest))) eqn:Hpre.
    + exfalso. apply prefix_Q_cons in Hpre as [-> [s' Hs']].
      destruct t as [|c2 t]; [discriminate Hs'|].
      injection Hs' as -> _.
      assert (String.prefix "_Q" (String "_" (String "Q" t)) = true)
        by (apply prefix_Q_cons; split; [reflexivity | eexists; reflexivity]).
      congruence.
    + rewrite (IH _ Hs), append_assoc. reflexivity.
Qed.

(** Decoding an issued id: the index comes back when the topic id does not
    contain ["_Q"]. *)
Lemma qIndex_questionId topic_id idx :
  JSExtra.contains "_Q" topic_id = false ->
  qIndex (Quiz.questionId topic_id idx) = Some (Z.of_nat idx).
Proof.
  intros H. unfold qIndex, Quiz.questionId, JS.split.
  rewrite (split_go_first_separator EmptyString topic_id _ H).
  rewrite split_go_no_separator by apply contains_Q_string_of_uint.
  change (JS.parseIntOpt (_ !! 1%nat))
    with (JS.parseInt (JSExtra.numberToString (idx + 1))).
  rewrite parseInt_numberToString. cbn [fmap option_fmap option_map]. f_equal. lia.
Qed.

Lemma matchedTopic_Some subjects topicId subject topic :
  matchedTopic subjects topicId = Some (subject, topic) ->
  In subject subjects /\ In topic (Bank.topics subject) /\ Bank.topic_id topic = topicId.
Proof.
  induction subjects as [|s rest IH]; simpl; [discriminate|].
  destruct (findTopic topicId s) as [t|] eqn:Hfind.
  - intros [= <- <-]. apply find_some in Hfind as [Hin Heq].
    apply String.eqb_eq in Heq. auto.
  - intros H. destruct (IH H) as (? & ? & ?). auto.
Qed.

Lemma matchedTopic_None subjects topicId :
  matchedTopic subjects topicId = None ->
  forall subject topic, In subject subjects -> In topic (Bank.topics subject) ->
    Bank.topic_id topic <> topicId.
Proof.
  induction subjects as [|s rest IH]; simpl; [intros _ ? ? []|].
  destruct (findTopic topicId s) as [t|] eqn:Hfind; [discriminate|].
  intros H subject topic [<- | Hin] Ht.
  - intros Heq. apply String.eqb_eq in Heq.
    exact (eq_true_false_abs _ Heq (find_none _ _ Hfind topic Ht)).
  - exact (IH H subject topic Hin Ht).
Qed.

Lemma answerAt_questionId topic idx :
  JSExtra.contains "_Q" (Bank.topic_id topic) = false ->
  answerAt topic (Quiz.questionId (Bank.topic_id topic) idx)
  = Bank.answer <$> Bank.questions topic !! idx.
Proof.
  intros H. unfold answerAt. rewrite (qIndex_questionId _ _ H).
  unfold JS.index. destruct (Z.ltb_spec (Z.of_nat idx) 0) as [?|_]; [lia|].
  rewrite Nat2Z.id. reflexivity.
Qed.

(** X1. The ids issued by [GET /api/quiz/topics/:topicId] decode in the
    submit handler to the question they were issued for, when the topic id
    does not contain ["_Q"]: the answer looked up for an issued id is the
    answer listed beside it, and submitting that answer (when it is not
    empty, for a registered user, no storage call rejecting) is graded
    correct. *)
Theorem X1_issued_ids_resolve env data userId tid detail view st stats0 elapsed :
  Quiz.getTopic data tid = Success detail ->
  JSExtra.contains "_Q" tid = false ->
  In view (Quiz.td_questions detail) ->
  correctAnswer (lookup (Bank.subjects data) tid (Quiz.qv_id view))
  = Some (Quiz.qv_answer view) /\
  (Quiz.qv_answer view <> EmptyString ->
   (forall op, rejects env op = false) ->
   userColl st !! userId = Some stats0 ->
   exists st' d,
     submitAnswerRoute env data userId
       {| topicId := tid; questionId := Quiz.qv_id view;
          userAnswer := Quiz.qv_answer view; timeTaken := elapsed |} st
     = (st', Success d) /\
     r_isCorrect d = true /\ r_correctAnswer d = Quiz.qv_answer view).
Proof.
  unfold Quiz.getTopic. intros Hget Hsep Hin.
  destruct (matchedTopic (Bank.subjects data) tid) as [[subject topic]|] eqn:Hm;
    [|discriminate].
  injection Hget as <-. cbn [Quiz.td_questions] in Hin.
  destruct (matchedTopic_Some _ _ _ _ Hm) as (_ & _ & Hid).
  apply list_elem_of_In, elem_of_lookup_imap_1 in Hin as (idx & question & -> & Hq).
  cbn [Quiz.qv_id Quiz.qv_answer].
  assert (Hlook : correctAnswer (lookup (Bank.subjects data) tid
                                   (Quiz.questionId (Bank.topic_id topic) idx))
                  = Some (Bank.answer question)).
  { rewrite lookup_matchedTopic, Hm. cbn [correctAnswer].
    rewrite answerAt_questionId by (rewrite Hid; exact Hsep).
    rewrite Hq. reflexivity. }
  split; [exact Hlook|].
  intros Hne Hok Huser.
  set (body := {| topicId := tid;
                  questionId := Quiz.questionId (Bank.topic_id topic) idx;
                  userAnswer := Bank.answer question; timeTaken := elapsed |}).
  destruct (submitAnswerRoute_succeeds env data userId body st (Bank.answer question) stats0
              Hlook Hne Hok Huser) as (st' & d & Hrun).
  exists st', d. split; [exact Hrun|].
  rewrite submitAnswerRoute_outcome in Hrun.
  apply outcome_Success_inv in Hrun as (stats1 & _ & _ & _ & ->).
  unfold successData, verdict, answerOf; cbn [r_isCorrect r_correctAnswer].
  change (questionId body) with (Quiz.questionId (Bank.topic_id topic) idx).
  change (topicId body) with tid.
  rewrite Hlook. cbn [default from_option]. unfold id. split; [|reflexivity].
  apply isCorrect_iff. reflexivity.
Qed.

Lemma contains_first_occurrence s :
  JSExtra.contains "_Q" s = true ->
  exists a b, s = a +:+ "_Q" +:+ b /\ JSExtra.contains "_Q" a = false.
Proof.
  induction s as [|c s IH]; [discriminate|].
  cbn [JSExtra.contains]. destruct (String.prefix "_Q" (String c s)) eqn:Hp.
  - intros _. apply prefix_Q_cons in Hp as [-> [s' ->]].
    exists EmptyString, s'. split; reflexivity.
  - cbn [orb]. intros Hc. destruct (IH Hc) as (a & b & -> & Ha).
    exists (String c a), b. split; [reflexivity|].
    cbn [JSExtra.contains]. rewrite Ha, orb_false_r.
    destruct (String.prefix "_Q" (String c a)) eqn:Hpa; [|reflexivity].
    apply prefix_Q_cons in Hpa as [-> [a' ->]].
    assert (String.prefix "_Q" (String "_" (String "Q" a' +:+ "_Q" +:+ b)) = true)
      by (apply prefix_Q_cons; split; [reflexivity | eexists; reflexivity]).
    congruence.
Qed.

(** The piece read before the first ["_Q"] of [b +:+ "_Q" +:+ rest] does not
    depend on [rest]. *)
Lemma split_go_head_fixed cur b :
  exists piece, forall rest, exists pieces,
    JS.split_go "_Q" 0 cur (b +:+ "_Q" +:+ rest) = piece :: pieces.
Proof.
  destruct (JSExtra.contains "_Q" b) eqn:Hb.
  - destruct (contains_first_occurrence b Hb) as (a & b' & -> & Ha).
    exists (cur +:+ a). intros rest. eexists.
    rewrite append_assoc.
    change (("_Q" +:+ b') +:+ "_Q" +:+ rest) with ("_Q" +:+ (b' +:+ "_Q" +:+ rest)).
    apply (split_go_first_separator cur a _ Ha).
  - exists (cur +:+ b). intros rest. eexists.
    apply (split_go_first_separator cur b rest Hb).
Qed.

(** X2. When the topic id contains ["_Q"], the index decoded from an issued
    id does not depend on the question the id was issued for: all the ids of
    the topic are looked up to the same result. *)
Theorem X2_ids_collide_when_topic_id_has_separator data topicId (i j : nat) :
  JSExtra.contains "_Q" topicId = true ->
  qIndex (Quiz.questionId topicId i) = qIndex (Quiz.questionId topicId j) /\
  lookup (Bank.subjects data) topicId (Quiz.questionId topicId i)
  = lookup (Bank.subjects data) topicId (Quiz.questionId topicId j).
Proof.
  intros H.
  assert (Hq : qIndex (Quiz.questionId topicId i) = qIndex (Quiz.questionId topicId j)).
  { destruct (contains_first_occurrence topicId H) as (a & b & -> & Ha).
    destruct (split_go_head_fixed EmptyString b) as (piece & Hpiece).
    unfold qIndex, Quiz.questionId, JS.split.
    rewrite !append_assoc.
    change (("_Q" +:+ b) +:+ "_Q" +:+ ?r) with ("_Q" +:+ (b +:+ "_Q" +:+ r)).
    rewrite !(split_go_first_separator EmptyString a _ Ha).
    destruct (Hpiece (JSExtra.numberToString (i + 1))) as (pi & ->).
    destruct (Hpiece (JSExtra.numberToString (j + 1))) as (pj & ->).
    reflexivity. }
  split; [exact Hq|].
  rewrite !lookup_matchedTopic.
  destruct (matchedTopic (Bank.subjects data) topicId) as [[subject topic]|];
    [|reflexivity].
  unfold answerAt. rewrite Hq. reflexivity.
Qed.

Lemma questionId_inj topic_id (i j : nat) :
  Quiz.questionId topic_id i = Quiz.questionId topic_id j -> i = j.
Proof.
  unfold Quiz.questionId. intros H.
  apply String.app_inj in H. apply (String.app_inj "_Q") in H.
  pose proof (parseInt_numberToString (i + 1)) as Hi.
  rewrite H, parseInt_numberToString in Hi. injection Hi as Hi. lia.
Qed.

(** X3. The question ids listed by [GET /api/quiz/topics/:topicId] are
    pairwise distinct, and there is one per question of the topic. *)
Theorem X3_issued_ids_distinct data tid detail :
  Quiz.getTopic data tid = Success detail ->
  NoDup (map Quiz.qv_id (Quiz.td_questions detail)) /\
  exists subject topic,
    matchedTopic (Bank.subjects data) tid = Some (subject, topic) /\
    length (Quiz.td_questions detail) = length (Bank.questions topic).
Proof.
  unfold Quiz.getTopic.
  destruct (matchedTopic (Bank.subjects data) tid) as [[subject topic]|] eqn:Hm;
    [|discriminate].
  intros [= <-]. cbn [Quiz.td_questions]. split.
  - apply NoDup_alt. intros i j x Hi Hj.
    change (map Quiz.qv_id ?l) with (Quiz.qv_id <$> l) in Hi, Hj.
    rewrite list_lookup_fmap, list_lookup_imap in Hi, Hj.
    destruct (Bank.questions topic !! i); [|discriminate].
    destruct (Bank.questions topic !! j); [|discriminate].
    cbn in Hi, Hj. injection Hi as <-. injection Hj as Hj.
    symmetry. exact (questionId_inj _ _ _ Hj).
  - exists subject, topic. split; [reflexivity | apply length_imap].
Qed.

Lemma floor_of_random random (n : Z) :
  (0 <= random)%Q -> (random < 1)%Q -> 0 < n ->
  0 <= Qfloor (random * inject_Z n) < n.
Proof.
  intros H0 H1 Hn.
  assert (Hq : (0 < inject_Z n)%Q) by (change 0%Q with (inject_Z 0); rewrite <- Zlt_Qlt; lia).
  split.
  - change 0 with (Qfloor 0). apply Qfloor_resp_le. nra.
  - rewrite Zlt_Qlt. eapply Qle_lt_trans; [apply Qfloor_le|]. nra.
Qed.

Lemma includes_In arr x : JSExtra.includes arr x = true <-> In x arr.
Proof.
  unfold JSExtra.includes. rewrite existsb_exists. split.
  - intros (y & Hy & Heq). apply String.eqb_eq in Heq. subst. exact Hy.
  - intros H. exists x. split; [exact H | apply String.eqb_refl].
Qed.

(** X4. For every value drawn by [Math.random()] (a number in [0,1)), the
    random-question route on a known topic, with [answered] absent or a
    string, never fails and never serves a question whose id is in the
    [answered] list: it reports completion exactly when the id of every
    question of the topic is in the list, and otherwise serves a question of
    the topic under the id issued for its index. With [answered] repeated or
    written with brackets (an array or an object), the route answers 500. *)
Theorem X4_random_question_is_unanswered random data tid answered subject topic :
  (0 <= random)%Q -> (random < 1)%Q ->
  matchedTopic (Bank.subjects data) tid = Some (subject, topic) ->
  (forall printed, answered = QStructured printed ->
     Quiz.getRandomQuestion random data tid answered
     = Failure 500 "req.query.answered.split is not a function") /\
  ((answered = QAbsent \/ exists s, answered = QString s) ->
   exists ids,
     Quiz.answeredIds answered = inr ids /\
     (answered = QAbsent \/ answered = QString "" -> ids = []) /\
     (forall s, answered = QString s -> s <> EmptyString -> ids = JS.split "," s) /\
     let allAnswered :=
       forall idx, (idx < length (Bank.questions topic))%nat ->
         In (Quiz.questionId (Bank.topic_id topic) idx) ids in
     match Quiz.getRandomQuestion random data tid answered with
     | Success (Quiz.Completed _ total) =>
         total = length (Bank.questions topic) /\ allAnswered
     | Success (Quiz.Card card) =>
         ~ allAnswered /\
         ~ In (Quiz.qc_id card) ids /\
         Quiz.qc_id card = Quiz.questionId (Bank.topic_id topic) (Quiz.qc_questionIndex card) /\
         exists question,
           Bank.questions topic !! Quiz.qc_questionIndex card = Some question /\
           Quiz.qc_question card = Bank.q question /\
           Quiz.qc_options card = Bank.options question
     | Failure _ _ => False
     end).
Proof.
  intros H0 H1 Hm. split.
  { intros printed ->. unfold Quiz.getRandomQuestion. rewrite Hm. reflexivity. }
  intros Hstring.
  assert (Hids : exists ids, Quiz.answeredIds answered = inr ids /\
             (answered = QAbsent \/ answered = QString "" -> ids = []) /\
             (forall s, answered = QString s -> s <> EmptyString -> ids = JS.split "," s)).
  { destruct Hstring as [-> | [s ->]].
    - exists []. split; [reflexivity|]. split; [reflexivity|]. discriminate.
    - destruct s as [|c s].
      + exists []. split; [reflexivity|]. split; [reflexivity|].
        intros s [= <-] Hne. congruence.
      + exists (JS.split "," (String c s)). split; [reflexivity|].
        split; [intros [? | ?]; discriminate|]. intros s' [= <-] _. reflexivity. }
  destruct Hids as (ids & Hids & Hempty & Hsplit).
  exists ids. split; [exact Hids|]. split; [exact Hempty|]. split; [exact Hsplit|].
  intros allAnswered. unfold Quiz.getRandomQuestion. rewrite Hm, Hids.
  set (available := Quiz.availableIndices topic ids).
  assert (Hav : forall idx, In idx available <->
            (idx < length (Bank.questions topic))%nat /\
            ~ In (Quiz.questionId (Bank.topic_id topic) idx) ids).
  { intros idx. unfold available, Quiz.availableIndices.
    rewrite filter_In, in_seq, negb_true_iff, <- not_true_iff_false, includes_In.
    split; intros [? ?]; split; (lia || assumption). }
  destruct (Nat.eqb_spec (length available) 0) as [Hlen|Hlen].
  - split; [reflexivity|]. intros idx Hidx.
    destruct (in_dec string_dec (Quiz.questionId (Bank.topic_id topic) idx) ids)
      as [Hin|Hnot]; [exact Hin|].
    apply length_zero_iff_nil in Hlen.
    assert (In idx available) by (apply Hav; auto). rewrite Hlen in H. destruct H.
  - pose proof (floor_of_random random (Z.of_nat (length available)) H0 H1 ltac:(lia))
      as [Hlo Hhi].
    set (k := Qfloor (random * inject_Z (Z.of_nat (length available)))) in *.
    unfold JS.index. destruct (Z.ltb_spec k 0) as [?|_]; [lia|].
    destruct (lookup_lt_is_Some_2 available (Z.to_nat k) ltac:(lia)) as [r Hr].
    rewrite Hr.
    assert (Hin : In r available)
      by (apply list_elem_of_In, list_elem_of_lookup; eauto).
    apply Hav in Hin as [Hrange Hnot].
    destruct (lookup_lt_is_Some_2 (Bank.questions topic) r Hrange) as [question Hq].
    rewrite Hq. cbn [Quiz.qc_id Quiz.qc_questionIndex Quiz.qc_question Quiz.qc_options].
    split; [intros Hall; exact (Hnot (Hall r Hrange))|].
    split; [exact Hnot|]. split; [reflexivity|].
    exists question. auto.
Qed.

(** X5. The quiz routes and the recommendation route read the same
    catalogue: [GET /api/quiz/topics/:topicId] answers 404 exactly for the
    ids that no entry scored by the recommendations carries, and the topic
    counts of [GET /api/quiz/subjects] add up to the number of entries the
    recommendations score. *)
Theorem X5_catalogues_agree data tid :
  (Quiz.getTopic data tid = Failure 404 "Topic not found" <->
   ~ exists ref, In ref (getAllTopicIds data) /\ ref_topicId ref = tid) /\
  match Quiz.getSubjects data with
  | Success summaries =>
      list_sum (map Quiz.ss_topicCount summaries) = length (getAllTopicIds data)
  | Failure _ _ => False
  end.
Proof.
  split.
  - unfold Quiz.getTopic, getAllTopicIds. split.
    + destruct (matchedTopic (Bank.subjects data) tid) as [[subject topic]|] eqn:Hm;
        [discriminate|].
      intros _ (ref & Hin & Hid).
      apply in_flat_map in Hin as (subject & Hs & Hin).
      apply in_map_iff in Hin as (topic & <- & Ht).
      exact (matchedTopic_None _ _ Hm subject topic Hs Ht Hid).
    + intros Hno.
      destruct (matchedTopic (Bank.subjects data) tid) as [[subject topic]|] eqn:Hm;
        [|reflexivity].
      exfalso. apply Hno. destruct (matchedTopic_Some _ _ _ _ Hm) as (Hs & Ht & Hid).
      exists {| ref_topicId := Bank.topic_id topic; ref_title := Bank.title topic;
                ref_subjectName := Bank.subject_name subject |}.
      split; [|exact Hid].
      apply in_flat_map. exists subject. split; [exact Hs|].
      apply in_map_iff. exists topic. split; [reflexivity | exact Ht].
  - unfold Quiz.getSubjects, getAllTopicIds.
    induction (Bank.subjects data) as [|s rest IH]; [reflexivity|].
    cbn [map List.map flat_map list_sum fold_right Quiz.ss_topicCount].
    rewrite length_app, length_map. f_equal. exact IH.
Qed.

(** X6. Every topic listed by [GET /api/quiz/subjects/:slug] is served by
    [GET /api/quiz/topics/:topicId]: following a listed topic id never ends
    in 404. *)
Theorem X6_listed_topics_are_served data slug detail summary :
  Quiz.getSubject data slug = Success detail ->
  In summary (Quiz.sd_topics detail) ->
  exists topic, Quiz.getTopic data (Quiz.ts_topicId summary) = Success topic /\
                Quiz.td_topicId topic = Quiz.ts_topicId summary.
Proof.
  unfold Quiz.getSubject.
  destruct (find _ (Bank.subjects data)) as [subject|] eqn:Hfind; [|discriminate].
  intros [= <-] Hin. cbn [Quiz.sd_topics] in Hin.
  apply in_map_iff in Hin as (topic & <- & Ht). cbn [Quiz.ts_topicId].
  apply find_some in Hfind as [Hs _].
  unfold Quiz.getTopic.
  destruct (matchedTopic (Bank.subjects data) (Bank.topic_id topic))
    as [[subject' topic']|] eqn:Hm.
  - eexists. split; [reflexivity|]. cbn [Quiz.td_topicId].
    apply (matchedTopic_Some _ _ _ _ Hm).
  - exfalso. exact (matchedTopic_None _ _ Hm subject topic Hs Ht eq_refl).
Qed.

(** ** Queries sorted and cut *)

(** The part cut off a sorted list ranks after the part kept. *)
Lemma take_sorted_split {A} (R : A -> A -> Prop) (k : nat) (l : list A) :
  StronglySorted R l ->
  forall a b, In a (take k l) -> In b (drop k l) -> R a b.
Proof.
  intros Hs a b Ha Hb.
  apply list_elem_of_In, list_elem_of_lookup in Ha as [i Hi].
  apply list_elem_of_In, list_elem_of_lookup in Hb as [j Hj].
  apply lookup_take_Some in Hi as [Hi Hik].
  rewrite lookup_drop in Hj.
  exact (StronglySorted_lookup R l Hs i (k + j) a b ltac:(lia) Hi Hj).
Qed.

Lemma take_sorted_complete {A} (R : A -> A -> Prop) (k : nat) (l : list A) x :
  StronglySorted R l -> In x l ->
  In x (take k l) \/ (length (take k l) = k /\ forall y, In y (take k l) -> R y x).
Proof.
  intros Hs Hx. rewrite <- (take_drop k l) in Hx. apply in_app_or in Hx as [Hx|Hx].
  - left. exact Hx.
  - right. split.
    + rewrite length_take. apply Nat.min_l.
      destruct (Nat.le_gt_cases k (length l)) as [?|Hlt]; [assumption|].
      rewrite drop_ge in Hx by lia. destruct Hx.
    + intros y Hy. exact (take_sorted_split R k l Hs y x Hy Hx).
Qed.

Lemma newestFirst_sorted userId ledger : StronglySorted notOlder (newestFirst userId ledger).
Proof.
  apply sortBy_sorted; unfold notOlder.
  - intros x y z Hxy Hyz. lia.
  - intros x y H. apply Z.ltb_ge in H. exact H.
  - intros x y H. apply Z.ltb_lt in H. lia.
Qed.

Lemma newestFirst_In userId ledger a :
  In a (newestFirst userId ledger) <-> In a ledger /\ Attempt.userId a = userId.
Proof.
  unfold newestFirst. rewrite <- !list_elem_of_In, sortBy_Permutation, !list_elem_of_In.
  rewrite filter_In, N.eqb_eq. reflexivity.
Qed.

(** X7. The "recent attempts" queries ([.sort({ timestamp: -1 }).limit(k)],
    with k = 100 for the recommendations and k = 10 for my-progress) return
    at most k attempts, all of them attempts of the user, the newest first,
    and no attempt of the user left out is newer than one returned; all the
    attempts of the user are returned when there are at most k. *)
Theorem X7_recent_attempts_are_the_newest (k : nat) userId ledger :
  let recent := take k (newestFirst userId ledger) in
  let mine := List.filter (fun a => N.eqb (Attempt.userId a) userId) ledger in
  recentOf userId ledger = take 100 (newestFirst userId ledger) /\
  length recent = Nat.min k (length mine) /\
  (forall a, In a recent -> In a ledger /\ Attempt.userId a = userId) /\
  (forall (i j : nat) a b, (i < j)%nat -> recent !! i = Some a -> recent !! j = Some b ->
     Attempt.timestamp b <= Attempt.timestamp a) /\
  ((length mine <= k)%nat -> recent ≡ₚ mine) /\
  exists older,
    recent ++ older ≡ₚ mine /\
    forall a b, In a recent -> In b older -> Attempt.timestamp b <= Attempt.timestamp a.
Proof.
  intros recent mine.
  pose proof (newestFirst_sorted userId ledger) as Hsorted.
  split; [reflexivity|]. split; [|split; [|split; [|split]]].
  - unfold recent. rewrite length_take. unfold newestFirst. rewrite length_sortBy. reflexivity.
  - intros a Ha. apply newestFirst_In.
    apply list_elem_of_In. apply list_elem_of_In in Ha.
    exact (subseteq_take k _ _ Ha).
  - intros i j a b Hij Hi Hj.
    apply lookup_take_Some in Hi as [Hi _]. apply lookup_take_Some in Hj as [Hj _].
    exact (StronglySorted_lookup notOlder _ Hsorted i j a b Hij Hi Hj).
  - intros Hk. unfold recent. rewrite take_ge.
    + apply sortBy_Permutation.
    + unfold newestFirst. rewrite length_sortBy. exact Hk.
  - exists (drop k (newestFirst userId ledger)). split.
    + unfold recent. rewrite take_drop. apply sortBy_Permutation.
    + intros a b Ha Hb. exact (take_sorted_split notOlder k _ Hsorted a b Ha Hb).
Qed.

(** ** The records of a user *)

Lemma recordsOf_In userId st topicId p :
  In (topicId, p) (recordsOf userId st) <-> findProgress userId topicId st = Some p.
Proof.
  unfold recordsOf. rewrite <- list_elem_of_In, elem_of_map_to_list, progressMap_lookup.
  reflexivity.
Qed.

Lemma fold_left_mastery_bounds (l : list (string * Progress.t)) (acc : Q) :
  (forall r, In r l -> (0 <= Progress.mastery r.2 <= 1)%Q) ->
  (acc <= fold_left (fun a p => a + Progress.mastery p.2) l acc
       <= acc + inject_Z (Z.of_nat (length l)))%Q.
Proof.
  revert acc. induction l as [|r l IH]; intros acc H.
  - cbn [fold_left length]. change (inject_Z (Z.of_nat 0)) with 0%Q. lra.
  - cbn [fold_left length].
    assert (Hr : (0 <= Progress.mastery r.2 <= 1)%Q) by (apply H; left; reflexivity).
    specialize (IH (acc + Progress.mastery r.2)%Q (fun r' Hr' => H r' (or_intror Hr'))).
    rewrite Nat2Z.inj_succ. unfold Z.succ. rewrite inject_Z_plus.
    change (inject_Z 1) with 1%Q. lra.
Qed.

Lemma averageMastery_range (l : list (string * Progress.t)) :
  (forall r, In r l -> (0 <= Progress.mastery r.2 <= 1)%Q) ->
  (0 <= averageMastery l <= 1)%Q.
Proof.
  intros H. unfold averageMastery. destruct l as [|r l]; [lra|].
  set (rs := r :: l) in *.
  pose proof (fold_left_mastery_bounds rs 0 H) as Hsum.
  set (total := fold_left _ rs 0%Q) in *.
  assert (Hn : (0 < inject_Z (Z.of_nat (length rs)))%Q).
  { change 0%Q with (inject_Z 0). rewrite <- Zlt_Qlt. unfold rs. cbn [length]. lia. }
  set (n := inject_Z (Z.of_nat (length rs))) in *.
  destruct (Qeq_bool (total / n) 0); [lra|].
  split.
  - apply Qle_shift_div_l; [exact Hn | lra].
  - apply Qle_shift_div_r; [exact Hn | lra].
Qed.

(** X8. [GET /api/progress/my-progress] lists exactly the Progress records
    of the user, by non-increasing mastery, and counts them in
    [totalTopics]; [averageMastery] is 0 when the user has no record (no NaN
    is sent) and lies in [0,1] when every stored mastery does; at most 10
    attempts are listed. *)
Theorem X8_my_progress env userId st st' r :
  myProgressRoute env userId st = (st', Success r) ->
  st' = st /\
  (forall topicId p, In (topicId, p) (mp_progress r) <->
                     findProgress userId topicId st = Some p) /\
  mp_totalTopics r = size (default ∅ (progressColl st !! userId)) /\
  (forall (i j : nat) a b, (i < j)%nat ->
     mp_progress r !! i = Some a -> mp_progress r !! j = Some b ->
     (Progress.mastery b.2 <= Progress.mastery a.2)%Q) /\
  (progressColl st !! userId = None -> mp_averageMastery r = 0%Q) /\
  ((forall topicId p, findProgress userId topicId st = Some p ->
      (0 <= Progress.mastery p <= 1)%Q) ->
   (0 <= mp_averageMastery r <= 1)%Q) /\
  (length (mp_recentAttempts r) <= 10)%nat.
Proof.
  unfold myProgressRoute, route, getMyProgress, bind, storage, ret.
  destruct (rejects env ProgressFind); [discriminate|].
  destruct (rejects env AttemptFind); [discriminate|].
  intros [= <- <-]. cbn [mp_progress mp_totalTopics mp_averageMastery mp_recentAttempts].
  set (sorted := JS.sortBy _ (recordsOf userId st)).
  assert (Hperm : sorted ≡ₚ recordsOf userId st) by apply sortBy_Permutation.
  assert (Hin : forall topicId p, In (topicId, p) sorted <->
                                  findProgress userId topicId st = Some p).
  { intros topicId p. rewrite <- recordsOf_In, <- !list_elem_of_In, Hperm. reflexivity. }
  split; [reflexivity|]. split; [exact Hin|].
  split; [|split; [|split; [|split]]].
  - rewrite Hperm. unfold recordsOf. rewrite length_map_to_list. reflexivity.
  - intros i j a b Hij Hi Hj.
    refine (StronglySorted_lookup masteryNotLower sorted _ i j a b Hij Hi Hj).
    apply sortBy_sorted; unfold masteryNotLower.
    + intros x y z Hxy Hyz. eapply Qle_trans; eassumption.
    + intros x y H. apply Qltb_ge in H. exact H.
    + intros x y H. apply Qltb_lt in H. apply Qlt_le_weak, H.
  - intros Hnone. unfold sorted, recordsOf. rewrite Hnone. cbn [default from_option].
    rewrite map_to_list_empty. reflexivity.
  - intros Hrange. apply averageMastery_range. intros [topicId p] Hr.
    apply Hin in Hr. exact (Hrange topicId p Hr).
  - rewrite length_take. lia.
Qed.

(** ** The topic route and the reset route *)

Lemma topicProgressRoute_run env userId topicId st :
  rejects env ProgressFindOne = false ->
  rejects env AttemptFind = false ->
  topicProgressRoute env userId topicId st =
  (st, Success {| tp_progress :=
                    match findProgress userId topicId st with
                    | Some p => StoredProgress p
                    | None => DefaultProgress 0.2 0 0
                    end;
                  tp_attempts := topicHistory userId topicId (attemptColl st) |}).
Proof.
  intros H1 H2.
  unfold topicProgressRoute, route, getTopicProgress, bind, Progress_findOne, storage, ret.
  rewrite H1, H2. reflexivity.
Qed.

Lemma topicHistory_In userId topicId ledger a :
  In a (topicHistory userId topicId ledger) <->
  In a ledger /\ Attempt.userId a = userId /\ Attempt.topicId a = topicId.
Proof.
  unfold topicHistory. rewrite <- !list_elem_of_In, sortBy_Permutation, !list_elem_of_In.
  rewrite filter_In, andb_true_iff, N.eqb_eq, String.eqb_eq. reflexivity.
Qed.

Lemma length_topicHistory_app userId topicId ledger a :
  Attempt.userId a = userId -> Attempt.topicId a = topicId ->
  length (topicHistory userId topicId (ledger ++ [a]))
  = S (length (topicHistory userId topicId ledger)).
Proof.
  intros Hu Ht. unfold topicHistory. rewrite !length_sortBy, List.filter_app, length_app.
  cbn [List.filter]. rewrite Hu, Ht, N.eqb_refl, String.eqb_refl. cbn. lia.
Qed.

(** X9. After a successful submission, [GET /api/progress/topic/:topicId]
    for the same user and topic shows the stored record with the mastery,
    attempts and corrects that the submission returned, and its list of
    attempts holds the attempt just recorded, one more than before. *)
Theorem X9_topic_route_after_submit env env' data userId body st st' d :
  submitAnswerRoute env data userId body st = (st', Success d) ->
  rejects env' ProgressFindOne = false ->
  rejects env' AttemptFind = false ->
  exists view,
    topicProgressRoute env' userId (topicId body) st' = (st', Success view) /\
    viewMastery (tp_progress view) = r_mastery d /\
    viewAttempts (tp_progress view) = r_attempts d /\
    viewCorrects (tp_progress view) = r_corrects d /\
    (exists a, In a (tp_attempts view) /\
               Attempt.questionId a = questionId body /\
               Attempt.isCorrect a = r_isCorrect d) /\
    length (tp_attempts view)
    = S (length (topicHistory userId (topicId body) (attemptColl st))).
Proof.
  rewrite submitAnswerRoute_outcome. intros Hrun H1 H2.
  set (found := lookup _ _ _) in *.
  apply outcome_Success_inv in Hrun as (stats0 & _ & _ & -> & ->).
  eexists. split; [apply topicProgressRoute_run; assumption|].
  rewrite findProgress_afterStats.
  cbn [tp_progress tp_attempts viewMastery viewAttempts viewCorrects successData
       r_mastery r_attempts r_corrects r_isCorrect].
  assert (Hledger : attemptColl (afterStats env userId body found st stats0)
                    = attemptColl st ++ [attemptRecord env userId body found])
    by apply attemptColl_afterCreate.
  rewrite Hledger.
  split; [reflexivity|]. split; [reflexivity|]. split; [reflexivity|]. split.
  - exists (attemptRecord env userId body found). split; [|split; reflexivity].
    apply topicHistory_In. split; [|split; reflexivity].
    apply in_or_app. right. left. reflexivity.
  - apply length_topicHistory_app; reflexivity.
Qed.

Lemma findProgress_deleteProgress userId topicId st :
  findProgress userId topicId (deleteProgress userId topicId st) = None.
Proof.
  unfold findProgress, deleteProgress; cbn [progressColl].
  rewrite lookup_alter_eq. destruct (progressColl st !! userId); [|reflexivity].
  cbn. apply lookup_delete_eq.
Qed.

Lemma findProgress_deleteProgress_other userId topicId userId' topicId' st :
  (userId', topicId') <> (userId, topicId) ->
  findProgress userId' topicId' (deleteProgress userId topicId st)
  = findProgress userId' topicId' st.
Proof.
  intros Hne. unfold findProgress, deleteProgress; cbn [progressColl].
  destruct (decide (userId = userId')) as [<-|Hu].
  - rewrite lookup_alter_eq. destruct (progressColl st !! userId); [|reflexivity].
    cbn. apply lookup_delete_ne. congruence.
  - rewrite lookup_alter_ne by exact Hu. reflexivity.
Qed.

(** A reset keeps the records without a last review at the initial mastery:
    it removes a record and writes none. *)
Lemma unreviewedAreFresh_reset rejected userId topicId st :
  unreviewedAreFresh st ->
  unreviewedAreFresh (fst (resetTopicRoute rejected userId topicId st)).
Proof.
  intros Hst. unfold resetTopicRoute, route, resetTopic, bind, storageIf, ret.
  destruct rejected; [exact Hst|]. cbn [fst].
  intros u t p Hp Hnone.
  destruct (decide ((u, t) = (userId, topicId))) as [[= -> ->]|Hne].
  - rewrite findProgress_deleteProgress in Hp. discriminate.
  - rewrite findProgress_deleteProgress_other in Hp by exact Hne.
    exact (Hst u t p Hp Hnone).
Qed.

(** X10. [DELETE /api/progress/topic/:topicId/reset] removes the Progress
    record of that user and topic and nothing else: every other record, the
    attempt ledger and the stats of the users stay as they were, and a second
    reset changes nothing more. Afterwards the topic route shows the default
    progress (0.2, 0, 0) beside the unchanged list of the earlier attempts.
    When the deletion is rejected the route answers 500 and the store is
    unchanged. *)
Theorem X10_reset_removes_one_record env userId topicId st :
  rejects env ProgressFindOne = false ->
  rejects env AttemptFind = false ->
  let st' := fst (resetTopicRoute false userId topicId st) in
  snd (resetTopicRoute false userId topicId st) = Success "Topic progress reset successfully"%string /\
  findProgress userId topicId st' = None /\
  (forall userId' topicId', (userId', topicId') <> (userId, topicId) ->
     findProgress userId' topicId' st' = findProgress userId' topicId' st) /\
  attemptColl st' = attemptColl st /\ userColl st' = userColl st /\
  resetTopicRoute false userId topicId st' = (st', Success "Topic progress reset successfully"%string) /\
  topicProgressRoute env userId topicId st'
  = (st', Success {| tp_progress := DefaultProgress 0.2 0 0;
                     tp_attempts := topicHistory userId topicId (attemptColl st) |}) /\
  resetTopicRoute true userId topicId st = (st, Failure 500 "storage error").
Proof.
  intros H1 H2 st'.
  assert (Hst : st' = deleteProgress userId topicId st) by reflexivity.
  split; [reflexivity|]. rewrite Hst.
  split; [apply findProgress_deleteProgress|].
  split; [intros u t Hne; apply findProgress_deleteProgress_other, Hne|].
  split; [reflexivity|]. split; [reflexivity|]. split; [|split; [|reflexivity]].
  - unfold resetTopicRoute, route, resetTopic, bind, storageIf, ret. cbn. f_equal.
    unfold deleteProgress; cbn. f_equal.
    apply map_eq. intros u. destruct (decide (userId = u)) as [<-|Hu].
    + rewrite !lookup_alter_eq. destruct (progressColl st !! userId) as [m|]; [|reflexivity].
      cbn. f_equal. apply delete_delete_eq.
    + rewrite !lookup_alter_ne by exact Hu. reflexivity.
  - rewrite (topicProgressRoute_run env userId topicId _ H1 H2).
    rewrite findProgress_deleteProgress. reflexivity.
Qed.

(** X11. A reset forgets the mastery and the counters of the topic but not
    the history: the next successful submission on the topic starts again
    from the prior 0.2 with smoothing 0.3 and counts as attempt number 1,
    whatever the record was before the reset, while the total of the user's
    stats goes on from its old value and the ledger keeps all the earlier
    attempts. *)
Theorem X11_reset_restarts_the_topic env data userId body st st2 d stats0 :
  userColl st !! userId = Some stats0 ->
  submitAnswerRoute env data userId body
    (fst (resetTopicRoute false userId (topicId body) st)) = (st2, Success d) ->
  r_mastery d = (0.3 * (if r_isCorrect d then 1 else 0) + (1 - 0.3) * 0.2)%Q /\
  r_attempts d = 1 /\
  r_corrects d = (if r_isCorrect d then 1 else 0) /\
  User.totalAttempts (r_userStats d) = User.totalAttempts stats0 + 1 /\
  exists a, attemptColl st2 = attemptColl st ++ [a].
Proof.
  intros Huser. rewrite submitAnswerRoute_outcome.
  change (fst (resetTopicRoute false userId (topicId body) st))
    with (deleteProgress userId (topicId body) st).
  set (st1 := deleteProgress userId (topicId body) st).
  set (found := lookup _ _ _). intros Hrun.
  apply outcome_Success_inv in Hrun as (stats1 & _ & Hstats & -> & ->).
  change (userColl st1) with (userColl st) in Hstats.
  rewrite Huser in Hstats. injection Hstats as <-.
  assert (Hbefore : progressBefore userId body found st1 = freshRecord found).
  { unfold progressBefore, st1. rewrite findProgress_deleteProgress. reflexivity. }
  unfold successData, progressAfter, updateProgress;
    cbn [r_mastery r_attempts r_corrects r_isCorrect r_userStats Progress.mastery
         Progress.attempts Progress.corrects].
  rewrite Hbefore. cbn [freshRecord Progress.fresh Progress.mastery Progress.attempts
                        Progress.corrects Progress.emaAlpha].
  split; [reflexivity|]. split; [reflexivity|]. split; [reflexivity|].
  split; [reflexivity|].
  eexists. apply (attemptColl_afterCreate env userId body found st1).
Qed.

(** ** Weak areas and topics ready for review *)

Lemma weakAreasRoute_inv env userId st st' l :
  weakAreasRoute env userId st = (st', Success l) ->
  st' = st /\
  l = take 5 (JS.sortBy (fun a b => JS.Qltb (Progress.mastery b.2) (Progress.mastery a.2))
                (List.filter (fun r => isWeak r.2) (recordsOf userId st))).
Proof.
  unfold weakAreasRoute, route, getWeakAreas, bind, storage, ret.
  destruct (rejects env ProgressFind); [discriminate|].
  intros [= <- <-]. split; reflexivity.
Qed.

Lemma readyForReviewRoute_inv env now userId st st' l :
  readyForReviewRoute env now userId st = (st', Success l) ->
  st' = st /\
  l = take 5 (JS.sortBy (fun a b => reviewedLater a.2 b.2)
                (List.filter (fun r => isDue now r.2) (recordsOf userId st))).
Proof.
  unfold readyForReviewRoute, route, getReadyForReview, bind, storage, ret.
  destruct (rejects env ProgressFind); [discriminate|].
  intros [= <- <-]. split; reflexivity.
Qed.

Lemma isWeak_iff p :
  isWeak p = true <-> (Progress.mastery p < 0.5)%Q /\ 3 <= Progress.attempts p.
Proof. unfold isWeak. rewrite andb_true_iff, Qltb_lt, Z.leb_le. reflexivity. Qed.

Lemma isDue_iff now p :
  isDue now p = true <->
  (0.5 <= Progress.mastery p)%Q /\
  exists t, Progress.lastReview p = Some t /\ t < now - 7 * msPerDay.
Proof.
  unfold isDue, sevenDaysAgo. rewrite andb_true_iff, Qle_bool_iff.
  change (7 * 24 * 60 * 60 * 1000) with (7 * msPerDay).
  destruct (Progress.lastReview p) as [t|].
  - rewrite Z.ltb_lt. split.
    + intros [? ?]. split; [assumption | eauto].
    + intros [? (t' & [= <-] & ?)]. auto.
  - split; [intros [_ ?]; discriminate | intros [_ (t & ? & _)]; discriminate].
Qed.

Lemma weakAreas_sound env userId st st' l topicId p :
  weakAreasRoute env userId st = (st', Success l) ->
  In (topicId, p) l ->
  findProgress userId topicId st = Some p /\
  (Progress.mastery p < 0.5)%Q /\ 3 <= Progress.attempts p.
Proof.
  intros H Hp. apply weakAreasRoute_inv in H as [-> ->].
  apply list_elem_of_In, (subseteq_take 5) in Hp.
  rewrite sortBy_Permutation in Hp.
  apply list_elem_of_In, filter_In in Hp as [Hr Hweak].
  apply recordsOf_In in Hr. apply isWeak_iff in Hweak. auto.
Qed.

Lemma readyForReview_sound env now userId st st' l topicId p :
  readyForReviewRoute env now userId st = (st', Success l) ->
  In (topicId, p) l ->
  findProgress userId topicId st = Some p /\
  (0.5 <= Progress.mastery p)%Q /\
  exists t, Progress.lastReview p = Some t /\ t < now - 7 * msPerDay.
Proof.
  intros H Hp. apply readyForReviewRoute_inv in H as [-> ->].
  apply list_elem_of_In, (subseteq_take 5) in Hp.
  rewrite sortBy_Permutation in Hp.
  apply list_elem_of_In, filter_In in Hp as [Hr Hdue].
  apply recordsOf_In in Hr. apply isDue_iff in Hdue. auto.
Qed.

(** X12. [GET /api/recommendations/weak-areas] returns at most 5 records of
    the user, each with mastery below 0.5 and at least 3 attempts, by
    non-decreasing mastery; a record of the user that qualifies and is left
    out is left out only because 5 records of no higher mastery are
    returned. *)
Theorem X12_weak_areas env userId st st' weakTopics :
  weakAreasRoute env userId st = (st', Success weakTopics) ->
  st' = st /\
  (length weakTopics <= 5)%nat /\
  (forall topicId p, In (topicId, p) weakTopics ->
     findProgress userId topicId st = Some p /\
     (Progress.mastery p < 0.5)%Q /\ 3 <= Progress.attempts p) /\
  (forall (i j : nat) a b, (i < j)%nat ->
     weakTopics !! i = Some a -> weakTopics !! j = Some b ->
     (Progress.mastery a.2 <= Progress.mastery b.2)%Q) /\
  (forall topicId p,
     findProgress userId topicId st = Some p ->
     (Progress.mastery p < 0.5)%Q -> 3 <= Progress.attempts p ->
     In (topicId, p) weakTopics \/
     (length weakTopics = 5%nat /\
      forall r, In r weakTopics -> (Progress.mastery r.2 <= Progress.mastery p)%Q)).
Proof.
  intros H. apply weakAreasRoute_inv in H as [-> ->].
  set (qualifying := List.filter (fun r => isWeak r.2) (recordsOf userId st)).
  set (sorted := JS.sortBy _ qualifying).
  assert (Hsorted : StronglySorted masteryNotHigher sorted).
  { apply sortBy_sorted; unfold masteryNotHigher.
    - intros x y z Hxy Hyz. eapply Qle_trans; eassumption.
    - intros x y H. apply Qltb_ge in H. exact H.
    - intros x y H. apply Qltb_lt in H. apply Qlt_le_weak, H. }
  assert (Hin : forall topicId p, In (topicId, p) sorted <->
            findProgress userId topicId st = Some p /\ isWeak p = true).
  { intros topicId p. unfold sorted.
    rewrite <- list_elem_of_In, sortBy_Permutation, list_elem_of_In.
    unfold qualifying. rewrite filter_In, recordsOf_In. reflexivity. }
  split; [reflexivity|]. split; [rewrite length_take; lia|].
  split; [|split].
  - intros topicId p Hp. apply list_elem_of_In, (subseteq_take 5), list_elem_of_In in Hp.
    apply Hin in Hp as [Hfind Hweak]. apply isWeak_iff in Hweak. auto.
  - intros i j a b Hij Hi Hj.
    apply lookup_take_Some in Hi as [Hi _]. apply lookup_take_Some in Hj as [Hj _].
    exact (StronglySorted_lookup masteryNotHigher sorted Hsorted i j a b Hij Hi Hj).
  - intros topicId p Hfind Hm Ha.
    assert (Hp : In (topicId, p) sorted) by (apply Hin; split; [|apply isWeak_iff]; auto).
    destruct (take_sorted_complete masteryNotHigher 5 sorted _ Hsorted Hp) as [?|[Hlen Hall]];
      [left; assumption | right].
    split; [exact Hlen|]. intros r Hr. exact (Hall r Hr).
Qed.

Lemma reviewedLater_sorted (l : list (string * Progress.t)) :
  StronglySorted reviewedNoLater (JS.sortBy (fun a b => reviewedLater a.2 b.2) l).
Proof.
  apply sortBy_sorted; unfold reviewedNoLater, reviewedLater.
  - intros x y z.
    destruct (Progress.lastReview x.2), (Progress.lastReview y.2),
      (Progress.lastReview z.2); intros; try tauto; lia.
  - intros x y. destruct (Progress.lastReview x.2), (Progress.lastReview y.2);
      try tauto; try discriminate. intros H. apply Z.ltb_ge in H. exact H.
  - intros x y. destruct (Progress.lastReview x.2), (Progress.lastReview y.2);
      try tauto; try discriminate. intros H. apply Z.ltb_lt in H. lia.
Qed.

(** X13. [GET /api/recommendations/ready-for-review] returns at most 5
    records of the user, each with mastery at least 0.5 and a last review
    more than 7 days before the clock of the request, the longest-neglected
    first; a record never reviewed is never returned; and no topic is
    returned by both this route and the weak-areas route. *)
Theorem X13_ready_for_review env now userId st st' reviewTopics :
  readyForReviewRoute env now userId st = (st', Success reviewTopics) ->
  st' = st /\
  (length reviewTopics <= 5)%nat /\
  (forall topicId p, In (topicId, p) reviewTopics ->
     findProgress userId topicId st = Some p /\
     (0.5 <= Progress.mastery p)%Q /\
     exists t, Progress.lastReview p = Some t /\ t < now - 7 * msPerDay) /\
  (forall (i j : nat) a b t u, (i < j)%nat ->
     reviewTopics !! i = Some a -> reviewTopics !! j = Some b ->
     Progress.lastReview a.2 = Some t -> Progress.lastReview b.2 = Some u -> t <= u) /\
  (forall env' weakTopics topicId p q,
     weakAreasRoute env' userId st = (st, Success weakTopics) ->
     In (topicId, p) reviewTopics -> ~ In (topicId, q) weakTopics).
Proof.
  intros H. apply readyForReviewRoute_inv in H as [-> ->].
  set (sorted := JS.sortBy _ (List.filter (fun r => isDue now r.2) (recordsOf userId st))).
  assert (Hin : forall topicId p, In (topicId, p) (take 5 sorted) ->
            findProgress userId topicId st = Some p /\ isDue now p = true).
  { intros topicId p Hp. apply list_elem_of_In, (subseteq_take 5) in Hp.
    unfold sorted in Hp. rewrite sortBy_Permutation in Hp.
    apply list_elem_of_In, filter_In in Hp as [Hr Hd].
    apply recordsOf_In in Hr. auto. }
  split; [reflexivity|]. split; [rewrite length_take; lia|].
  split; [|split].
  - intros topicId p Hp. apply Hin in Hp as [Hfind Hdue].
    apply isDue_iff in Hdue. auto.
  - intros i j a b t u Hij Hi Hj Ht Hu.
    apply lookup_take_Some in Hi as [Hi _]. apply lookup_take_Some in Hj as [Hj _].
    pose proof (StronglySorted_lookup reviewedNoLater sorted (reviewedLater_sorted _)
                  i j a b Hij Hi Hj) as Hle.
    unfold reviewedNoLater in Hle. rewrite Ht, Hu in Hle. exact Hle.
  - intros env' weakTopics topicId p q Hweak Hp Hq.
    apply Hin in Hp as [Hfind Hdue]. apply isDue_iff in Hdue as [Hhigh _].
    pose proof Hweak as Hw. apply weakAreasRoute_inv in Hw as [_ ->].
    apply list_elem_of_In, (subseteq_take 5) in Hq.
    rewrite sortBy_Permutation in Hq.
    apply list_elem_of_In, filter_In in Hq as [Hr Hweakq].
    apply recordsOf_In in Hr. rewrite Hfind in Hr. injection Hr as <-.
    apply isWeak_iff in Hweakq as [Hlow _]. cbn [snd] in Hlow. lra.
Qed.

(** X14. A topic just practised is not proposed again by the two sibling
    routes: after a successful submission on a topic that had no record, the
    topic is not among the weak areas (one attempt is fewer than 3), and
    after any successful submission it is not ready for review as long as
    the clock of the request is at most 7 days past the review. *)
Theorem X14_fresh_topic_is_not_proposed env env' data userId body st st' d now l p :
  submitAnswerRoute env data userId body st = (st', Success d) ->
  (findProgress userId (topicId body) st = None ->
   weakAreasRoute env' userId st' = (st', Success l) ->
   ~ In (topicId body, p) l) /\
  (now - 7 * msPerDay <= nowReview env ->
   readyForReviewRoute env' now userId st' = (st', Success l) ->
   ~ In (topicId body, p) l).
Proof.
  rewrite submitAnswerRoute_outcome. intros Hrun.
  set (found := lookup _ _ _) in *.
  apply outcome_Success_inv in Hrun as (stats0 & _ & _ & -> & _).
  pose proof (findProgress_afterStats env userId body found st stats0) as Hstored.
  split.
  - intros Hnone Hweak Hin.
    destruct (weakAreas_sound env' userId _ _ _ (topicId body) p Hweak Hin)
      as (Hfind & _ & Hatt).
    rewrite Hstored in Hfind. injection Hfind as <-.
    unfold progressAfter, updateProgress, progressBefore in Hatt.
    rewrite Hnone in Hatt. cbn in Hatt. lia.
  - intros Hnow Hready Hin.
    destruct (readyForReview_sound env' now userId _ _ _ (topicId body) p Hready Hin)
      as (Hfind & _ & t & Ht & Hlt).
    rewrite Hstored in Hfind. injection Hfind as <-.
    cbn in Ht. injection Ht as <-. lia.
Qed.

(** ** Joining with an invite link *)

Ltac refused_reply :=
  match goal with
  | Hrun : _ = _ |- _ \/ _ =>
      cbv [actRet storageError errCode errMessage] in Hrun;
      cbn [bool_decide decide_rel] in Hrun;
      left; do 3 eexists; split; [exact Hrun | auto]
  end.

(** Every way a join request can end. *)
Lemma joinRoute_cases env body s :
  (* refused before any write *)
  (exists status message error,
     joinRoute env body s = (s, Refused status message error) /\
     (status = 400 \/ status = 404 \/ status = 500)) \/
  exists code name link,
    jb_inviteCode body = Some code /\ jb_name body = Some name /\
    name <> EmptyString /\ code <> EmptyString /\
    inviteColl s !! code = Some link /\
    InviteLink.isValid (j_validAt env) link = true /\
    accountColl s !! j_newId env = None /\
    tokenTaken (j_sessionToken env) (accountColl s) = false /\
    JSExtra.trim name <> EmptyString /\
    let account :=
      {| acc_name := JSExtra.trim name; acc_usedInviteCode := Some code;
         acc_sessionToken := Some (j_sessionToken env); acc_role := RoleUser;
         acc_isActive := true; acc_lastLogin := Some (j_loginAt env) |} in
    let created :=
      setStore (putStats (j_newId env) User.newStats (store s))
        (setAccounts (<[j_newId env := account]> (accountColl s)) s) in
    let recorded :=
      setInvites (<[code := InviteLink.recordUse (j_usedAt env) (j_newId env) link]>
                    (inviteColl s)) created in
    (* the account is created, the use is not recorded *)
    (joinRoute env body s = (created, Refused 500 "Error joining with invite code"
                                        (Some "storage error"%string))) \/
    (* created and recorded, no token signed *)
    (joinRoute env body s
     = (recorded, Refused 500 "Error joining with invite code"
                    (Some "secretOrPrivateKey must have a value"%string))) \/
    (exists token,
       j_jwt env = Some token /\
       joinRoute env body s
       = (recorded, Sent 201 {| jd_id := j_newId env; jd_name := JSExtra.trim name;
                                jd_role := RoleUser; jd_stats := User.newStats;
                                jd_lastLogin := Some (j_loginAt env);
                                jd_token := token |})).
Proof.
  remember (joinRoute env body s) as out eqn:Hrun.
  unfold joinRoute, join in Hrun.
  destruct (truthyString (jb_name body)) eqn:Hname; cbn [negb orb] in Hrun;
    [|refused_reply].
  destruct (truthyString (jb_inviteCode body)) eqn:Hcode; cbn [negb] in Hrun;
    [|refused_reply].
  apply truthyString_inv in Hname as (name & Hn & Hnne).
  apply truthyString_inv in Hcode as (code & Hc & Hcne).
  rewrite Hn, Hc in Hrun. cbn [default from_option] in Hrun. unfold id in Hrun.
  unfold actBind at 1, siteCall at 1 in Hrun.
  destruct (j_faults env InviteFindOne); [refused_reply|].
  destruct (inviteColl s !! code) as [link|] eqn:Hlink; [|refused_reply].
  destruct (InviteLink.isValid (j_validAt env) link) eqn:Hvalid;
    cbn [negb] in Hrun; [|refused_reply].
  unfold actBind at 1, User_create in Hrun.
  destruct (j_faults env UserCreate); [refused_reply|].
  cbn [acc_name acc_sessionToken] in Hrun.
  destruct (String.eqb_spec (JSExtra.trim name) EmptyString) as [?|Htrim];
    [refused_reply|].
  destruct (accountColl s !! j_newId env) as [other|] eqn:Hid.
  { rewrite bool_decide_eq_true_2 in Hrun by eauto. refused_reply. }
  rewrite bool_decide_eq_false_2 in Hrun by (intros [? ?]; discriminate).
  cbn [orb] in Hrun.
  destruct (tokenTaken (j_sessionToken env) (accountColl s)) eqn:Htoken;
    [refused_reply|].
  right. exists code, name, link.
  repeat (split; [assumption || reflexivity|]).
  cbv zeta. unfold actBind, siteCall, actRet, actThrow in Hrun.
  destruct (j_faults env InviteSave); [left; exact Hrun|].
  destruct (j_jwt env) as [token|]; [right; right; eauto | right; left; exact Hrun].
Qed.

(** X15. A join request answered 201 found a link that was valid when it
    was checked, created one account under an id that was free, with the
    trimmed (and non-empty) name, the role [user], the code it used and the
    default statistics, recorded one use of the link, and left every other
    account, every other link and the progress data as they were. *)
Theorem X15_join_admits env body s s' data :
  joinRoute env body s = (s', Sent 201 data) ->
  exists code name link,
    jb_inviteCode body = Some code /\ jb_name body = Some name /\
    inviteColl s !! code = Some link /\
    InviteLink.isValid (j_validAt env) link = true /\
    jd_id data = j_newId env /\
    jd_name data = JSExtra.trim name /\ jd_name data <> EmptyString /\
    jd_role data = RoleUser /\ jd_stats data = User.newStats /\
    accountColl s !! jd_id data = None /\
    accountColl s' !! jd_id data
    = Some {| acc_name := JSExtra.trim name; acc_usedInviteCode := Some code;
              acc_sessionToken := Some (j_sessionToken env); acc_role := RoleUser;
              acc_isActive := true; acc_lastLogin := Some (j_loginAt env) |} /\
    userColl (store s') !! jd_id data = Some User.newStats /\
    inviteColl s' !! code
    = Some (InviteLink.recordUse (j_usedAt env) (jd_id data) link) /\
    (forall u, u <> jd_id data ->
       accountColl s' !! u = accountColl s !! u /\
       userColl (store s') !! u = userColl (store s) !! u) /\
    (forall c, c <> code -> inviteColl s' !! c = inviteColl s !! c) /\
    attemptColl (store s') = attemptColl (store s) /\
    progressColl (store s') = progressColl (store s) /\
    statusLog s' = statusLog s.
Proof.
  intros Hrun.
  destruct (joinRoute_cases env body s)
    as [(status & message & error & Hout & _)
       |(code & name & link & Hc & Hn & Hnne & Hcne & Hlink & Hvalid & Hid & Htoken
         & Htrim & Hout)].
  { rewrite Hout in Hrun. discriminate. }
  cbv zeta in Hout.
  destruct Hout as [Hout|[Hout|(token & Hjwt & Hout)]];
    rewrite Hout in Hrun; try discriminate.
  injection Hrun as <- <-. cbn [jd_id jd_name jd_role jd_stats].
  exists code, name, link.
  repeat (split; [assumption || reflexivity|]).
  cbn [setInvites setStore setAccounts putStats store accountColl inviteColl
       userColl attemptColl progressColl statusLog].
  split; [apply lookup_insert_eq|].
  split; [apply lookup_insert_eq|].
  split; [apply lookup_insert_eq|].
  split.
  { intros u Hu. split; apply lookup_insert_ne; congruence. }
  split; [intros c Hne; apply lookup_insert_ne; congruence|].
  repeat split.
Qed.

(** X16. A join request is answered 201, 400, 404 or 500, and one answered
    400 or 404 has changed nothing. *)
Theorem X16_join_refusals env body s s' r :
  joinRoute env body s = (s', r) ->
  (replyStatus r = 201 \/ replyStatus r = 400 \/ replyStatus r = 404
   \/ replyStatus r = 500) /\
  (replyStatus r = 400 \/ replyStatus r = 404 -> s' = s).
Proof.
  intros Hrun.
  destruct (joinRoute_cases env body s)
    as [(status & message & error & Hout & Hstatus)
       |(code & name & link & _ & _ & _ & _ & _ & _ & _ & _ & _ & Hout)].
  - rewrite Hout in Hrun. injection Hrun as <- <-. cbn [replyStatus].
    split; [tauto | reflexivity].
  - cbv zeta in Hout.
    destruct Hout as [Hout|[Hout|(token & Hjwt & Hout)]];
      rewrite Hout in Hrun; injection Hrun as <- <-; cbn [replyStatus];
      (split; [auto | intros [?|?]; discriminate]).
Qed.

(** When [isValid] holds: the link is active, not past its expiry (it is
    still valid at the instant of the expiry) and, with a limit that is not
    zero, used fewer times than the limit. *)
Lemma isValid_iff now link :
  InviteLink.isValid now link = true <->
  InviteLink.isActive link = true /\
  (forall expiry, InviteLink.expiresAt link = Some expiry -> now <= expiry) /\
  (forall limit, InviteLink.maxUses link = Some limit ->
     (limit == 0)%Q \/ (inject_Z (InviteLink.usedCount link) < limit)%Q).
Proof.
  unfold InviteLink.isValid.
  destruct (InviteLink.isActive link); cbn [negb];
    [|split; [discriminate | intros (? & _); discriminate]].
  destruct (InviteLink.expiresAt link) as [expiry|].
  - destruct (Z.ltb_spec expiry now) as [Hpast|Hnot].
    + split; [discriminate|]. intros (_ & Hexp & _).
      specialize (Hexp _ eq_refl). lia.
    + destruct (InviteLink.maxUses link) as [limit|].
      * destruct (Qeq_bool limit 0) eqn:Hzero; cbn [negb andb].
        { apply Qeq_bool_iff in Hzero. split; [|reflexivity]. intros _.
          split; [reflexivity|]. split; [intros ? [= <-]; exact Hnot|].
          intros ? [= <-]. left. exact Hzero. }
        assert (Hnz : ~ (limit == 0)%Q).
        { intros Heq. apply Qeq_bool_iff in Heq. congruence. }
        destruct (Qle_bool limit (inject_Z (InviteLink.usedCount link))) eqn:Hle.
        { apply Qle_bool_iff in Hle. split; [discriminate|]. intros (_ & _ & Hlim).
          destruct (Hlim _ eq_refl) as [?|Hlt]; [contradiction|].
          exfalso. apply (Qlt_not_le _ _ Hlt Hle). }
        split; [|reflexivity]. intros _. split; [reflexivity|].
        split; [intros ? [= <-]; exact Hnot|]. intros ? [= <-]. right.
        apply Qnot_le_lt. intros Hge. apply Qle_bool_iff in Hge. congruence.
      * split; [|reflexivity]. intros _. split; [reflexivity|].
        split; [intros ? [= <-]; exact Hnot | discriminate].
  - destruct (InviteLink.maxUses link) as [limit|].
    + destruct (Qeq_bool limit 0) eqn:Hzero; cbn [negb andb].
      { apply Qeq_bool_iff in Hzero. split; [|reflexivity]. intros _.
        split; [reflexivity|]. split; [discriminate|].
        intros ? [= <-]. left. exact Hzero. }
      assert (Hnz : ~ (limit == 0)%Q).
      { intros Heq. apply Qeq_bool_iff in Heq. congruence. }
      destruct (Qle_bool limit (inject_Z (InviteLink.usedCount link))) eqn:Hle.
      { apply Qle_bool_iff in Hle. split; [discriminate|]. intros (_ & _ & Hlim).
        destruct (Hlim _ eq_refl) as [?|Hlt]; [contradiction|].
        exfalso. apply (Qlt_not_le _ _ Hlt Hle). }
      split; [|reflexivity]. intros _. split; [reflexivity|].
      split; [discriminate|]. intros ? [= <-]. right.
      apply Qnot_le_lt. intros Hge. apply Qle_bool_iff in Hge. congruence.
    + split; [|reflexivity]. intros _. split; [reflexivity|].
      split; discriminate.
Qed.

(** What one join request does to the link of a code that has a limit. *)
Lemma joinRoute_link env body s s' r code link limit :
  joinRoute env body s = (s', r) ->
  inviteColl s !! code = Some link ->
  InviteLink.maxUses link = Some limit ->
  ~ (limit == 0)%Q ->
  exists link',
    inviteColl s' !! code = Some link' /\
    InviteLink.maxUses link' = Some limit /\
    ((link' = link /\
      (bool_decide (jb_inviteCode body = Some code) && (replyStatus r =? 201)) = false) \/
     (InviteLink.usedCount link' = InviteLink.usedCount link + 1 /\
      (inject_Z (InviteLink.usedCount link) < limit)%Q)).
Proof.
  intros Hrun Hlink Hmax Hlimit.
  destruct (joinRoute_cases env body s)
    as [(status & message & error & Hout & Hstatus)
       |(code' & name & link0 & Hc & Hn & Hnne & Hcne & Hlink0 & Hvalid & _ & _ & _
         & Hout)].
  - rewrite Hout in Hrun. injection Hrun as <- <-. exists link.
    split; [exact Hlink|]. split; [exact Hmax|]. left. split; [reflexivity|].
    cbn [replyStatus]. apply andb_false_iff. right. apply Z.eqb_neq. lia.
  - cbv zeta in Hout.
    destruct Hout as [Hout|[Hout|(token & Hjwt & Hout)]];
      rewrite Hout in Hrun; injection Hrun as <- <-;
      cbn [setInvites setStore setAccounts inviteColl replyStatus].
    + exists link. split; [exact Hlink|]. split; [exact Hmax|]. left.
      split; [reflexivity | apply andb_false_r].
    + destruct (decide (code = code')) as [->|Hne].
      * rewrite Hlink in Hlink0. injection Hlink0 as <-.
        eexists. split; [apply lookup_insert_eq|]. split; [exact Hmax|]. right.
        split; [reflexivity|].
        apply isValid_iff in Hvalid as (_ & _ & Hbelow).
        destruct (Hbelow _ Hmax) as [?|?]; [contradiction | assumption].
      * exists link. split; [rewrite lookup_insert_ne by congruence; exact Hlink|].
        split; [exact Hmax|]. left. split; [reflexivity | apply andb_false_r].
    + destruct (decide (code = code')) as [->|Hne].
      * rewrite Hlink in Hlink0. injection Hlink0 as <-.
        eexists. split; [apply lookup_insert_eq|]. split; [exact Hmax|]. right.
        split; [reflexivity|].
        apply isValid_iff in Hvalid as (_ & _ & Hbelow).
        destruct (Hbelow _ Hmax) as [?|?]; [contradiction | assumption].
      * exists link. split; [rewrite lookup_insert_ne by congruence; exact Hlink|].
        split; [exact Hmax|]. left. split; [reflexivity|].
        apply andb_false_iff. left. apply bool_decide_eq_false_2. congruence.
Qed.

(** X17. Join requests served one after the other never take a link with a
    limit past it, whichever storage calls fail on the way: the link keeps
    its limit, its count grows by at least the number of requests it
    admitted (answered 201 for its code), and a count that moved stays below
    [maxUses + 1], that is at most [maxUses] when this is a whole number. *)
Theorem X17_link_capacity requests : forall s s' replies code link limit,
  joinAll requests s = (s', replies) ->
  inviteColl s !! code = Some link ->
  InviteLink.maxUses link = Some limit ->
  ~ (limit == 0)%Q ->
  exists link',
    inviteColl s' !! code = Some link' /\
    InviteLink.maxUses link' = Some limit /\
    InviteLink.usedCount link + admissions code requests replies
    <= InviteLink.usedCount link' /\
    (InviteLink.usedCount link' = InviteLink.usedCount link \/
     (inject_Z (InviteLink.usedCount link') < limit + 1)%Q).
Proof.
  induction requests as [|[env body] rest IH];
    intros s s' replies code link limit Hrun Hlink Hmax Hlimit.
  - cbn in Hrun. injection Hrun as <- <-. exists link.
    unfold admissions. cbn. repeat split; try assumption; [lia | left; reflexivity].
  - cbn [joinAll] in Hrun.
    destruct (joinRoute env body s) as [s1 r] eqn:Hstep.
    destruct (joinAll rest s1) as [s2 rs] eqn:Hrest.
    injection Hrun as <- <-.
    destruct (joinRoute_link _ _ _ _ _ _ _ _ Hstep Hlink Hmax Hlimit)
      as (link1 & Hlink1 & Hmax1 & Hcase).
    destruct (IH _ _ _ _ _ _ Hrest Hlink1 Hmax1 Hlimit)
      as (link' & Hlink' & Hmax' & Hcount & Hbound).
    exists link'. split; [exact Hlink'|]. split; [exact Hmax'|].
    assert (Hadm : admissions code ((env, body) :: rest) (r :: rs)
                   = (if bool_decide (jb_inviteCode body = Some code)
                         && (replyStatus r =? 201) then 1 else 0)
                     + admissions code rest rs).
    { unfold admissions. cbn [zip zip_with List.filter fst snd].
      destruct (bool_decide (jb_inviteCode body = Some code) && (replyStatus r =? 201));
        cbn [length]; lia. }
    rewrite Hadm.
    destruct Hcase as [[-> Hnot]|[Hplus Hbelow]].
    + rewrite Hnot. split; [lia | exact Hbound].
    + split.
      { destruct (bool_decide (jb_inviteCode body = Some code) && (replyStatus r =? 201));
          lia. }
      right. destruct Hbound as [Heq|Hlt]; [|exact Hlt].
      rewrite Heq, Hplus. rewrite inject_Z_plus. change (inject_Z 1) with 1%Q. lra.
Qed.

(** The validation route, case by case. *)
Lemma validateInviteRoute_run faults now code s :
  validateInviteRoute faults now code s
  = (s, if faults InviteFindOne then
          Refused 500 "Error validating invite code" (Some "storage error"%string)
        else match inviteColl s !! code with
             | None => Refused 404 "Invalid invite code" None
             | Some link =>
                 if InviteLink.isValid now link then
                   Sent 200 (InviteLink.label link, InviteLink.description link)
                 else Refused 400 "This invite link has expired or reached its usage limit"
                        None
             end).
Proof.
  unfold validateInviteRoute, validateInvite, actBind, siteCall.
  destruct (faults InviteFindOne); [reflexivity|].
  destruct (inviteColl s !! code) as [link|]; [|reflexivity].
  destruct (InviteLink.isValid now link); reflexivity.
Qed.

(** X18. Validating an invite code changes nothing. It is answered 200
    exactly when the lookup goes through and finds a link that is active,
    not past its expiry (a link is still good at the very instant it
    expires) and, when it has a limit other than zero, used fewer times than
    the limit (a limit of zero counts as no limit); 404 exactly when the
    lookup finds no link of that code. *)
Theorem X18_validate faults now code s s' r :
  validateInviteRoute faults now code s = (s', r) ->
  s' = s /\
  (replyStatus r = 200 <->
   faults InviteFindOne = false /\
   exists link,
     inviteColl s !! code = Some link /\
     InviteLink.isActive link = true /\
     (forall expiry, InviteLink.expiresAt link = Some expiry -> now <= expiry) /\
     (forall limit, InviteLink.maxUses link = Some limit ->
        (limit == 0)%Q \/ (inject_Z (InviteLink.usedCount link) < limit)%Q)) /\
  (replyStatus r = 404 <->
   faults InviteFindOne = false /\ inviteColl s !! code = None).
Proof.
  rewrite validateInviteRoute_run. intros [= <- <-]. split; [reflexivity|].
  destruct (faults InviteFindOne); cbn [replyStatus].
  { split; (split; [discriminate | intros [? _]; discriminate]). }
  destruct (inviteColl s !! code) as [link|]; cbn [replyStatus].
  - destruct (InviteLink.isValid now link) eqn:Hvalid; cbn [replyStatus].
    + apply isValid_iff in Hvalid. split.
      * split; [intros _; split; [reflexivity | eauto] | reflexivity].
      * split; [discriminate | intros [_ ?]; discriminate].
    + split.
      * split; [discriminate|]. intros (_ & link' & [= <-] & Hrest).
        apply isValid_iff in Hrest. congruence.
      * split; [discriminate | intros [_ ?]; discriminate].
  - split.
    + split; [discriminate | intros (_ & ? & ? & _); discriminate].
    + split; [intros _; split; reflexivity | reflexivity].
Qed.

(** X19. Validation and join agree on a code. When the validation of a code
    is refused with 404 or 400, a join that names this code at the same
    instant (with some name) gets the same refusal and changes nothing; when
    it is answered 200, a join with a name that is not blank, a fresh id and
    session token, a signing secret and no failing storage call is
    answered 201. *)
Theorem X19_validate_then_join faults env body s name code r :
  validateInviteRoute faults (j_validAt env) code s = (s, r) ->
  jb_name body = Some name -> name <> EmptyString ->
  jb_inviteCode body = Some code -> code <> EmptyString ->
  j_faults env InviteFindOne = false ->
  (forall status message error,
     r = Refused status message error -> status <> 500 ->
     joinRoute env body s = (s, Refused status message error)) /\
  (forall metadata,
     r = Sent 200 metadata ->
     JSExtra.trim name <> EmptyString ->
     accountColl s !! j_newId env = None ->
     tokenTaken (j_sessionToken env) (accountColl s) = false ->
     j_faults env UserCreate = false -> j_faults env InviteSave = false ->
     j_jwt env <> None ->
     exists s' data, joinRoute env body s = (s', Sent 201 data)).
Proof.
  rewrite validateInviteRoute_run. intros [= <-] Hn Hnne Hc Hcne Hfind.
  unfold joinRoute, join.
  rewrite (truthyString_Some _ _ Hn Hnne), (truthyString_Some _ _ Hc Hcne).
  rewrite Hn, Hc. cbn [negb orb default from_option].
  unfold id, actBind, siteCall, User_create, actRet, actThrow. rewrite Hfind.
  destruct (faults InviteFindOne).
  { split; [intros ? ? ? [= <- <- <-] ?; congruence | discriminate]. }
  destruct (inviteColl s !! code) as [link|].
  - destruct (InviteLink.isValid (j_validAt env) link); cbn [negb].
    + split; [discriminate|].
      intros metadata _ Htrim Hid Htoken Hcreate Hsave Hjwt.
      rewrite Hcreate, Hsave. cbn [acc_name acc_sessionToken].
      destruct (String.eqb_spec (JSExtra.trim name) EmptyString); [contradiction|].
      rewrite Hid, Htoken.
      rewrite bool_decide_eq_false_2 by (intros [? ?]; discriminate). cbn [orb].
      destruct (j_jwt env) as [token|]; [|contradiction].
      eauto.
    + split; [intros ? ? ? [= <- <- <-] _; reflexivity | discriminate].
  - split; [intros ? ? ? [= <- <- <-] _; reflexivity | discriminate].
Qed.

(** What a search by id finds is stored under the code it comes with. *)
Lemma findInviteById_Some linkId invites code link :
  findInviteById linkId invites = Some (code, link) ->
  invites !! code = Some link /\ InviteLink.id link = linkId.
Proof.
  unfold findInviteById. intros Hfind. apply find_some in Hfind as [Hin Hid].
  apply list_elem_of_In, elem_of_map_to_list in Hin. cbn [snd] in Hid.
  split; [exact Hin | apply N.eqb_eq, Hid].
Qed.

Lemma findInviteById_None linkId invites code link :
  findInviteById linkId invites = None ->
  invites !! code = Some link -> InviteLink.id link <> linkId.
Proof.
  unfold findInviteById. intros Hfind Hlink.
  apply elem_of_map_to_list, list_elem_of_In in Hlink.
  apply (find_none _ _ Hfind) in Hlink. cbn [snd] in Hlink.
  apply N.eqb_neq, Hlink.
Qed.

(** A deactivated link is never valid. *)
Lemma isValid_deactivate now link :
  InviteLink.isValid now (InviteLink.deactivate link) = false.
Proof. reflexivity. Qed.

(** X20. Deactivating an invite link. A request answered 200 was made by the
    creator of a link of that id; the link is stored inactive under its code
    with everything else of the site as it was, and from then on validating
    the code is never answered 200 and a join that names it changes nothing
    and is not answered 201. A request answered 403 or 404 changes nothing:
    403 means that the link of that id was created by someone else, 404 that
    no link has that id. *)
Theorem X20_deactivate_invite faults requester linkId s s' r :
  deactivateInviteRoute faults requester linkId s = (s', r) ->
  (replyStatus r = 200 ->
   exists code link,
     inviteColl s !! code = Some link /\ InviteLink.id link = linkId /\
     InviteLink.createdBy link = requester /\
     s' = setInvites (<[code := InviteLink.deactivate link]> (inviteColl s)) s /\
     (forall faults' now,
        replyStatus (validateInviteRoute faults' now code s').2 <> 200) /\
     (forall env body,
        jb_inviteCode body = Some code ->
        (joinRoute env body s').1 = s' /\
        replyStatus (joinRoute env body s').2 <> 201)) /\
  (replyStatus r = 403 ->
   s' = s /\
   exists code link,
     inviteColl s !! code = Some link /\ InviteLink.id link = linkId /\
     InviteLink.createdBy link <> requester) /\
  (replyStatus r = 404 ->
   s' = s /\
   forall code link, inviteColl s !! code = Some link -> InviteLink.id link <> linkId).
Proof.
  unfold deactivateInviteRoute, deactivateInvite, actBind, siteCall, actRet.
  destruct (faults InviteFindById).
  { intros [= <- <-]. cbn [replyStatus]. repeat split; discriminate. }
  destruct (findInviteById linkId (inviteColl s)) as [[code link]|] eqn:Hfind.
  - apply findInviteById_Some in Hfind as [Hlink Hid].
    destruct (N.eqb_spec (InviteLink.createdBy link) requester) as [Hby|Hby];
      cbn [negb].
    + destruct (faults InviteSave).
      { intros [= <- <-]. cbn [replyStatus]. repeat split; discriminate. }
      intros [= <- <-]. cbn [replyStatus].
      split; [|split; discriminate]. intros _. exists code, link.
      repeat (split; [assumption || reflexivity|]).
      set (s' := setInvites _ s).
      assert (Hstored : inviteColl s' !! code = Some (InviteLink.deactivate link))
        by apply lookup_insert_eq.
      split.
      * intros faults' now. rewrite validateInviteRoute_run, Hstored. cbn [snd].
        rewrite isValid_deactivate.
        destruct (faults' InviteFindOne); cbn [replyStatus]; discriminate.
      * intros env body Hcode.
        destruct (joinRoute_cases env body s')
          as [(status & message & error & Hout & Hstatus)
             |(code' & name & link' & Hc & _ & _ & _ & Hlink' & Hvalid & _)].
        { rewrite Hout. cbn [fst snd replyStatus]. split; [reflexivity | lia]. }
        rewrite Hcode in Hc. injection Hc as <-.
        rewrite Hstored in Hlink'. injection Hlink' as <-.
        rewrite isValid_deactivate in Hvalid. discriminate.
    + intros [= <- <-]. cbn [replyStatus].
      split; [discriminate|]. split; [|discriminate].
      intros _. split; [reflexivity | eauto 6].
  - intros [= <- <-]. cbn [replyStatus].
    split; [discriminate|]. split; [discriminate|].
    intros _. split; [reflexivity|]. intros code link.
    apply findInviteById_None, Hfind.
Qed.

(** ** Accounts: status, quick login, deletion *)

Lemma toggled_involutive account : toggled (toggled account) = account.
Proof.
  destruct account as [? ? ? ? active ?]. unfold toggled. cbn.
  rewrite negb_involutive. reflexivity.
Qed.

(** The toggle route, case by case. *)
Lemma toggleStatusRoute_run faults userId s :
  toggleStatusRoute faults userId s
  = if faults UserFindByIdCall then (s, Refused 500 "storage error" None)
    else match accountColl s !! userId with
         | None => (s, Refused 404 "User not found" None)
         | Some account =>
             if faults UserSaveCall then (s, Refused 500 "storage error" None)
             else
               ({| store := store s;
                   accountColl := <[userId := toggled account]> (accountColl s);
                   inviteColl := inviteColl s;
                   statusLog :=
                     statusLog s ++ [(userId, negb (acc_isActive account))] |},
                Sent 200 (if negb (acc_isActive account)
                          then "User activated successfully"
                          else "User deactivated successfully")%string)
         end.
Proof.
  unfold toggleStatusRoute, adminRoute, toggleStatus, actBind, siteCall, actRet.
  destruct (faults UserFindByIdCall); [reflexivity|].
  destruct (accountColl s !! userId) as [account|]; [|reflexivity].
  destruct (faults UserSaveCall); reflexivity.
Qed.

(** X21. Toggling the status of a user twice, both answered 200, gives back
    the accounts as they were; the progress data and the invite links are
    untouched, and the two events emitted carry the flipped status and then
    the original one. A toggle that is not answered 200 changes nothing. *)
Theorem X21_toggle_twice faults faults' userId s s1 r1 s2 r2 :
  toggleStatusRoute faults userId s = (s1, r1) ->
  toggleStatusRoute faults' userId s1 = (s2, r2) ->
  (replyStatus r1 <> 200 -> s1 = s) /\
  (replyStatus r1 = 200 -> replyStatus r2 = 200 ->
   exists account,
     accountColl s !! userId = Some account /\
     accountColl s1 !! userId = Some (toggled account) /\
     accountColl s2 = accountColl s /\ store s2 = store s /\
     inviteColl s2 = inviteColl s /\
     statusLog s2 = statusLog s ++ [(userId, negb (acc_isActive account));
                                    (userId, acc_isActive account)]).
Proof.
  rewrite !toggleStatusRoute_run.
  destruct (faults UserFindByIdCall).
  { intros [= <- <-] _. split; [reflexivity | discriminate]. }
  destruct (accountColl s !! userId) as [account|] eqn:Hu.
  2: { intros [= <- <-] _. split; [reflexivity | discriminate]. }
  destruct (faults UserSaveCall).
  { intros [= <- <-] _. split; [reflexivity | discriminate]. }
  intros [= <- <-]. cbn [accountColl store inviteColl statusLog replyStatus].
  rewrite lookup_insert_eq.
  destruct (faults' UserFindByIdCall).
  { intros [= <- <-]. split; [congruence | discriminate]. }
  destruct (faults' UserSaveCall).
  { intros [= <- <-]. split; [congruence | discriminate]. }
  intros [= <- <-]. split; [congruence|]. intros _ _. exists account.
  cbn [accountColl store inviteColl statusLog].
  split; [reflexivity|]. split; [reflexivity|].
  split.
  { rewrite insert_insert_eq, toggled_involutive. apply insert_id, Hu. }
  split; [reflexivity|]. split; [reflexivity|].
  rewrite <- app_assoc. cbn [toggled acc_isActive app].
  rewrite negb_involutive. reflexivity.
Qed.

(** With the session token held by one account only, the search by token
    finds this account when it is active and nothing otherwise. *)
Lemma findActiveByToken_unique token accounts userId account :
  accounts !! userId = Some account ->
  acc_sessionToken account = Some token ->
  (forall other held, accounts !! other = Some held ->
     acc_sessionToken held = Some token -> other = userId) ->
  findActiveByToken token accounts
  = if acc_isActive account then Some (userId, account) else None.
Proof.
  intros Hu Htoken Hunique. unfold findActiveByToken.
  destruct (List.find _ (map_to_list accounts)) as [[other held]|] eqn:Hfind.
  - apply find_some in Hfind as [Hin Hp]. cbn [snd] in Hp.
    apply andb_true_iff in Hp as [Hheld Hactive].
    apply bool_decide_eq_true in Hheld.
    apply list_elem_of_In, elem_of_map_to_list in Hin.
    assert (other = userId) as -> by eauto.
    assert (held = account) as -> by congruence.
    rewrite Hactive. reflexivity.
  - apply elem_of_map_to_list, list_elem_of_In in Hu.
    apply (find_none _ _ Hfind) in Hu. cbn [snd] in Hu.
    rewrite bool_decide_eq_true_2 in Hu by exact Htoken. cbn [andb] in Hu.
    rewrite Hu. reflexivity.
Qed.

(** No account holds a token that is not taken. *)
Lemma tokenTaken_false token accounts userId account :
  tokenTaken token accounts = false ->
  accounts !! userId = Some account ->
  acc_sessionToken account <> Some token.
Proof.
  unfold tokenTaken. intros Hnone Hu Hheld.
  apply elem_of_map_to_list, list_elem_of_In in Hu.
  assert (Hsome : existsb (fun entry : UserId * Account =>
                             bool_decide (acc_sessionToken entry.2 = Some token))
                          (map_to_list accounts) = true).
  { apply existsb_exists. eexists. split; [exact Hu|].
    apply bool_decide_eq_true_2. exact Hheld. }
  congruence.
Qed.

(** The quick-login route, once the search has found an account. *)
Lemma quickLoginRoute_found faults now signed token s userId account :
  token <> EmptyString ->
  faults UserFindOne = false -> faults UserSaveCall = false ->
  findActiveByToken token (accountColl s) = Some (userId, account) ->
  quickLoginRoute faults now (Some signed) (Some token) s
  = (setAccounts (<[userId := loggedIn now account]> (accountColl s)) s,
     Sent 200 {| jd_id := userId; jd_name := acc_name account;
                 jd_role := acc_role account;
                 jd_stats := default User.newStats (userColl (store s) !! userId);
                 jd_lastLogin := Some now; jd_token := signed |}).
Proof.
  intros Hne Hfind Hsave Hfound.
  unfold quickLoginRoute, quickLogin.
  rewrite (truthyString_Some _ _ eq_refl Hne). cbn [negb default from_option].
  unfold id, actBind, siteCall, actRet. rewrite Hfind, Hfound, Hsave.
  reflexivity.
Qed.

Lemma quickLoginRoute_not_found faults now jwt token s :
  token <> EmptyString ->
  faults UserFindOne = false ->
  findActiveByToken token (accountColl s) = None ->
  quickLoginRoute faults now jwt (Some token) s
  = (s, Refused 404 "Invalid session. Please use invite link again." None).
Proof.
  intros Hne Hfind Hfound.
  unfold quickLoginRoute, quickLogin.
  rewrite (truthyString_Some _ _ eq_refl Hne). cbn [negb default from_option].
  unfold id, actBind, siteCall, actRet. rewrite Hfind, Hfound.
  reflexivity.
Qed.

(** X22. A member who joined can come back with the session token of the
    join: after a join answered 201, a quick login with that token (no
    storage call failing, a signing secret present) is answered 200 for the
    same user id, name and role, with the default statistics, and only sets
    the last login of that account. *)
Theorem X22_join_then_quick_login env body s s' data faults now signed :
  joinRoute env body s = (s', Sent 201 data) ->
  j_sessionToken env <> EmptyString ->
  faults UserFindOne = false -> faults UserSaveCall = false ->
  exists account,
    accountColl s' !! jd_id data = Some account /\
    quickLoginRoute faults now (Some signed) (Some (j_sessionToken env)) s'
    = (setAccounts (<[jd_id data := loggedIn now account]> (accountColl s')) s',
       Sent 200 {| jd_id := jd_id data; jd_name := jd_name data;
                   jd_role := jd_role data; jd_stats := User.newStats;
                   jd_lastLogin := Some now; jd_token := signed |}).
Proof.
  intros Hrun Hne Hfind Hsave.
  destruct (joinRoute_cases env body s)
    as [(status & message & error & Hout & _)
       |(code & name & link & Hc & Hn & Hnne & Hcne & Hlink & Hvalid & Hid & Htoken
         & Htrim & Hout)].
  { rewrite Hout in Hrun. discriminate. }
  cbv zeta in Hout.
  destruct Hout as [Hout|[Hout|(token & Hjwt & Hout)]];
    rewrite Hout in Hrun; try discriminate.
  injection Hrun as <- <-. cbn [jd_id jd_name jd_role].
  set (account := {| acc_name := JSExtra.trim name; acc_usedInviteCode := Some code;
                     acc_sessionToken := Some (j_sessionToken env);
                     acc_role := RoleUser; acc_isActive := true;
                     acc_lastLogin := Some (j_loginAt env) |}).
  set (s' := setInvites _ _).
  assert (Hnew : accountColl s' !! j_newId env = Some account)
    by apply lookup_insert_eq.
  exists account. split; [exact Hnew|].
  rewrite (quickLoginRoute_found faults now signed _ s' (j_newId env) account
             Hne Hfind Hsave).
  - f_equal. f_equal. f_equal.
    change (userColl (store s') !! j_newId env)
      with (<[j_newId env := User.newStats]> (userColl (store s)) !! j_newId env).
    rewrite lookup_insert_eq. reflexivity.
  - rewrite (findActiveByToken_unique _ _ _ _ Hnew eq_refl); [reflexivity|].
    intros other held Hother Hheld.
    destruct (decide (other = j_newId env)) as [|Hdiff]; [assumption|].
    exfalso. change (accountColl s') with (<[j_newId env := account]> (accountColl s))
      in Hother.
    rewrite lookup_insert_ne in Hother by congruence.
    exact (tokenTaken_false _ _ _ _ Htoken Hother Hheld).
Qed.

(** X23. Deactivating an account shuts its quick login, and reactivating it
    opens it again. For an account that holds its session token alone: after
    a toggle answered 200 the quick login with this token is answered 404
    and changes nothing when the account was active before, and is
    answered 200 for this user when it was not. *)
Theorem X23_status_gates_quick_login faults userId s s1 r account token
    faults' now signed :
  toggleStatusRoute faults userId s = (s1, r) ->
  replyStatus r = 200 ->
  accountColl s !! userId = Some account ->
  acc_sessionToken account = Some token -> token <> EmptyString ->
  (forall other held, accountColl s !! other = Some held ->
     acc_sessionToken held = Some token -> other = userId) ->
  faults' UserFindOne = false -> faults' UserSaveCall = false ->
  if acc_isActive account then
    quickLoginRoute faults' now (Some signed) (Some token) s1
    = (s1, Refused 404 "Invalid session. Please use invite link again." None)
  else
    exists s2 data,
      quickLoginRoute faults' now (Some signed) (Some token) s1
      = (s2, Sent 200 data) /\
      jd_id data = userId /\ jd_name data = acc_name account.
Proof.
  rewrite toggleStatusRoute_run.
  intros Hrun Hok Hu Htoken Hne Hunique Hfind Hsave.
  rewrite Hu in Hrun.
  destruct (faults UserFindByIdCall); [injection Hrun as <- <-; discriminate|].
  destruct (faults UserSaveCall); [injection Hrun as <- <-; discriminate|].
  injection Hrun as <- <-. clear Hok.
  set (s1 := {| store := store s |}).
  assert (Hfound : findActiveByToken token (accountColl s1)
                   = if negb (acc_isActive account)
                     then Some (userId, toggled account) else None).
  { apply (findActiveByToken_unique token (accountColl s1) userId (toggled account)).
    - apply lookup_insert_eq.
    - exact Htoken.
    - intros other held Hother Hheld.
      destruct (decide (other = userId)) as [|Hdiff]; [assumption|].
      change (accountColl s1) with (<[userId := toggled account]> (accountColl s))
        in Hother.
      rewrite lookup_insert_ne in Hother by congruence. eauto. }
  destruct (acc_isActive account); cbn [negb] in Hfound.
  - apply quickLoginRoute_not_found; assumption.
  - rewrite (quickLoginRoute_found _ _ _ _ _ _ _ Hne Hfind Hsave Hfound).
    eexists _, _. split; [reflexivity|]. split; reflexivity.
Qed.

(** The deletion route, case by case. *)
Lemma deleteUserRoute_run faults userId s :
  deleteUserRoute faults userId s
  = if faults UserFindByIdCall then (s, Refused 500 "storage error" None)
    else match accountColl s !! userId with
         | None => (s, Refused 404 "User not found" None)
         | Some _ =>
             if faults ProgressDeleteMany then (s, Refused 500 "storage error" None)
             else
               let s1 := setStore (dropProgressOf userId (store s)) s in
               if faults AttemptDeleteMany then
                 (s1, Refused 500 "storage error" None)
               else
                 let s2 := setStore (dropAttemptsOf userId (store s1)) s1 in
                 if faults UserDeleteOne then (s2, Refused 500 "storage error" None)
                 else (dropUser userId s2,
                       Sent 200 "User and all associated data deleted successfully"%string)
         end.
Proof.
  unfold deleteUserRoute, adminRoute, deleteUser, actBind, siteCall, actRet.
  destruct (faults UserFindByIdCall); [reflexivity|].
  destruct (accountColl s !! userId) as [account|]; [|reflexivity].
  destruct (faults ProgressDeleteMany); [reflexivity|].
  destruct (faults AttemptDeleteMany); [reflexivity|].
  destruct (faults UserDeleteOne); reflexivity.
Qed.

(** Nobody holding a token, the search by token finds nothing. *)
Lemma findActiveByToken_none token accounts :
  (forall other held, accounts !! other = Some held ->
     acc_sessionToken held <> Some token) ->
  findActiveByToken token accounts = None.
Proof.
  intros Hnone. unfold findActiveByToken.
  destruct (List.find _ (map_to_list accounts)) as [[other held]|] eqn:Hfind;
    [|reflexivity].
  apply find_some in Hfind as [Hin Hp]. cbn [snd] in Hp.
  apply andb_true_iff in Hp as [Hheld _]. apply bool_decide_eq_true in Hheld.
  apply list_elem_of_In, elem_of_map_to_list in Hin.
  destruct (Hnone _ _ Hin Hheld).
Qed.

(** X24. Deleting a user. A request answered 200 leaves no account, no
    statistics, no progress record and no attempt of that user; the
    accounts, statistics and progress records of the other users, their
    attempts (in their order) and the invite links, with the uses they
    recorded, are as before; and a quick login with a session token that
    only this user held is answered 404. A request answered 404 changes
    nothing. A request answered 500 has deleted no account, though progress
    records or attempts of the user may be gone. *)
Theorem X24_delete_user faults userId s s' r :
  deleteUserRoute faults userId s = (s', r) ->
  (replyStatus r = 200 ->
   accountColl s' !! userId = None /\
   userColl (store s') !! userId = None /\
   progressColl (store s') !! userId = None /\
   (forall a, In a (attemptColl (store s')) -> Attempt.userId a <> userId) /\
   (forall other, other <> userId ->
      accountColl s' !! other = accountColl s !! other /\
      userColl (store s') !! other = userColl (store s) !! other /\
      progressColl (store s') !! other = progressColl (store s) !! other /\
      List.filter (fun a => N.eqb (Attempt.userId a) other) (attemptColl (store s'))
      = List.filter (fun a => N.eqb (Attempt.userId a) other) (attemptColl (store s))) /\
   inviteColl s' = inviteColl s /\
   (forall token faults' now jwt,
      token <> EmptyString ->
      (forall other held, accountColl s !! other = Some held ->
         acc_sessionToken held = Some token -> other = userId) ->
      faults' UserFindOne = false ->
      quickLoginRoute faults' now jwt (Some token) s'
      = (s', Refused 404 "Invalid session. Please use invite link again." None))) /\
  (replyStatus r = 404 -> s' = s /\ accountColl s !! userId = None) /\
  (replyStatus r = 500 ->
   accountColl s' = accountColl s /\ userColl (store s') = userColl (store s) /\
   inviteColl s' = inviteColl s).
Proof.
  rewrite deleteUserRoute_run.
  destruct (faults UserFindByIdCall).
  { intros [= <- <-]. cbn [replyStatus]. repeat split; discriminate. }
  destruct (accountColl s !! userId) as [account|] eqn:Hu.
  2: { intros [= <- <-]. cbn [replyStatus].
       split; [discriminate|]. split; [|discriminate]. split; reflexivity. }
  destruct (faults ProgressDeleteMany).
  { intros [= <- <-]. cbn [replyStatus]. repeat split; discriminate. }
  cbv zeta. destruct (faults AttemptDeleteMany).
  { intros [= <- <-]. cbn [replyStatus]. repeat split; discriminate. }
  destruct (faults UserDeleteOne).
  { intros [= <- <-]. cbn [replyStatus]. repeat split; discriminate. }
  intros [= <- <-]. cbn [replyStatus].
  split; [|split; discriminate]. intros _.
  cbn [dropUser setStore dropAttemptsOf dropProgressOf store accountColl inviteColl
       userColl progressColl attemptColl].
  split; [apply lookup_delete_eq|].
  split; [apply lookup_delete_eq|].
  split; [apply lookup_delete_eq|].
  split.
  { intros a Ha. apply filter_In in Ha as [_ Ha].
    apply negb_true_iff, N.eqb_neq in Ha. exact Ha. }
  split.
  { intros other Hother.
    rewrite !lookup_delete_ne by congruence.
    repeat (split; [reflexivity|]).
    induction (attemptColl (store s)) as [|a rest IH]; [reflexivity|].
    cbn [List.filter].
    destruct (N.eqb_spec (Attempt.userId a) userId) as [Ha|Ha]; cbn [negb List.filter].
    - destruct (N.eqb_spec (Attempt.userId a) other); [congruence | exact IH].
    - destruct (N.eqb (Attempt.userId a) other); [f_equal|]; exact IH. }
  split; [reflexivity|].
  intros token faults' now jwt Hne Hunique Hfind.
  apply quickLoginRoute_not_found; [assumption..|].
  apply findActiveByToken_none. intros other held Hother Hheld.
  cbn [dropUser setStore accountColl] in Hother.
  destruct (decide (other = userId)) as [->|Hdiff].
  - rewrite lookup_delete_eq in Hother. discriminate.
  - rewrite lookup_delete_ne in Hother by congruence. eauto.
Qed.

(** X25. A join is not undone when it fails after the account is created.
    For a request that passes the checks and gets its account created:
    when saving the link fails, the answer is 500 and the account stays,
    carrying the code, with the link's count unchanged; when the link is
    saved but no token can be signed, the answer is 500 too, the account
    stays and the link has recorded the use. *)
Theorem X25_join_failure_keeps_account env body s code name link :
  jb_inviteCode body = Some code -> code <> EmptyString ->
  jb_name body = Some name -> JSExtra.trim name <> EmptyString ->
  inviteColl s !! code = Some link ->
  InviteLink.isValid (j_validAt env) link = true ->
  accountColl s !! j_newId env = None ->
  tokenTaken (j_sessionToken env) (accountColl s) = false ->
  j_faults env InviteFindOne = false -> j_faults env UserCreate = false ->
  j_faults env InviteSave = true \/ j_jwt env = None ->
  exists s' message account,
    joinRoute env body s = (s', Refused 500 "Error joining with invite code" message) /\
    accountColl s' !! j_newId env = Some account /\
    acc_usedInviteCode account = Some code /\
    In (j_newId env, account) (joinedWith code s') /\
    inviteColl s' !! code
    = Some (if j_faults env InviteSave then link
            else InviteLink.recordUse (j_usedAt env) (j_newId env) link).
Proof.
  intros Hc Hcne Hn Htrim Hlink Hvalid Hid Htoken Hfind Hcreate Hfail.
  assert (Hnne : name <> EmptyString) by (intros ->; apply Htrim; reflexivity).
  unfold joinRoute, join.
  rewrite (truthyString_Some _ _ Hn Hnne), (truthyString_Some _ _ Hc Hcne).
  rewrite Hn, Hc. cbn [negb orb default from_option].
  unfold id, actBind, siteCall, User_create, actRet, actThrow.
  rewrite Hfind, Hlink, Hvalid, Hcreate. cbn [negb acc_name acc_sessionToken].
  destruct (String.eqb_spec (JSExtra.trim name) EmptyString); [contradiction|].
  rewrite Hid, Htoken.
  rewrite bool_decide_eq_false_2 by (intros [? ?]; discriminate). cbn [orb].
  set (account := {| acc_name := JSExtra.trim name |}).
  assert (Hmember : forall s',
            accountColl s' = <[j_newId env := account]> (accountColl s) ->
            accountColl s' !! j_newId env = Some account /\
            acc_usedInviteCode account = Some code /\
            In (j_newId env, account) (joinedWith code s')).
  { intros s' Heq.
    assert (Hnew : accountColl s' !! j_newId env = Some account)
      by (rewrite Heq; apply lookup_insert_eq).
    split; [exact Hnew|]. split; [reflexivity|].
    unfold joinedWith. apply filter_In. split.
    - apply list_elem_of_In, elem_of_map_to_list. exact Hnew.
    - apply bool_decide_eq_true_2. reflexivity. }
  set (created := setStore (putStats (j_newId env) User.newStats (store s))
                    (setAccounts (<[j_newId env := account]> (accountColl s)) s)).
  destruct (j_faults env InviteSave).
  - exists created, (Some "storage error"%string), account.
    split; [reflexivity|].
    destruct (Hmember created eq_refl) as (? & ? & ?).
    repeat (split; [assumption|]). exact Hlink.
  - destruct Hfail as [?|Hjwt]; [discriminate|]. rewrite Hjwt.
    set (recorded := setInvites _ created).
    exists recorded, (Some "secretOrPrivateKey must have a value"%string), account.
    split; [reflexivity|].
    destruct (Hmember recorded eq_refl) as (? & ? & ?).
    repeat (split; [assumption|]). apply lookup_insert_eq.
Qed.

(** ** Creating an invite link *)

Lemma truthyQ_Some x v :
  truthyQ x = Some v <-> x = Some v /\ ~ (v == 0)%Q.
Proof.
  unfold truthyQ. destruct x as [w|]; [|split; [discriminate | intros [? _]; discriminate]].
  destruct (Qeq_bool w 0) eqn:Hzero.
  - apply Qeq_bool_iff in Hzero. split; [discriminate|].
    intros [[= <-] Hnz]. contradiction.
  - split.
    + intros [= <-]. split; [reflexivity|]. intros Heq.
      apply Qeq_bool_iff in Heq. congruence.
    + intros [[= <-] _]. reflexivity.
Qed.

(** The creation route, case by case. *)
Lemma createInviteRoute_run env requester body s :
  createInviteRoute env requester body s
  = if c_faults env InviteCreate then
      (s, Refused 500 "Error creating invite link" (Some "storage error"%string))
    else match inviteColl s !! c_code env with
         | Some _ =>
             (s, Refused 500 "Error creating invite link"
                   (Some "E11000 duplicate key error"%string))
         | None =>
             (setInvites (<[c_code env := newInvite env requester body]> (inviteColl s)) s,
              Sent 201 {| ci_id := c_newId env; ci_code := c_code env;
                          ci_url := joinUrl env (c_code env); ci_isActive := true;
                          ci_expiresAt :=
                            c_setDate env <$> truthyQ (cb_expiresInDays body);
                          ci_maxUses := truthyQ (cb_maxUses body);
                          ci_usedCount := 0; ci_label := cb_label body;
                          ci_description := cb_description body |})
         end.
Proof.
  unfold createInviteRoute, createInvite, actBind, Invite_create, actRet.
  destruct (c_faults env InviteCreate); [reflexivity|].
  destruct (inviteColl s !! c_code env) as [held|] eqn:Hcode.
  - rewrite bool_decide_eq_true_2 by eauto. reflexivity.
  - rewrite bool_decide_eq_false_2 by (intros [? ?]; discriminate). reflexivity.
Qed.

(** X26. Creating an invite link. A request answered 201 stores one new
    link under a code that was free and changes nothing else; the link
    belongs to the requester, is active and unused. Validating its code
    (the lookup going through) is answered 200 exactly when the clock is not
    past the expiry computed for a non-zero [expiresInDays] and [maxUses] is
    not negative: a link created with a negative [maxUses] admits nobody,
    one created with [maxUses] 0 has no limit. *)
Theorem X26_create_invite env requester body s s' data :
  createInviteRoute env requester body s = (s', Sent 201 data) ->
  ci_code data = c_code env /\ ci_id data = c_newId env /\
  inviteColl s !! c_code env = None /\
  exists link,
    s' = setInvites (<[c_code env := link]> (inviteColl s)) s /\
    inviteColl s' !! c_code env = Some link /\
    InviteLink.createdBy link = requester /\
    InviteLink.isActive link = true /\
    InviteLink.usedCount link = 0 /\ InviteLink.usedBy link = [] /\
    (forall code, code <> c_code env -> inviteColl s' !! code = inviteColl s !! code) /\
    forall faults now,
      faults InviteFindOne = false ->
      (replyStatus (validateInviteRoute faults now (c_code env) s').2 = 200 <->
       (forall n, cb_expiresInDays body = Some n -> ~ (n == 0)%Q ->
          now <= c_setDate env n) /\
       (forall m, cb_maxUses body = Some m -> (0 <= m)%Q)).
Proof.
  rewrite createInviteRoute_run.
  destruct (c_faults env InviteCreate); [discriminate|].
  destruct (inviteColl s !! c_code env) as [held|] eqn:Hfree; [discriminate|].
  intros [= <- <-]. cbn [ci_code ci_id].
  repeat (split; [reflexivity|]).
  exists (newInvite env requester body).
  split; [reflexivity|].
  assert (Hstored : inviteColl
                      (setInvites (<[c_code env := newInvite env requester body]>
                                     (inviteColl s)) s) !! c_code env
                    = Some (newInvite env requester body))
    by apply lookup_insert_eq.
  split; [exact Hstored|].
  repeat (split; [reflexivity|]).
  split; [intros code Hne; apply lookup_insert_ne; congruence|].
  intros faults now Hfind.
  rewrite validateInviteRoute_run, Hfind, Hstored. cbn [snd].
  destruct (InviteLink.isValid now (newInvite env requester body)) eqn:Hvalid;
    cbn [replyStatus].
  - apply isValid_iff in Hvalid as (_ & Hexpiry & Hlimit).
    split; [intros _|reflexivity]. split.
    + intros n Hn Hnz. apply Hexpiry. cbn [newInvite InviteLink.expiresAt].
      rewrite (proj2 (truthyQ_Some _ _) (conj Hn Hnz)). reflexivity.
    + intros m Hm. destruct (Qeq_dec m 0) as [Hz|Hnz]; [rewrite Hz; lra|].
      destruct (Hlimit m) as [?|Hpos]; [|contradiction|].
      * cbn [newInvite InviteLink.maxUses].
        apply truthyQ_Some. split; assumption.
      * cbn [newInvite InviteLink.usedCount] in Hpos.
        change (inject_Z 0) with 0%Q in Hpos. lra.
  - split; [discriminate|]. intros [Hexpiry Hlimit]. exfalso.
    assert (Hgood : InviteLink.isValid now (newInvite env requester body) = true);
      [|congruence].
    apply isValid_iff. split; [reflexivity|]. split.
    + intros expiry. cbn [newInvite InviteLink.expiresAt].
      destruct (truthyQ (cb_expiresInDays body)) as [n|] eqn:Hn; [|discriminate].
      apply truthyQ_Some in Hn as [Hn Hnz]. intros [= <-]. apply Hexpiry; assumption.
    + intros limit. cbn [newInvite InviteLink.maxUses InviteLink.usedCount].
      intros Hm. apply truthyQ_Some in Hm as [Hm Hnz]. right.
      specialize (Hlimit _ Hm). change (inject_Z 0) with 0%Q.
      destruct (Qlt_le_dec 0 limit) as [?|Hle]; [assumption|].
      exfalso. apply Hnz. lra.
Qed.

(** The search by id finds the link just created when no other link carries
    its id. *)
Lemma findInviteById_insert linkId invites code link :
  InviteLink.id link = linkId ->
  (forall code' held, invites !! code' = Some held -> InviteLink.id held <> linkId) ->
  findInviteById linkId (<[code := link]> invites) = Some (code, link).
Proof.
  intros Hid Hfresh.
  destruct (findInviteById linkId (<[code := link]> invites)) as [[code' held]|] eqn:Hfind.
  - apply findInviteById_Some in Hfind as [Hheld Hsame].
    destruct (decide (code' = code)) as [->|Hne].
    + rewrite lookup_insert_eq in Hheld. congruence.
    + rewrite lookup_insert_ne in Hheld by congruence.
      destruct (Hfresh _ _ Hheld Hsame).
  - exfalso. apply (findInviteById_None _ _ code link Hfind); [|exact Hid].
    apply lookup_insert_eq.
Qed.

(** X27. Only its creator can deactivate a link. After a creation
    answered 201 with an id that no other link carries, a deactivation of
    that id by the creator (its storage calls going through) is answered 200
    and leaves the link stored inactive under its code, while the same
    request by anyone else is answered 403 and changes nothing. *)
Theorem X27_creator_deactivates env requester body s s' data faults :
  createInviteRoute env requester body s = (s', Sent 201 data) ->
  (forall code held, inviteColl s !! code = Some held ->
     InviteLink.id held <> c_newId env) ->
  faults InviteFindById = false -> faults InviteSave = false ->
  (exists s2,
     deactivateInviteRoute faults requester (ci_id data) s'
     = (s2, Sent 200 "Invite link deactivated"%string) /\
     inviteColl s2 !! ci_code data
     = Some (InviteLink.deactivate (newInvite env requester body))) /\
  (forall other, other <> requester ->
     deactivateInviteRoute faults other (ci_id data) s'
     = (s', Refused 403 "Not authorized to delete this invite link" None)).
Proof.
  rewrite createInviteRoute_run.
  destruct (c_faults env InviteCreate); [discriminate|].
  destruct (inviteColl s !! c_code env) as [held|] eqn:Hfree; [discriminate|].
  intros [= <- <-] Hfresh Hfind Hsave. cbn [ci_code ci_id].
  assert (Hfound : forall who,
            deactivateInviteRoute faults who (c_newId env)
              (setInvites (<[c_code env := newInvite env requester body]>
                             (inviteColl s)) s)
            = if negb (N.eqb requester who) then
                (setInvites (<[c_code env := newInvite env requester body]>
                               (inviteColl s)) s,
                 Refused 403 "Not authorized to delete this invite link" None)
              else
                (setInvites
                   (<[c_code env := InviteLink.deactivate (newInvite env requester body)]>
                      (<[c_code env := newInvite env requester body]> (inviteColl s)))
                   (setInvites (<[c_code env := newInvite env requester body]>
                                  (inviteColl s)) s),
                 Sent 200 "Invite link deactivated"%string)).
  { intros who.
    unfold deactivateInviteRoute, deactivateInvite, actBind, siteCall, actRet.
    rewrite Hfind. cbn [setInvites inviteColl].
    rewrite (findInviteById_insert (c_newId env) (inviteColl s) (c_code env)
               (newInvite env requester body) eq_refl Hfresh).
    cbn [newInvite InviteLink.createdBy].
    destruct (negb (N.eqb requester who)); [reflexivity|].
    rewrite Hsave. reflexivity. }
  split.
  - rewrite Hfound, N.eqb_refl. cbn [negb].
    eexists. split; [reflexivity|]. apply lookup_insert_eq.
  - intros other Hother. rewrite Hfound.
    destruct (N.eqb_spec requester other) as [?|_]; [congruence | reflexivity].
Qed.

(** ** The statistics of a user *)

(** The statistics route, case by case. *)
Lemma statsRoute_run faults now userId me st :
  statsRoute faults now userId me st
  = (st,
     if faults CountAttempts || faults CountCorrect || faults CountTopics
        || faults CountWeek || faults AggregateDaily
     then Failure 500 "storage error"
     else
       let totalAttempts := countAttempts (fun _ => true) userId st in
       let correctAttempts := countAttempts Attempt.isCorrect userId st in
       Success
         {| us_overallAccuracy :=
              JS.round (if 0 <? totalAttempts
                        then inject_Z correctAttempts / inject_Z totalAttempts * 100
                        else 0)%Q;
            us_totalAttempts := totalAttempts;
            us_correctAttempts := correctAttempts;
            us_topicsStudied := countTopics userId st;
            us_weekActivity :=
              countAttempts (fun a => sevenDaysAgo now <=? Attempt.timestamp a) userId st;
            us_currentStreak := User.currentStreak me;
            us_longestStreak := User.longestStreak me;
            us_dailyPerformance := dailyPerformance (sevenDaysAgo now) userId st |}).
Proof.
  unfold statsRoute, route, getStats, bind, storageIf, ret.
  destruct (faults CountAttempts); [reflexivity|].
  destruct (faults CountCorrect); [reflexivity|].
  destruct (faults CountTopics); [reflexivity|].
  destruct (faults CountWeek); [reflexivity|].
  destruct (faults AggregateDaily); reflexivity.
Qed.

Lemma length_filter_le {A} (keep : A -> bool) (l : list A) :
  (length (List.filter keep l) <= length l)%nat.
Proof.
  induction l as [|a l IH]; [reflexivity|]. cbn [List.filter].
  destruct (keep a); cbn [length]; lia.
Qed.

(** A filter that asks for more keeps less. *)
Lemma length_filter_and {A} (keep also : A -> bool) (l : list A) :
  (length (List.filter (fun a => keep a && also a) l)
   <= length (List.filter keep l))%nat.
Proof.
  induction l as [|a l IH]; [reflexivity|]. cbn [List.filter].
  destruct (keep a); cbn [andb]; [|exact IH].
  destruct (also a); cbn [length]; lia.
Qed.

Lemma countAttempts_bounds keep userId st :
  0 <= countAttempts keep userId st <= countAttempts (fun _ => true) userId st.
Proof.
  unfold countAttempts. split; [lia|]. apply inj_le.
  rewrite (filter_ext (fun a => N.eqb (Attempt.userId a) userId && true)
             (fun a => N.eqb (Attempt.userId a) userId))
    by (intros a; apply andb_true_r).
  apply (length_filter_and (fun a => N.eqb (Attempt.userId a) userId) keep).
Qed.

(** A percentage of a part in a whole, and its rounding. *)
Lemma percentage_range (part whole : Z) :
  0 <= part <= whole -> 0 < whole ->
  (0 <= inject_Z part / inject_Z whole * 100 <= 100)%Q.
Proof.
  intros [Hpart Hwhole] Hpos.
  assert (Hw : (0 < inject_Z whole)%Q)
    by (change (inject_Z 0 < inject_Z whole)%Q; rewrite <- Zlt_Qlt; exact Hpos).
  assert (Hp : (0 <= inject_Z part)%Q)
    by (change (inject_Z 0 <= inject_Z part)%Q; rewrite <- Zle_Qle; exact Hpart).
  assert (Hle : (inject_Z part <= inject_Z whole)%Q) by (rewrite <- Zle_Qle; exact Hwhole).
  assert (H0 : (0 <= inject_Z part / inject_Z whole)%Q).
  { apply Qle_shift_div_l; [exact Hw | lra]. }
  assert (H1 : (inject_Z part / inject_Z whole <= 1)%Q).
  { apply Qle_shift_div_r; [exact Hw | lra]. }
  lra.
Qed.

Lemma round_percentage (x : Q) : (0 <= x <= 100)%Q -> 0 <= JS.round x <= 100.
Proof.
  intros [H0 H100]. unfold JS.round. split.
  - change 0 with (Qfloor 0.5). apply Qfloor_resp_le. lra.
  - change 100 with (Qfloor 100.5). apply Qfloor_resp_le. lra.
Qed.

(** *** Groups *)

(** Among distinct keys, exactly one is the key of a given element. *)
Lemma sumOf_indicator (key : Z) (keys : list Z) :
  List.NoDup keys -> In key keys ->
  sumOf (map (fun d => if key =? d then 1 else 0) keys) = 1.
Proof.
  induction 1 as [|d keys Hnot Hnodup IH]; intros Hin; [destruct Hin|].
  cbn [map sumOf fold_right]. fold (sumOf (map (fun d => if key =? d then 1 else 0) keys)).
  destruct (Z.eqb_spec key d) as [->|Hne].
  - assert (Hzero : sumOf (map (fun d0 => if d =? d0 then 1 else 0) keys) = 0).
    { clear IH Hin Hnodup. induction keys as [|e keys IHk]; [reflexivity|].
      cbn [map sumOf fold_right].
      fold (sumOf (map (fun d0 => if d =? d0 then 1 else 0) keys)).
      destruct (Z.eqb_spec d e) as [->|_].
      - exfalso. apply Hnot. left. reflexivity.
      - rewrite IHk; [reflexivity|]. intros Hin. apply Hnot. right. exact Hin. }
    rewrite Hzero. reflexivity.
  - destruct Hin as [->|Hin]; [congruence|]. rewrite (IH Hin). reflexivity.
Qed.

(** The groups of a list by distinct keys that cover it partition it. *)
Lemma sumOf_groups {A} (key : A -> Z) (l : list A) (keys : list Z) :
  List.NoDup keys -> (forall a, In a l -> In (key a) keys) ->
  sumOf (map (fun d => Z.of_nat (length (List.filter (fun a => key a =? d) l))) keys)
  = Z.of_nat (length l).
Proof.
  intros Hnodup. induction l as [|a l IH]; intros Hcover.
  - cbn [List.filter length]. clear Hnodup Hcover.
    induction keys as [|d keys IHk]; [reflexivity|].
    cbn [map sumOf fold_right] in *. unfold sumOf in IHk. rewrite IHk. reflexivity.
  - assert (Hsplit : forall keys',
              sumOf (map (fun d => Z.of_nat (length (List.filter (fun a0 => key a0 =? d)
                                                      (a :: l)))) keys')
              = sumOf (map (fun d => if key a =? d then 1 else 0) keys')
                + sumOf (map (fun d => Z.of_nat (length (List.filter (fun a0 => key a0 =? d)
                                                           l))) keys')).
    { induction keys' as [|d keys' IHk]; [reflexivity|].
      cbn [map sumOf fold_right] in *. unfold sumOf in IHk. rewrite IHk.
      cbn [List.filter]. destruct (key a =? d); cbn [length]; lia. }
    rewrite Hsplit, IH by (intros b Hb; apply Hcover; right; exact Hb).
    rewrite sumOf_indicator by (try assumption; apply Hcover; left; reflexivity).
    cbn [length]. lia.
Qed.

(** The days of the aggregation: distinct, ascending, and those of the
    attempts matched. *)
Lemma days_sorted (l : list Z) :
  StronglySorted Z.le (JS.sortBy (fun a b => b <? a) l).
Proof.
  apply sortBy_sorted.
  - intros x y z Hxy Hyz. lia.
  - intros x y H. apply Z.ltb_ge in H. exact H.
  - intros x y H. apply Z.ltb_lt in H. lia.
Qed.

Lemma statsAmong_alone faults now userId me st :
  statsRoute faults now userId me st
  = (st, statsAmong faults now userId me (fun _ => st)).
Proof.
  rewrite statsRoute_run. unfold statsAmong.
  destruct (faults CountAttempts); [reflexivity|].
  destruct (faults CountCorrect); [reflexivity|].
  destruct (faults CountTopics); [reflexivity|].
  destruct (faults CountWeek); [reflexivity|].
  destruct (faults AggregateDaily); reflexivity.
Qed.

Lemma countAttempts_ledger keep userId st st' :
  attemptColl st = attemptColl st' ->
  countAttempts keep userId st = countAttempts keep userId st'.
Proof. intros H. unfold countAttempts. rewrite H. reflexivity. Qed.

Lemma dailyPerformance_ledger weekAgo userId st st' :
  attemptColl st = attemptColl st' ->
  dailyPerformance weekAgo userId st = dailyPerformance weekAgo userId st'.
Proof. intros H. unfold dailyPerformance, sinceOf. rewrite H. reflexivity. Qed.

(** Without that, the numbers need not fit: a first count made before a
    submission is recorded and a second one made after it give more correct
    attempts than attempts. *)
Example stats_between_writes :
  match statsAmong Fixture.noStatsFault (Sample.noon + Sample.hour) Sample.alice
          User.newStats Fixture.duringSubmit with
  | Success r => us_totalAttempts r = 0 /\ us_correctAttempts r = 1
  | Failure _ _ => False
  end.
Proof. vm_compute. split; reflexivity. Qed.

(** X28. [GET /api/users/stats] writes nothing: run on its own, it leaves
    the store as it was and answers as its five queries do on that store.
    When it is answered 200 and no attempt is recorded or removed between
    its five queries, its numbers are consistent: [correctAttempts] and
    [weekActivity] lie between 0 and [totalAttempts]; [overallAccuracy] is a
    whole number between 0 and 100, 0 for a user without attempts and 100
    when every attempt is correct; the days of [dailyPerformance] are
    distinct and ascending, each has at least one attempt, at most as many
    correct ones as attempts and an accuracy between 0 and 100, and their
    totals add up to [weekActivity]. *)
Theorem X28_user_stats faults now userId me seen r :
  statsAmong faults now userId me seen = Success r ->
  (forall c, attemptColl (seen c) = attemptColl (seen CountAttempts)) ->
  (forall st, statsRoute faults now userId me st
              = (st, statsAmong faults now userId me (fun _ => st))) /\
  0 <= us_correctAttempts r <= us_totalAttempts r /\
  0 <= us_weekActivity r <= us_totalAttempts r /\
  0 <= us_overallAccuracy r <= 100 /\
  (us_totalAttempts r = 0 -> us_overallAccuracy r = 0) /\
  (0 < us_totalAttempts r -> us_correctAttempts r = us_totalAttempts r ->
   us_overallAccuracy r = 100) /\
  sumOf (map dp_total (us_dailyPerformance r)) = us_weekActivity r /\
  (forall (i j : nat) a b, (i < j)%nat ->
     us_dailyPerformance r !! i = Some a -> us_dailyPerformance r !! j = Some b ->
     dp_date a < dp_date b) /\
  (forall day, In day (us_dailyPerformance r) ->
     1 <= dp_total day /\ 0 <= dp_correct day <= dp_total day /\
     (0 <= dp_accuracy day <= 100)%Q).
Proof.
  intros Hrun Hsame. set (st := seen CountAttempts).
  unfold statsAmong in Hrun.
  destruct (faults CountAttempts); [discriminate|].
  destruct (faults CountCorrect); [discriminate|].
  destruct (faults CountTopics); [discriminate|].
  destruct (faults CountWeek); [discriminate|].
  destruct (faults AggregateDaily); [discriminate|].
  cbv zeta in Hrun.
  rewrite (countAttempts_ledger _ userId (seen CountCorrect) st (Hsame _)),
          (countAttempts_ledger _ userId (seen CountWeek) st (Hsame _)),
          (dailyPerformance_ledger _ userId (seen AggregateDaily) st (Hsame _)) in Hrun.
  fold st in Hrun. injection Hrun as <-.
  cbn [us_overallAccuracy us_totalAttempts us_correctAttempts us_weekActivity
       us_dailyPerformance].
  pose proof (countAttempts_bounds Attempt.isCorrect userId st) as Hcorrect.
  pose proof (countAttempts_bounds
                (fun a => sevenDaysAgo now <=? Attempt.timestamp a) userId st) as Hweek.
  split; [apply statsAmong_alone|]. split; [exact Hcorrect|]. split; [exact Hweek|].
  set (whole := countAttempts (fun _ => true) userId st) in *.
  set (part := countAttempts Attempt.isCorrect userId st) in *.
  split.
  { destruct (Z.ltb_spec 0 whole) as [Hpos|Hzero].
    - apply round_percentage, percentage_range; assumption.
    - apply round_percentage. lra. }
  split.
  { intros Hzero. rewrite Hzero. reflexivity. }
  split.
  { intros Hpos ->. destruct (Z.ltb_spec 0 whole) as [_|?]; [|lia].
    assert (Hw : (0 < inject_Z whole)%Q)
    by (change (inject_Z 0 < inject_Z whole)%Q; rewrite <- Zlt_Qlt; exact Hpos).
    assert (Hone : (inject_Z whole / inject_Z whole * 100 == 100)%Q)
      by (field; lra).
    unfold JS.round. rewrite Hone. reflexivity. }
  unfold dailyPerformance.
  set (matched := sinceOf (sevenDaysAgo now) userId st).
  set (days := JS.sortBy (fun a b => b <? a)
                 (nodup Z.eq_dec (map (fun a => utcDay (Attempt.timestamp a)) matched))).
  assert (Hperm : days ≡ₚ nodup Z.eq_dec
                          (map (fun a => utcDay (Attempt.timestamp a)) matched))
    by apply sortBy_Permutation.
  assert (Hnodup : NoDup days).
  { rewrite Hperm. apply NoDup_ListNoDup, NoDup_nodup. }
  assert (Hdays : forall d, In d days <->
                            exists a, In a matched /\ utcDay (Attempt.timestamp a) = d).
  { intros d. rewrite <- list_elem_of_In, Hperm, list_elem_of_In, nodup_In, in_map_iff.
    split; intros (a & H1 & H2); exists a; split; assumption. }
  split.
  { rewrite map_map. cbn [dayPerformance dp_total].
    rewrite (sumOf_groups (fun a => utcDay (Attempt.timestamp a)) matched days).
    - reflexivity.
    - apply NoDup_ListNoDup. exact Hnodup.
    - intros a Ha. apply Hdays. eauto. }
  split.
  { intros i j a b Hij Ha Hb.
    rewrite list_lookup_fmap in Ha, Hb.
    destruct (days !! i) as [x|] eqn:Hx; [|discriminate].
    destruct (days !! j) as [y|] eqn:Hy; [|discriminate].
    injection Ha as <-. injection Hb as <-. cbn [dayPerformance dp_date].
    pose proof (StronglySorted_lookup Z.le days (days_sorted _) i j x y Hij Hx Hy) as Hle.
    assert (x <> y); [|lia]. intros ->.
    pose proof (NoDup_lookup days i j y Hnodup Hx Hy). lia. }
  intros day Hday. apply in_map_iff in Hday as (d & <- & Hd).
  cbn [dayPerformance dp_total dp_correct dp_accuracy].
  apply Hdays in Hd as (a & Ha & Hkey).
  set (group := List.filter (fun a0 => utcDay (Attempt.timestamp a0) =? d) matched).
  assert (Hmember : In a group).
  { apply filter_In. split; [exact Ha | apply Z.eqb_eq, Hkey]. }
  assert (Hsome : 1 <= Z.of_nat (length group)).
  { destruct group as [|? ?]; [destruct Hmember | cbn [length]; lia]. }
  pose proof (length_filter_le Attempt.isCorrect group) as Hsub.
  split; [exact Hsome|]. split; [lia|].
  apply percentage_range; lia.
Qed.

(** One more attempt in the ledger, one more in the counts it qualifies for. *)
Lemma countAttempts_app keep userId st st' a :
  attemptColl st' = attemptColl st ++ [a] ->
  countAttempts keep userId st'
  = countAttempts keep userId st
    + (if N.eqb (Attempt.userId a) userId && keep a then 1 else 0).
Proof.
  unfold countAttempts. intros ->. rewrite List.filter_app, length_app.
  cbn [List.filter]. destruct (N.eqb (Attempt.userId a) userId && keep a); cbn [length]; lia.
Qed.

(** X29. The statistics follow the submissions: after a submission
    answered 200 whose attempt is dated within the 7 days of the statistics
    request, [GET /api/users/stats] (answered 200 before) is answered 200
    again with [totalAttempts] and [weekActivity] one higher and
    [correctAttempts] one higher exactly when the answer was correct; and
    the counters [totalAttempts] and [totalCorrect] kept in the user's
    document still equal the counts of the attempts when they did before. *)
Theorem X29_stats_after_submit env data userId body st st' d faults now me me' r :
  submitAnswerRoute env data userId body st = (st', Success d) ->
  statsRoute faults now userId me st = (st, Success r) ->
  sevenDaysAgo now <= nowAttempt env ->
  exists r',
    statsRoute faults now userId me' st' = (st', Success r') /\
    us_totalAttempts r' = us_totalAttempts r + 1 /\
    us_correctAttempts r' = us_correctAttempts r + (if r_isCorrect d then 1 else 0) /\
    us_weekActivity r' = us_weekActivity r + 1 /\
    (forall stats0,
       userColl st !! userId = Some stats0 ->
       User.totalAttempts stats0 = us_totalAttempts r ->
       User.totalCorrect stats0 = us_correctAttempts r ->
       User.totalAttempts (r_userStats d) = us_totalAttempts r' /\
       User.totalCorrect (r_userStats d) = us_correctAttempts r').
Proof.
  rewrite submitAnswerRoute_outcome, !statsRoute_run.
  set (found := lookup _ _ _). intros Hrun Hstats Hrecent.
  apply outcome_Success_inv in Hrun as (stats & _ & Hstats0 & -> & ->).
  destruct (faults CountAttempts || faults CountCorrect || faults CountTopics
            || faults CountWeek || faults AggregateDaily);
    [injection Hstats as Hstats; discriminate|].
  cbv zeta in Hstats. injection Hstats as <-. cbv zeta.
  eexists. split; [reflexivity|].
  cbn [us_totalAttempts us_correctAttempts us_weekActivity successData r_isCorrect
       r_userStats updateStats User.totalAttempts User.totalCorrect].
  assert (Hledger : attemptColl (afterStats env userId body found st stats)
                    = attemptColl st ++ [attemptRecord env userId body found])
    by apply attemptColl_afterCreate.
  rewrite !(countAttempts_app _ userId st _ _ Hledger).
  cbn [attemptRecord Attempt.userId Attempt.isCorrect Attempt.timestamp].
  rewrite N.eqb_refl. cbn [andb].
  destruct (Z.leb_spec (sevenDaysAgo now) (nowAttempt env)) as [_|?]; [|lia].
  repeat (split; [reflexivity|]).
  intros stats0 Hstats0' Htotal Hcorrect.
  assert (stats0 = stats) as -> by congruence.
  rewrite Htotal, Hcorrect. split; reflexivity.
Qed.

(** ** The properties above at sample inputs *)

Lemma X1_witness :
  correctAnswer (lookup (Bank.subjects Sample.bank) "ALG" "ALG_Q2") = Some "b"%string /\
  exists st' d,
    submitAnswerRoute Sample.env Sample.bank Sample.alice
      {| topicId := "ALG"; questionId := "ALG_Q2"; userAnswer := "b";
         timeTaken := Some 12%Q |} Sample.store0
    = (st', Success d) /\
    r_isCorrect d = true /\ r_correctAnswer d = "b"%string.
Proof.
  destruct (X1_issued_ids_resolve Sample.env Sample.bank Sample.alice "ALG"
              Fixture.algebraDetail (Fixture.view "ALG_Q2" "2 + 2" "b")
              Sample.store0 User.newStats (Some 12%Q)) as [Hanswer Hsubmit].
  - reflexivity.
  - reflexivity.
  - right. left. reflexivity.
  - split; [exact Hanswer|].
    apply Hsubmit; [discriminate | reflexivity | reflexivity].
Defined.

Lemma X2_witness :
  qIndex (Quiz.questionId "UNIT_Q2" 0) = qIndex (Quiz.questionId "UNIT_Q2" 4) /\
  lookup (Bank.subjects Sample.bank) "UNIT_Q2" (Quiz.questionId "UNIT_Q2" 0)
  = lookup (Bank.subjects Sample.bank) "UNIT_Q2" (Quiz.questionId "UNIT_Q2" 4).
Proof.
  apply (X2_ids_collide_when_topic_id_has_separator Sample.bank "UNIT_Q2" 0 4).
  reflexivity.
Defined.

Lemma X3_witness :
  NoDup (map Quiz.qv_id (Quiz.td_questions Fixture.algebraDetail)) /\
  exists subject topic,
    matchedTopic (Bank.subjects Sample.bank) "ALG" = Some (subject, topic) /\
    length (Quiz.td_questions Fixture.algebraDetail) = length (Bank.questions topic).
Proof.
  apply (X3_issued_ids_distinct Sample.bank "ALG" Fixture.algebraDetail).
  reflexivity.
Defined.

Lemma X4_witness :
  (exists card,
     Quiz.getRandomQuestion 0.5 Sample.bank "ALG" (QString "ALG_Q1,ALG_Q3")
     = Success (Quiz.Card card) /\
     Quiz.answeredIds (QString "ALG_Q1,ALG_Q3") = inr ["ALG_Q1"; "ALG_Q3"]%string /\
     ~ In (Quiz.qc_id card) ["ALG_Q1"; "ALG_Q3"]%string /\
     Quiz.qc_id card = Quiz.questionId "ALG" (Quiz.qc_questionIndex card)) /\
  Quiz.getRandomQuestion 0.5 Sample.bank "ALG" (QStructured (Some "ALG_Q1,ALG_Q3"%string))
  = Failure 500 "req.query.answered.split is not a function".
Proof.
  split.
  - destruct (X4_random_question_is_unanswered 0.5 Sample.bank "ALG"
                (QString "ALG_Q1,ALG_Q3") Fixture.mathematics Sample.algebra)
      as [_ H]; [lra | lra | reflexivity |].
    destruct H as (ids & Hids & _ & _ & H); [right; eexists; reflexivity|].
    injection Hids as <-. cbv zeta in H.
    destruct (Quiz.getRandomQuestion 0.5 Sample.bank "ALG" (QString "ALG_Q1,ALG_Q3"))
      as [[message total|card]|status message] eqn:Hrun;
      [vm_compute in Hrun; discriminate | | destruct H].
    exists card. split; [reflexivity|]. split; [reflexivity|].
    destruct H as (_ & Hnot & Hid & _). split; [exact Hnot | exact Hid].
  - apply (proj1 (X4_random_question_is_unanswered 0.5 Sample.bank "ALG"
                    (QStructured (Some "ALG_Q1,ALG_Q3"%string)) Fixture.mathematics
                    Sample.algebra ltac:(lra) ltac:(lra) eq_refl)
             (Some "ALG_Q1,ALG_Q3"%string) eq_refl).
Defined.

Lemma X6_witness :
  exists topic,
    Quiz.getTopic Sample.bank "GEO" = Success topic /\
    Quiz.td_topicId topic = "GEO"%string.
Proof.
  apply (X6_listed_topics_are_served Sample.bank "math"
           {| Quiz.sd_subjectName := "Mathematics"; Quiz.sd_slug := "math";
              Quiz.sd_topics :=
                [ {| Quiz.ts_topicId := "ALG"; Quiz.ts_title := "Algebra";
                     Quiz.ts_questionCount := 3 |}; Fixture.geometrySummary ] |}
           Fixture.geometrySummary).
  - reflexivity.
  - right. left. reflexivity.
Defined.

Lemma X8_witness :
  exists r,
    myProgressRoute Sample.env Sample.alice Fixture.studied
    = (Fixture.studied, Success r) /\
    mp_totalTopics r = 2%nat /\
    (forall topicId p, In (topicId, p) (mp_progress r) <->
                       findProgress Sample.alice topicId Fixture.studied = Some p) /\
    (length (mp_recentAttempts r) <= 10)%nat.
Proof.
  destruct (myProgressRoute Sample.env Sample.alice Fixture.studied)
    as [st' [r|status message]] eqn:Hrun; [|vm_compute in Hrun; discriminate].
  destruct (X8_my_progress _ _ _ _ _ Hrun) as (-> & Hlist & Htotal & _ & _ & _ & Hten).
  exists r. split; [reflexivity|]. split; [rewrite Htotal; reflexivity|].
  split; [exact Hlist | exact Hten].
Defined.

Lemma X9_witness :
  exists st' d view,
    submitAnswerRoute Sample.env Sample.bank Sample.alice Sample.secondUpper Sample.store0
    = (st', Success d) /\
    topicProgressRoute Sample.env Sample.alice "ALG" st' = (st', Success view) /\
    viewMastery (tp_progress view) = r_mastery d /\
    viewAttempts (tp_progress view) = r_attempts d /\
    length (tp_attempts view) = 1%nat.
Proof.
  destruct (submitAnswerRoute_succeeds Sample.env Sample.bank Sample.alice
              Sample.secondUpper Sample.store0 "b" User.newStats)
    as (st' & d & Hrun); [reflexivity | discriminate | reflexivity | reflexivity |].
  destruct (X9_topic_route_after_submit Sample.env Sample.env _ _ _ _ _ _ Hrun)
    as (view & Hview & Hm & Ha & _ & _ & Hlen); [reflexivity | reflexivity |].
  exists st', d, view. repeat split; assumption.
Defined.

Lemma X10_witness :
  findProgress Sample.alice "ALG" Fixture.afterReset = None /\
  findProgress Sample.alice "GEO" Fixture.afterReset = Some Fixture.geometryRecord /\
  attemptColl Fixture.afterReset = attemptColl Fixture.studiedAll.
Proof.
  pose proof (X10_reset_removes_one_record Sample.env Sample.alice "ALG"
                Fixture.studiedAll eq_refl eq_refl) as H.
  cbv zeta in H. destruct H as (_ & Hnone & Hother & Hledger & _).
  split; [exact Hnone|]. split; [|exact Hledger].
  unfold Fixture.afterReset. rewrite Hother by discriminate. reflexivity.
Defined.

Lemma X11_witness :
  exists st2 d,
    submitAnswerRoute Sample.env Sample.bank Sample.alice Sample.secondUpper
      Fixture.afterReset = (st2, Success d) /\
    r_attempts d = 1 /\
    User.totalAttempts (r_userStats d) = 0 + 1.
Proof.
  destruct (submitAnswerRoute_succeeds Sample.env Sample.bank Sample.alice
              Sample.secondUpper Fixture.afterReset "b" User.newStats)
    as (st2 & d & Hrun); [reflexivity | discriminate | reflexivity | reflexivity |].
  destruct (X11_reset_restarts_the_topic Sample.env Sample.bank Sample.alice
              Sample.secondUpper Fixture.studiedAll st2 d User.newStats)
    as (_ & Hattempts & _ & Htotal & _); [reflexivity | exact Hrun |].
  exists st2, d. split; [exact Hrun|]. split; [exact Hattempts | exact Htotal].
Defined.

Lemma X12_witness :
  weakAreasRoute Sample.env Sample.alice Fixture.studiedAll
  = (Fixture.studiedAll,
     Success [("ALG"%string, Fixture.algebraRecord); ("GRA"%string, Fixture.grammarRecord)]) /\
  forall topicId p,
    In (topicId, p) [("ALG"%string, Fixture.algebraRecord);
                     ("GRA"%string, Fixture.grammarRecord)] ->
    findProgress Sample.alice topicId Fixture.studiedAll = Some p /\
    (Progress.mastery p < 0.5)%Q /\ 3 <= Progress.attempts p.
Proof.
  assert (Hrun : weakAreasRoute Sample.env Sample.alice Fixture.studiedAll
                 = (Fixture.studiedAll,
                    Success [("ALG"%string, Fixture.algebraRecord);
                             ("GRA"%string, Fixture.grammarRecord)]))
    by (vm_compute; reflexivity).
  split; [exact Hrun|].
  destruct (X12_weak_areas _ _ _ _ _ Hrun) as (_ & _ & Hsound & _).
  exact Hsound.
Defined.

Lemma X13_witness :
  readyForReviewRoute Sample.env Sample.noon Sample.alice Fixture.studiedAll
  = (Fixture.studiedAll, Success [("GEO"%string, Fixture.geometryRecord)]) /\
  forall topicId p,
    In (topicId, p) [("GEO"%string, Fixture.geometryRecord)] ->
    findProgress Sample.alice topicId Fixture.studiedAll = Some p /\
    (0.5 <= Progress.mastery p)%Q /\
    exists t, Progress.lastReview p = Some t /\ t < Sample.noon - 7 * msPerDay.
Proof.
  assert (Hrun : readyForReviewRoute Sample.env Sample.noon Sample.alice Fixture.studiedAll
                 = (Fixture.studiedAll, Success [("GEO"%string, Fixture.geometryRecord)]))
    by (vm_compute; reflexivity).
  split; [exact Hrun|].
  destruct (X13_ready_for_review _ _ _ _ _ _ Hrun) as (_ & _ & Hsound & _).
  exact Hsound.
Defined.

Lemma X14_witness :
  weakAreasRoute Sample.env Sample.alice Fixture.afterSubmit
  = (Fixture.afterSubmit, Success [("GRA"%string, Fixture.grammarRecord)]) /\
  forall p, ~ In ("ALG"%string, p) [("GRA"%string, Fixture.grammarRecord)].
Proof.
  assert (Hweak : weakAreasRoute Sample.env Sample.alice Fixture.afterSubmit
                  = (Fixture.afterSubmit, Success [("GRA"%string, Fixture.grammarRecord)]))
    by (vm_compute; reflexivity).
  split; [exact Hweak|]. intros p.
  destruct (submitAnswerRoute Sample.env Sample.bank Sample.alice Sample.secondUpper
              Fixture.studied) as [st' [d|status message]] eqn:Hrun;
    [|vm_compute in Hrun; discriminate].
  assert (Hst : st' = Fixture.afterSubmit)
    by (unfold Fixture.afterSubmit; rewrite Hrun; reflexivity).
  subst st'.
  destruct (X14_fresh_topic_is_not_proposed Sample.env Sample.env Sample.bank
              Sample.alice Sample.secondUpper Fixture.studied Fixture.afterSubmit d
              Sample.noon [("GRA"%string, Fixture.grammarRecord)] p Hrun) as [Hfresh _].
  apply Hfresh; [reflexivity | exact Hweak].
Defined.

Lemma X15_witness :
  joinRoute (Fixture.joinAs Fixture.bob "b0b") (Fixture.request " Bob " "c0ffee")
    Fixture.site0
  = (Fixture.joined, Sent 201 (Fixture.bobData "signed" Sample.noon)) /\
  accountColl Fixture.site0 !! Fixture.bob = None /\
  accountColl Fixture.joined !! Fixture.bob = Some Fixture.bobAccount /\
  userColl (store Fixture.joined) !! Fixture.bob = Some User.newStats /\
  accountColl Fixture.joined !! Fixture.admin = accountColl Fixture.site0 !! Fixture.admin.
Proof.
  assert (Hrun : joinRoute (Fixture.joinAs Fixture.bob "b0b")
                   (Fixture.request " Bob " "c0ffee") Fixture.site0
                 = (Fixture.joined, Sent 201 (Fixture.bobData "signed" Sample.noon)))
    by (vm_compute; reflexivity).
  destruct (X15_join_admits _ _ _ _ _ Hrun)
    as (code & name & link & Hc & Hn & _ & _ & _ & _ & _ & _ & _ & Hfree & Hnew & Hstats
        & _ & Hothers & _).
  injection Hc as <-. injection Hn as <-.
  split; [exact Hrun|]. split; [exact Hfree|]. split; [exact Hnew|].
  split; [exact Hstats|]. apply Hothers. discriminate.
Defined.

Lemma X16_witness :
  fst (joinRoute (Fixture.joinAs Fixture.bob "b0b") (Fixture.request "Bob" "decaf")
         Fixture.site0) = Fixture.site0.
Proof.
  destruct (X16_join_refusals (Fixture.joinAs Fixture.bob "b0b")
              (Fixture.request "Bob" "decaf") Fixture.site0 _ _
              (surjective_pairing _)) as [_ Hsame].
  apply Hsame. right. vm_compute. reflexivity.
Defined.

Lemma X17_witness :
  admissions "c0ffee" Fixture.queue (snd (joinAll Fixture.queue Fixture.site0)) = 2 /\
  exists link',
    inviteColl (fst (joinAll Fixture.queue Fixture.site0)) !! "c0ffee" = Some link' /\
    InviteLink.maxUses link' = Some 2%Q /\
    0 + admissions "c0ffee" Fixture.queue (snd (joinAll Fixture.queue Fixture.site0))
    <= InviteLink.usedCount link' /\
    (InviteLink.usedCount link' = 0 \/ (inject_Z (InviteLink.usedCount link') < 2 + 1)%Q).
Proof.
  split; [vm_compute; reflexivity|].
  apply (X17_link_capacity Fixture.queue Fixture.site0 _ _ "c0ffee" Fixture.welcome 2%Q
           (surjective_pairing _)).
  - reflexivity.
  - reflexivity.
  - discriminate.
Defined.

Lemma X18_witness :
  exists link,
    inviteColl Fixture.site0 !! "c0ffee" = Some link /\
    InviteLink.isActive link = true /\
    (forall expiry, InviteLink.expiresAt link = Some expiry -> Sample.noon <= expiry).
Proof.
  destruct (X18_validate Fixture.noFault Sample.noon "c0ffee" Fixture.site0 _ _
              (surjective_pairing _)) as (_ & [Hvalid _] & _).
  destruct Hvalid as (_ & link & Hlink & Hactive & Hexpiry & _);
    [vm_compute; reflexivity|].
  exists link. repeat split; assumption.
Defined.

Lemma X19_witness :
  exists s' data,
    joinRoute (Fixture.joinAs Fixture.bob "b0b") (Fixture.request " Bob " "c0ffee")
      Fixture.site0 = (s', Sent 201 data).
Proof.
  destruct (X19_validate_then_join Fixture.noFault (Fixture.joinAs Fixture.bob "b0b")
              (Fixture.request " Bob " "c0ffee") Fixture.site0 " Bob " "c0ffee"
              (Sent 200 (Some "Class A"%string, None))) as [_ Hjoin];
    [vm_compute; reflexivity | reflexivity | discriminate | reflexivity | discriminate
    | reflexivity |].
  apply (Hjoin (Some "Class A"%string, None));
    [reflexivity | vm_compute; discriminate | reflexivity | reflexivity | reflexivity
    | reflexivity | discriminate].
Defined.

Lemma X20_witness :
  deactivateInviteRoute Fixture.noFault Fixture.admin 11 Fixture.site0
  = (Fixture.closed, Sent 200 "Invite link deactivated"%string) /\
  exists code link,
    inviteColl Fixture.site0 !! code = Some link /\ InviteLink.id link = 11%N /\
    InviteLink.createdBy link = Fixture.admin /\
    (forall faults now,
       replyStatus (validateInviteRoute faults now code Fixture.closed).2 <> 200) /\
    (forall env body,
       jb_inviteCode body = Some code ->
       (joinRoute env body Fixture.closed).1 = Fixture.closed /\
       replyStatus (joinRoute env body Fixture.closed).2 <> 201).
Proof.
  assert (Hrun : deactivateInviteRoute Fixture.noFault Fixture.admin 11 Fixture.site0
                 = (Fixture.closed, Sent 200 "Invite link deactivated"%string))
    by (vm_compute; reflexivity).
  split; [exact Hrun|].
  destruct (X20_deactivate_invite _ _ _ _ _ _ Hrun) as [Hdone _].
  destruct (Hdone eq_refl) as (code & link & Hlink & Hid & Hby & _ & Hvalidate & Hjoin).
  exists code, link. repeat split; try assumption; apply Hjoin; assumption.
Defined.

Lemma X21_witness :
  accountColl
    (fst (toggleStatusRoute Fixture.noFault Fixture.bob
            (fst (toggleStatusRoute Fixture.noFault Fixture.bob Fixture.joined))))
  = accountColl Fixture.joined.
Proof.
  destruct (X21_toggle_twice Fixture.noFault Fixture.noFault Fixture.bob Fixture.joined
              _ _ _ _ (surjective_pairing _) (surjective_pairing _)) as [_ Hback].
  destruct Hback as (account & _ & _ & Hsame & _);
    [vm_compute; reflexivity | vm_compute; reflexivity |].
  exact Hsame.
Defined.

Lemma X22_witness :
  exists account,
    accountColl Fixture.joined !! Fixture.bob = Some account /\
    quickLoginRoute Fixture.noFault (Sample.noon + Sample.hour) (Some "again"%string)
      (Some "b0b"%string) Fixture.joined
    = (setAccounts
         (<[Fixture.bob := loggedIn (Sample.noon + Sample.hour) account]>
            (accountColl Fixture.joined)) Fixture.joined,
       Sent 200 (Fixture.bobData "again" (Sample.noon + Sample.hour))).
Proof.
  apply (X22_join_then_quick_login (Fixture.joinAs Fixture.bob "b0b")
           (Fixture.request " Bob " "c0ffee") Fixture.site0 Fixture.joined
           (Fixture.bobData "signed" Sample.noon) Fixture.noFault
           (Sample.noon + Sample.hour) "again").
  - vm_compute. reflexivity.
  - discriminate.
  - reflexivity.
  - reflexivity.
Defined.

Lemma X23_witness :
  quickLoginRoute Fixture.noFault (Sample.noon + Sample.hour) (Some "again"%string)
    (Some "b0b"%string)
    (fst (toggleStatusRoute Fixture.noFault Fixture.bob Fixture.joined))
  = (fst (toggleStatusRoute Fixture.noFault Fixture.bob Fixture.joined),
     Refused 404 "Invalid session. Please use invite link again." None).
Proof.
  apply (X23_status_gates_quick_login Fixture.noFault Fixture.bob Fixture.joined _ _
           Fixture.bobAccount "b0b" Fixture.noFault (Sample.noon + Sample.hour) "again"
           (surjective_pairing _)).
  - vm_compute. reflexivity.
  - vm_compute. reflexivity.
  - reflexivity.
  - discriminate.
  - intros other held.
    change (accountColl Fixture.joined)
      with (<[Fixture.bob := Fixture.bobAccount]>
              ({[ Fixture.admin := Fixture.adminAccount ]} : gmap UserId Account)).
    destruct (decide (other = Fixture.bob)) as [|Hdiff]; [tauto|].
    rewrite lookup_insert_ne by congruence.
    intros Hheld Htoken. apply lookup_singleton_Some in Hheld as [_ <-].
    discriminate.
  - reflexivity.
  - reflexivity.
Defined.

Lemma X24_witness :
  accountColl (fst (deleteUserRoute Fixture.noFault Fixture.bob Fixture.joined))
    !! Fixture.bob = None /\
  inviteColl (fst (deleteUserRoute Fixture.noFault Fixture.bob Fixture.joined))
  = inviteColl Fixture.joined.
Proof.
  destruct (X24_delete_user Fixture.noFault Fixture.bob Fixture.joined _ _
              (surjective_pairing _)) as [Hdone _].
  destruct Hdone as (Hgone & _ & _ & _ & _ & Hlinks & _); [vm_compute; reflexivity|].
  split; [exact Hgone | exact Hlinks].
Defined.

Lemma X25_witness :
  exists s' message account,
    joinRoute (Fixture.joinSaveFailing Fixture.bob "b0b")
      (Fixture.request " Bob " "c0ffee") Fixture.site0
    = (s', Refused 500 "Error joining with invite code" message) /\
    accountColl s' !! Fixture.bob = Some account /\
    acc_usedInviteCode account = Some "c0ffee"%string /\
    In (Fixture.bob, account) (joinedWith "c0ffee" s') /\
    inviteColl s' !! "c0ffee" = Some Fixture.welcome.
Proof.
  apply (X25_join_failure_keeps_account (Fixture.joinSaveFailing Fixture.bob "b0b")
           (Fixture.request " Bob " "c0ffee") Fixture.site0 "c0ffee" " Bob "
           Fixture.welcome);
    [reflexivity | discriminate | reflexivity | vm_compute; discriminate | reflexivity
    | reflexivity | reflexivity | reflexivity | reflexivity | reflexivity
    | left; reflexivity].
Defined.

Lemma X26_witness :
  createInviteRoute (Fixture.createAs 12 "decaf") Fixture.admin Fixture.classB
    Fixture.site0
  = (Fixture.extended, Sent 201 Fixture.created) /\
  inviteColl Fixture.site0 !! "decaf" = None /\
  replyStatus (validateInviteRoute Fixture.noFault Sample.noon "decaf"
                 Fixture.extended).2 = 200 /\
  exists link,
    inviteColl Fixture.extended !! "decaf" = Some link /\
    InviteLink.createdBy link = Fixture.admin /\ InviteLink.usedCount link = 0.
Proof.
  assert (Hrun : createInviteRoute (Fixture.createAs 12 "decaf") Fixture.admin
                   Fixture.classB Fixture.site0
                 = (Fixture.extended, Sent 201 Fixture.created))
    by (vm_compute; reflexivity).
  destruct (X26_create_invite _ _ _ _ _ _ Hrun)
    as (_ & _ & Hfree & link & _ & Hlink & Hby & _ & Hcount & _ & _ & Hvalid).
  split; [exact Hrun|]. split; [exact Hfree|]. split.
  - apply (Hvalid Fixture.noFault Sample.noon eq_refl). split.
    + intros n [= <-] _. vm_compute. discriminate.
    + intros m [= <-]. vm_compute. discriminate.
  - exists link. repeat split; assumption.
Defined.

Lemma X27_witness :
  (exists s2,
     deactivateInviteRoute Fixture.noFault Fixture.admin 12 Fixture.extended
     = (s2, Sent 200 "Invite link deactivated"%string) /\
     inviteColl s2 !! "decaf"
     = Some (InviteLink.deactivate
               (newInvite (Fixture.createAs 12 "decaf") Fixture.admin Fixture.classB))) /\
  deactivateInviteRoute Fixture.noFault Fixture.bob 12 Fixture.extended
  = (Fixture.extended, Refused 403 "Not authorized to delete this invite link" None).
Proof.
  destruct (X27_creator_deactivates (Fixture.createAs 12 "decaf") Fixture.admin
              Fixture.classB Fixture.site0 Fixture.extended Fixture.created
              Fixture.noFault) as [Hcreator Hothers].
  - vm_compute. reflexivity.
  - intros code held Hheld. unfold Fixture.site0 in Hheld. cbn [inviteColl] in Hheld.
    apply lookup_singleton_Some in Hheld as [_ <-]. discriminate.
  - reflexivity.
  - reflexivity.
  - split; [exact Hcreator|]. apply Hothers. discriminate.
Defined.

Lemma X28_witness :
  exists r,
    statsRoute Fixture.noStatsFault (Sample.noon + Sample.hour) Sample.alice
      User.newStats Fixture.afterSubmit
    = (Fixture.afterSubmit, Success r) /\
    0 <= us_overallAccuracy r <= 100 /\
    sumOf (map dp_total (us_dailyPerformance r)) = us_weekActivity r.
Proof.
  destruct (statsAmong Fixture.noStatsFault (Sample.noon + Sample.hour) Sample.alice
              User.newStats (fun _ => Fixture.afterSubmit)) as [r|status message] eqn:Hrun;
    [|vm_compute in Hrun; discriminate].
  destruct (X28_user_stats _ _ _ _ _ _ Hrun (fun _ => eq_refl))
    as (Halone & _ & _ & Hrange & _ & _ & Hsum & _).
  exists r. split; [rewrite Halone, Hrun; reflexivity|].
  split; [exact Hrange | exact Hsum].
Defined.

Lemma X29_witness :
  exists d r r',
    submitAnswerRoute Sample.env Sample.bank Sample.alice Sample.secondUpper
      Fixture.studied = (Fixture.afterSubmit, Success d) /\
    statsRoute Fixture.noStatsFault (Sample.noon + Sample.hour) Sample.alice
      User.newStats Fixture.studied = (Fixture.studied, Success r) /\
    statsRoute Fixture.noStatsFault (Sample.noon + Sample.hour) Sample.alice
      (r_userStats d) Fixture.afterSubmit = (Fixture.afterSubmit, Success r') /\
    us_totalAttempts r' = us_totalAttempts r + 1 /\
    us_weekActivity r' = us_weekActivity r + 1.
Proof.
  destruct (submitAnswerRoute Sample.env Sample.bank Sample.alice Sample.secondUpper
              Fixture.studied) as [st' [d|status message]] eqn:Hrun;
    [|vm_compute in Hrun; discriminate].
  assert (Hst : st' = Fixture.afterSubmit)
    by (unfold Fixture.afterSubmit; rewrite Hrun; reflexivity).
  subst st'.
  assert (Hstats : exists r,
            statsRoute Fixture.noStatsFault (Sample.noon + Sample.hour) Sample.alice
              User.newStats Fixture.studied = (Fixture.studied, Success r))
    by (rewrite statsRoute_run; eexists; reflexivity).
  destruct Hstats as [r Hstats].
  destruct (X29_stats_after_submit Sample.env Sample.bank Sample.alice Sample.secondUpper
              Fixture.studied Fixture.afterSubmit d Fixture.noStatsFault
              (Sample.noon + Sample.hour) User.newStats (r_userStats d) r Hrun Hstats)
    as (r' & Hafter & Htotal & _ & Hweek & _); [vm_compute; discriminate|].
  exists d, r, r'. repeat split; assumption.
Defined.
